(** * terraform-provider-panop: zone and asset reconcilers, zone and asset listers

    A shallow embedding of [internal/provider]: the resource lifecycle
    operations (Create, Read, Update, Delete, ImportState) of
    [PanopZoneResource] and [PanopAssetResource], and the [Read] of the two
    data sources, together with the parts of Go's [strconv] and
    [encoding/json] and of terraform-plugin-framework's state handling that
    these operations go through.

    Layout: Go base library ([strconv], integer conversions), JSON documents
    and [encoding/json] decoding, the framework's values, diagnostics and
    schema-typed data, HTTP messages, then the provider itself; the
    properties follow the definitions. *)

From Stdlib Require Import ZArith String Ascii List Bool Lia.
From stdpp Require Import base option gmap strings list pretty.

Open Scope string_scope.
Open Scope list_scope.
Open Scope Z_scope.

#[local] Set Warnings "-register-all,-clear-no-such-hyp".

(* ===================================================================== *)
(** ** Go integers and [strconv] *)
(* ===================================================================== *)

Module Go.

Definition minInt64 : Z := - 2 ^ 63.
Definition maxInt64 : Z := 2 ^ 63 - 1.
Definition maxUint64 : Z := 2 ^ 64 - 1.

Definition in_int64 (z : Z) : bool := (minInt64 <=? z) && (z <=? maxInt64).
Definition in_uint64 (z : Z) : bool := (0 <=? z) && (z <=? maxUint64).

(** [uint64] arithmetic wraps modulo 2^64. *)
Definition wrap_uint64 (z : Z) : Z := z mod 2 ^ 64.

(** The conversion [int64(u)] of a [uint] (64 bits wide): the same bit
    pattern read as two's complement. *)
Definition int64_of_uint (u : Z) : Z :=
  if u <? 2 ^ 63 then u else u - 2 ^ 64.

(** [fmt.Sprintf("%d", z)]. *)
Definition Sprintf_d (z : Z) : string := pretty z.

(** *** strconv *)

Inductive NumError := ErrSyntax | ErrRange.

Definition byte_val (c : ascii) : Z := Z.of_nat (nat_of_ascii c).

(** [lower(c)] is [c | ('x' - 'X')]. *)
Definition lower (c : ascii) : Z := Z.lor (byte_val c) 32.

(** The loop of [strconv.ParseUint(s, 10, 64)] over the bytes of [s], with
    [n] the value accumulated so far.  [base0] is false for base 10, so an
    underscore falls through to the [default] case. *)
Fixpoint ParseUint_loop (s : string) (n : Z) : Z * option NumError :=
  match s with
  | EmptyString => (n, None)
  | String c rest =>
      let cutoff := maxUint64 / 10 + 1 in
      let maxVal := 2 ^ 64 - 1 in
      let digit : option Z :=
        if (48 <=? byte_val c) && (byte_val c <=? 57) then Some (byte_val c - 48)
        else if (97 <=? lower c) && (lower c <=? 122) then Some (lower c - 97 + 10)
        else None in
      match digit with
      | None => (0, Some ErrSyntax)
      | Some d =>
          if 10 <=? d then (0, Some ErrSyntax)
          else if cutoff <=? n then (maxVal, Some ErrRange)
          else
            let n' := wrap_uint64 (n * 10) in
            let n1 := wrap_uint64 (n' + d) in
            if (n1 <? n') || (maxVal <? n1) then (maxVal, Some ErrRange)
            else ParseUint_loop rest n1
      end
  end.

Definition ParseUint (s : string) : Z * option NumError :=
  match s with
  | EmptyString => (0, Some ErrSyntax)
  | _ => ParseUint_loop s 0
  end.

(** [strconv.ParseInt(s, 10, 64)]: the value and the error Go returns
    with it. *)
Definition ParseInt (s : string) : Z * option NumError :=
  match s with
  | EmptyString => (0, Some ErrSyntax)
  | String c rest =>
      let '(neg, s') :=
        if Ascii.eqb c "+"%char then (false, rest)
        else if Ascii.eqb c "-"%char then (true, rest)
        else (false, s) in
      match ParseUint s' with
      | (_, Some ErrSyntax) => (0, Some ErrSyntax)
      | (un, _) =>
          let cutoff := 2 ^ 63 in
          if negb neg && (cutoff <=? un) then (cutoff - 1, Some ErrRange)
          else if neg && (cutoff <? un) then (- cutoff, Some ErrRange)
          else (if neg then - un else un, None)
      end
  end.

End Go.

(* ===================================================================== *)
(** ** JSON documents and [encoding/json] *)
(* ===================================================================== *)

Module Json.

(** A JSON number literal.  An integer literal is kept as sign and
    magnitude (the literal [-0] differs from [0] for an unsigned target);
    a literal with a fraction or an exponent keeps its text, which no
    integer target accepts. *)
Inductive number :=
| Int (neg : bool) (mag : N)
| Real (lit : string).

(** Object members are kept in document order, duplicates included. *)
Inductive json :=
| Null
| Bool (b : bool)
| Number (n : number)
| Str (s : string)
| Array (elems : list json)
| Object (members : list (string * json)).

(** The bytes of a message body as [encoding/json] sees them: its scanner
    ([checkValid]) rejects them, or they are one JSON document. *)
Inductive document :=
| Invalid
| Valid (j : json).

Definition int_of (neg : bool) (mag : N) : Z :=
  if neg then - Z.of_N mag else Z.of_N mag.

(** *** Encoding *)

Definition marshal_int64 (z : Z) : json := Number (Int (z <? 0) (Z.abs_N z)).
Definition marshal_string (s : string) : json := Str s.

(** *** Decoding

    Every store function takes the JSON value and the current content of
    the Go variable and returns the new content together with a flag that
    is [true] when an [UnmarshalTypeError] was recorded: the decoder then
    skips the value, leaves the variable as it was and goes on with the
    rest of the document.  The literal [null] leaves a non-pointer
    variable unchanged and is no error. *)

Definition store_int64 (j : json) (cur : Z) : Z * bool :=
  match j with
  | Null => (cur, false)
  | Number (Int neg mag) =>
      if Go.in_int64 (int_of neg mag) then (int_of neg mag, false) else (cur, true)
  | _ => (cur, true)
  end.

Definition store_uint (j : json) (cur : Z) : Z * bool :=
  match j with
  | Null => (cur, false)
  | Number (Int false mag) =>
      if Go.in_uint64 (Z.of_N mag) then (Z.of_N mag, false) else (cur, true)
  | _ => (cur, true)
  end.

Definition store_string (j : json) (cur : string) : string * bool :=
  match j with
  | Null => (cur, false)
  | Str s => (s, false)
  | _ => (cur, true)
  end.

Definition store_bool (j : json) (cur : bool) : bool * bool :=
  match j with
  | Null => (cur, false)
  | Bool b => (b, false)
  | _ => (cur, true)
  end.

(** Case folding of an object key for the fallback field match.  The
    field names of this provider are ASCII, so the only runes outside
    ASCII that can take part in a match are U+212A KELVIN SIGN (bytes
    E2 84 AA), which folds with [k], and U+017F LATIN SMALL LETTER LONG S
    (bytes C5 BF), which folds with [s]. *)
Definition upper (c : ascii) : ascii :=
  let n := nat_of_ascii c in
  if ((97 <=? n) && (n <=? 122))%nat then ascii_of_nat (n - 32) else c.

Fixpoint foldName (s : string) : string :=
  match s with
  | EmptyString => EmptyString
  | String c rest =>
      match nat_of_ascii c, rest with
      | 226%nat, String c1 (String c2 r) =>
          if ((nat_of_ascii c1 =? 132) && (nat_of_ascii c2 =? 170))%nat
          then String "K" (foldName r)
          else String (upper c) (foldName rest)
      | 197%nat, String c1 r =>
          if (nat_of_ascii c1 =? 191)%nat
          then String "S" (foldName r)
          else String (upper c) (foldName rest)
      | _, _ => String (upper c) (foldName rest)
      end
  end.

Section Struct.
Context {T : Type}.

(** A struct field as the decoder knows it: the name of its [json] tag
    and the store into that field. *)
Definition field := (string * (json -> T -> T * bool))%type.

Variable fields : list field.

(** An exact match of the key is preferred, a match under case folding
    is accepted. *)
Definition find_field (key : string) : option field :=
  match find (fun f => String.eqb (fst f) key) fields with
  | Some f => Some f
  | None => find (fun f => String.eqb (foldName (fst f)) (foldName key)) fields
  end.

Definition store_member (m : string * json) (v : T) : T * bool :=
  match find_field (fst m) with
  | Some f => snd f (snd m) v
  | None => (v, false)
  end.

Fixpoint store_members (members : list (string * json)) (v : T) : T * bool :=
  match members with
  | [] => (v, false)
  | m :: rest =>
      let '(v1, e1) := store_member m v in
      let '(v2, e2) := store_members rest v1 in
      (v2, e1 || e2)
  end.

Definition store_struct (j : json) (v : T) : T * bool :=
  match j with
  | Null => (v, false)
  | Object members => store_members members v
  | _ => (v, true)
  end.

(** Decoding into a slice that is empty on entry, which is how every
    call of the provider passes it ([[]T{}]): one element per array
    element, each decoded into a zero value; [null] gives the nil
    slice; anything else is a type error and leaves the slice empty. *)
Definition store_slice (zero : T) (j : json) : list T * bool :=
  match j with
  | Null => ([], false)
  | Array elems =>
      let rs := map (fun e => store_struct e zero) elems in
      (map fst rs, existsb snd rs)
  | _ => ([], true)
  end.

End Struct.

(** [json.Unmarshal(body, &v)] for a struct variable holding [v]. *)
Definition Unmarshal {T} (fields : list (@field T)) (body : document) (v : T) : T * bool :=
  match body with
  | Invalid => (v, true)
  | Valid j => store_struct fields j v
  end.

(** [json.Unmarshal(body, &s)] for a slice variable [s] that is empty. *)
Definition Unmarshal_slice {T} (fields : list (@field T)) (zero : T) (body : document)
  : list T * bool :=
  match body with
  | Invalid => ([], true)
  | Valid j => store_slice fields zero j
  end.

End Json.

(* ===================================================================== *)
(** ** terraform-plugin-framework: values, diagnostics, schema-typed data *)
(* ===================================================================== *)

Module types.

(** [types.String]: null (the zero value of the Go type), unknown, or a
    known string. *)
Inductive StringT :=
| StringNull
| StringUnknown
| StringValue (s : string).

(** [types.Int64].  Go's [==] on two such values compares state and number,
    which is equality of this type. *)
Inductive Int64T :=
| Int64Null
| Int64Unknown
| Int64Value (z : Z).

#[global] Instance StringT_eq_dec : EqDecision StringT.
Proof. solve_decision. Defined.

#[global] Instance Int64T_eq_dec : EqDecision Int64T.
Proof. solve_decision. Defined.

Definition ValueString (v : StringT) : string :=
  match v with StringValue s => s | _ => "" end.

Definition ValueInt64 (v : Int64T) : Z :=
  match v with Int64Value z => z | _ => 0 end.

Definition IsNull (v : Int64T) : bool :=
  match v with Int64Null => true | _ => false end.

End types.

Module diag.

Inductive Severity := SeverityError | SeverityWarning.

Record Diagnostic := {
  severity : Severity;
  summary : string;
  detail : string
}.

#[global] Instance Severity_eq_dec : EqDecision Severity.
Proof. solve_decision. Defined.

#[global] Instance Diagnostic_eq_dec : EqDecision Diagnostic.
Proof. solve_decision. Defined.

Abbreviation Diagnostics := (list Diagnostic).

Definition NewErrorDiagnostic (s d : string) : Diagnostic :=
  {| severity := SeverityError; summary := s; detail := d |}.

Definition is_error (d : Diagnostic) : bool :=
  match severity d with SeverityError => true | SeverityWarning => false end.

Definition HasError (ds : Diagnostics) : bool := existsb is_error ds.

Definition Contains (ds : Diagnostics) (d : Diagnostic) : bool :=
  bool_decide (d ∈ ds).

(** [Append] leaves out a diagnostic that the collection already holds. *)
Definition Append (ds new : Diagnostics) : Diagnostics :=
  fold_left (fun acc d => if Contains acc d then acc else acc ++ [d]) new ds.

Definition AddError (ds : Diagnostics) (s d : string) : Diagnostics :=
  Append ds [NewErrorDiagnostic s d].

End diag.

Module tfsdk.
Import types diag.

(** *** Schemas

    Only the type of an attribute takes part in reading and writing data;
    the plan-time flags (Required, Optional, Computed, Default) do not and
    are left out.  The schemas of this provider nest one level: a list of
    objects whose attributes are primitive. *)

Inductive PrimAttribute := StringAttribute | Int64Attribute.

Inductive Attribute :=
| Prim (a : PrimAttribute)
| ListNestedAttribute (nested : gmap string PrimAttribute).

(** *** Values *)

Inductive PrimValue :=
| VString (v : StringT)
| VInt64 (v : Int64T).

Inductive ListT :=
| ListNull
| ListUnknown
| ListValue (elems : list (gmap string PrimValue)).

Inductive Value :=
| VPrim (p : PrimValue)
| VList (l : ListT).

(** The raw value of a [tfsdk.State], [tfsdk.Plan] or [tfsdk.Config]: the
    null object, or an object from attribute names to values.  The schema
    that goes with it is that of the resource or data source the call
    belongs to. *)
Abbreviation Data := (option (gmap string Value)).

Definition prim_has_type (t : PrimAttribute) (v : PrimValue) : bool :=
  match t, v with
  | StringAttribute, VString _ => true
  | Int64Attribute, VInt64 _ => true
  | _, _ => false
  end.

Definition null_of (t : Attribute) : Value :=
  match t with
  | Prim StringAttribute => VPrim (VString StringNull)
  | Prim Int64Attribute => VPrim (VInt64 Int64Null)
  | ListNestedAttribute _ => VList ListNull
  end.

(** The one diagnostic the reflection reports when a value and a Go target
    do not fit; the detail text of the framework is longer. *)
Definition ValueConversionError (why : string) : Diagnostic :=
  NewErrorDiagnostic "Value Conversion Error" why.

(** *** Reading into a struct ([Get])

    The object and the struct must have the same field names exactly: the
    attribute names of the object on one side, the [tfsdk] tags of the
    struct on the other.  A null object does not fit a struct. *)
Definition Struct (tags : list string) (raw : Data)
  : Diagnostics * option (gmap string Value) :=
  match raw with
  | None => ([ValueConversionError "unhandled null value"], None)
  | Some o =>
      if bool_decide (dom o = list_to_set tags) then ([], Some o)
      else ([ValueConversionError "mismatch between struct and object"], None)
  end.

Definition Into_String (v : option Value) : option StringT :=
  match v with Some (VPrim (VString s)) => Some s | _ => None end.

Definition Into_Int64 (v : option Value) : option Int64T :=
  match v with Some (VPrim (VInt64 i)) => Some i | _ => None end.

Definition Elem_String (v : option PrimValue) : option StringT :=
  match v with Some (VString s) => Some s | _ => None end.

Definition Elem_Int64 (v : option PrimValue) : option Int64T :=
  match v with Some (VInt64 i) => Some i | _ => None end.

(** A Go slice is [None] when nil.  A null list reads as the nil slice, an
    unknown list does not fit a slice. *)
Definition Into_slice {M} (tags : list string)
    (elem : gmap string PrimValue -> option M) (v : option Value)
  : option (option (list M)) :=
  match v with
  | Some (VList ListNull) => Some None
  | Some (VList (ListValue es)) =>
      Some <$> mapM (fun e =>
                 if bool_decide (dom e = list_to_set tags) then elem e else None) es
  | _ => None
  end.

(** *** Writing from a struct ([Set], [SetAttribute]) *)

Definition FromStruct_elem (nested : gmap string PrimAttribute)
    (fields : list (string * PrimValue)) : option (gmap string PrimValue) :=
  if bool_decide (dom nested = list_to_set fields.*1)
     && forallb (fun f => match nested !! f.1 with
                          | Some t => prim_has_type t f.2
                          | None => false
                          end) fields
  then Some (list_to_map fields)
  else None.

(** The nil slice writes as the null list. *)
Definition FromSlice (nested : gmap string PrimAttribute)
    (s : option (list (list (string * PrimValue)))) : option ListT :=
  match s with
  | None => Some ListNull
  | Some es => ListValue <$> mapM (FromStruct_elem nested) es
  end.

(** A struct field on its way into the state: a primitive, or a slice of
    nested structs still to be checked against the nested schema. *)
Inductive FieldValue :=
| FPrim (p : PrimValue)
| FSlice (s : option (list (list (string * PrimValue)))).

Definition FromValue (t : Attribute) (f : FieldValue) : option Value :=
  match t, f with
  | Prim a, FPrim p => if prim_has_type a p then Some (VPrim p) else None
  | ListNestedAttribute nested, FSlice s => VList <$> FromSlice nested s
  | _, _ => None
  end.

Definition FromStruct (schema : gmap string Attribute)
    (fields : list (string * FieldValue)) : option (gmap string Value) :=
  if bool_decide (dom schema = list_to_set fields.*1)
  then list_to_map
         <$> mapM (fun f => match schema !! f.1 with
                            | Some t => (fun v => (f.1, v)) <$> FromValue t f.2
                            | None => None
                            end) fields
  else None.

(** [State.Set(ctx, &data)]: the diagnostics it returns and the state
    afterwards, which is unchanged when the struct does not fit. *)
Definition Set_ (schema : gmap string Attribute)
    (fields : list (string * FieldValue)) (st : Data) : Diagnostics * Data :=
  match FromStruct schema fields with
  | Some o => ([], Some o)
  | None => ([ValueConversionError "mismatch between struct and object"], st)
  end.

(** [State.SetAttribute(ctx, path.Root(name), v)] for a Go [int64]: a null
    state first becomes the object whose attributes are all null. *)
Definition SetAttribute_int64 (schema : gmap string Attribute)
    (name : string) (v : Z) (st : Data) : Diagnostics * Data :=
  match schema !! name with
  | Some (Prim Int64Attribute) =>
      let o := default (null_of <$> schema) st in
      ([], Some (<[name := VPrim (VInt64 (Int64Value v))]> o))
  | _ => ([ValueConversionError "value does not fit the attribute"], st)
  end.

End tfsdk.

(* ===================================================================== *)
(** ** net/http *)
(* ===================================================================== *)

Module http.

Definition MethodGet : string := "GET".
Definition MethodPost : string := "POST".
Definition MethodDelete : string := "DELETE".

Definition StatusOK : Z := 200.
Definition StatusCreated : Z := 201.

Record URL := {
  Scheme : string;
  Host : string;
  Path : string
}.

(** An outbound request.  The body is the JSON document whose encoding
    [json.Marshal] produced, or [None] for a nil body. *)
Record Request := {
  Method : string;
  Url : URL;
  Header : list (string * string);
  ReqBody : option Json.json
}.

(** A response: [Body] is what [io.ReadAll(httpResp.Body)] gives, an error
    text or the bytes. *)
Record Response := {
  StatusCode : Z;
  Status : string;
  Body : string + Json.document
}.

(** [client.Do]: a transport error text or the response of the remote
    service. *)
Abbreviation Client := (Request -> string + Response).

Definition HeaderAdd (r : Request) (k v : string) : Request :=
  {| Method := Method r; Url := Url r;
     Header := Header r ++ [(k, v)]; ReqBody := ReqBody r |}.

End http.

(* ===================================================================== *)
(** ** The provider: data models *)
(* ===================================================================== *)

(** Go declares the request and response structs of the remote API inside
    the functions that use them, several under the same name; each gets a
    module of its own here.  A module holds the struct as [t], its zero
    value, and what the reflection of [encoding/json] or of the framework
    derives from its field tags. *)

(** [ZoneResourceModel]: the state of a [panop_zone] resource. *)
Module ZoneResourceModel.
Import types tfsdk.

Record t := mk {
  ZoneName : StringT;
  Id : Int64T;
  ZoneType : StringT;
  Token : StringT
}.

Definition zero : t := mk StringNull Int64Null StringNull StringNull.

Definition tags : list string := ["zone_name"; "id"; "zone_type"; "token"].

Definition Get (raw : Data) : diag.Diagnostics * t :=
  match Struct tags raw with
  | (ds, None) => (ds, zero)
  | (ds, Some o) =>
      match Into_String (o !! "zone_name"), Into_Int64 (o !! "id"),
            Into_String (o !! "zone_type"), Into_String (o !! "token") with
      | Some n, Some i, Some ty, Some tk => (ds, mk n i ty tk)
      | _, _, _, _ => ([ValueConversionError "value does not fit the field"], zero)
      end
  end.

Definition fields (d : t) : list (string * FieldValue) :=
  [ ("zone_name", FPrim (VString (ZoneName d)));
    ("id", FPrim (VInt64 (Id d)));
    ("zone_type", FPrim (VString (ZoneType d)));
    ("token", FPrim (VString (Token d))) ].

End ZoneResourceModel.

(** [AssetResourceModel]: the state of a [panop_asset] resource. *)
Module AssetResourceModel.
Import types tfsdk.

Record t := mk {
  AssetName : StringT;
  Id : Int64T;
  ZoneId : Int64T
}.

Definition zero : t := mk StringNull Int64Null Int64Null.

Definition tags : list string := ["asset_name"; "id"; "zone_id"].

Definition Get (raw : Data) : diag.Diagnostics * t :=
  match Struct tags raw with
  | (ds, None) => (ds, zero)
  | (ds, Some o) =>
      match Into_String (o !! "asset_name"), Into_Int64 (o !! "id"),
            Into_Int64 (o !! "zone_id") with
      | Some n, Some i, Some z => (ds, mk n i z)
      | _, _, _ => ([ValueConversionError "value does not fit the field"], zero)
      end
  end.

Definition fields (d : t) : list (string * FieldValue) :=
  [ ("asset_name", FPrim (VString (AssetName d)));
    ("id", FPrim (VInt64 (Id d)));
    ("zone_id", FPrim (VInt64 (ZoneId d))) ].

End AssetResourceModel.

(** [ZoneModel]: one entry of the zone data source. *)
Module ZoneModel.
Import types tfsdk.

Record t := mk {
  ZoneName : StringT;
  TenantId : Int64T;
  Id : Int64T;
  ZoneType : StringT;
  Token : StringT
}.

Definition tags : list string :=
  ["zone_name"; "tenant_id"; "id"; "zone_type"; "token"].

Definition of_elem (e : gmap string PrimValue) : option t :=
  match Elem_String (e !! "zone_name"), Elem_Int64 (e !! "tenant_id"),
        Elem_Int64 (e !! "id"), Elem_String (e !! "zone_type"),
        Elem_String (e !! "token") with
  | Some n, Some tn, Some i, Some ty, Some tk => Some (mk n tn i ty tk)
  | _, _, _, _, _ => None
  end.

Definition fields (d : t) : list (string * PrimValue) :=
  [ ("zone_name", VString (ZoneName d));
    ("tenant_id", VInt64 (TenantId d));
    ("id", VInt64 (Id d));
    ("zone_type", VString (ZoneType d));
    ("token", VString (Token d)) ].

End ZoneModel.

(** [PanopZoneDataSourceModel]: the state of the zone data source. *)
Module PanopZoneDataSourceModel.
Import types tfsdk.

Record t := mk {
  Zones : option (list ZoneModel.t)
}.

Definition zero : t := mk None.

Definition tags : list string := ["zones"].

Definition Get (raw : Data) : diag.Diagnostics * t :=
  match Struct tags raw with
  | (ds, None) => (ds, zero)
  | (ds, Some o) =>
      match Into_slice ZoneModel.tags ZoneModel.of_elem (o !! "zones") with
      | Some zs => (ds, mk zs)
      | None => ([ValueConversionError "value does not fit the field"], zero)
      end
  end.

Definition fields (d : t) : list (string * FieldValue) :=
  [ ("zones", FSlice (map ZoneModel.fields <$> Zones d)) ].

End PanopZoneDataSourceModel.

(** [AssetDataSourceModel]: one entry of the asset data source. *)
Module AssetDataSourceModel.
Import types tfsdk.

Record t := mk {
  AssetId : Int64T;
  AssetName : StringT;
  ZoneId : Int64T
}.

Definition tags : list string := ["id"; "asset_name"; "zone_id"].

Definition of_elem (e : gmap string PrimValue) : option t :=
  match Elem_Int64 (e !! "id"), Elem_String (e !! "asset_name"),
        Elem_Int64 (e !! "zone_id") with
  | Some i, Some n, Some z => Some (mk i n z)
  | _, _, _ => None
  end.

Definition fields (d : t) : list (string * PrimValue) :=
  [ ("id", VInt64 (AssetId d));
    ("asset_name", VString (AssetName d));
    ("zone_id", VInt64 (ZoneId d)) ].

End AssetDataSourceModel.

(** [PanopAssetDataSourceModel]: the configuration and state of the asset
    data source, the [zone_id] filter and the listed assets. *)
Module PanopAssetDataSourceModel.
Import types tfsdk.

Record t := mk {
  ZoneId : Int64T;
  Assets : option (list AssetDataSourceModel.t)
}.

Definition zero : t := mk Int64Null None.

Definition tags : list string := ["zone_id"; "assets"].

Definition Get (raw : Data) : diag.Diagnostics * t :=
  match Struct tags raw with
  | (ds, None) => (ds, zero)
  | (ds, Some o) =>
      match Into_Int64 (o !! "zone_id"),
            Into_slice AssetDataSourceModel.tags AssetDataSourceModel.of_elem
                       (o !! "assets") with
      | Some z, Some az => (ds, mk z az)
      | _, _ => ([ValueConversionError "value does not fit the field"], zero)
      end
  end.

Definition fields (d : t) : list (string * FieldValue) :=
  [ ("zone_id", FPrim (VInt64 (ZoneId d)));
    ("assets", FSlice (map AssetDataSourceModel.fields <$> Assets d)) ].

End PanopAssetDataSourceModel.

(** [ZoneInput] of [PanopZoneResource.Create]: the create payload. *)
Module ZoneInput.

Record t := mk {
  ZoneName : string;
  TenantId : Z
}.

(** [json.Marshal]: every field, in declaration order, under its tag. *)
Definition Marshal (v : t) : Json.json :=
  Json.Object [ ("zone_name", Json.marshal_string (ZoneName v));
                ("tenant_id", Json.marshal_int64 (TenantId v)) ].

End ZoneInput.

(** [ZoneResponse] of [PanopZoneResource.Create]. *)
Module ZoneCreateResponse.

Record t := mk {
  ZoneId : Z;
  ZoneName : string;
  ZoneType : string;
  Validated : bool;
  Token : string
}.

Definition zero : t := mk 0 "" "" false "".

Definition fields : list (@Json.field t) :=
  [ ("zone_id", fun j v =>
       let '(x, e) := Json.store_uint j (ZoneId v) in
       (mk x (ZoneName v) (ZoneType v) (Validated v) (Token v), e));
    ("zone_name", fun j v =>
       let '(x, e) := Json.store_string j (ZoneName v) in
       (mk (ZoneId v) x (ZoneType v) (Validated v) (Token v), e));
    ("zone_type", fun j v =>
       let '(x, e) := Json.store_string j (ZoneType v) in
       (mk (ZoneId v) (ZoneName v) x (Validated v) (Token v), e));
    ("validated", fun j v =>
       let '(x, e) := Json.store_bool j (Validated v) in
       (mk (ZoneId v) (ZoneName v) (ZoneType v) x (Token v), e));
    ("token", fun j v =>
       let '(x, e) := Json.store_string j (Token v) in
       (mk (ZoneId v) (ZoneName v) (ZoneType v) (Validated v) x, e)) ].

End ZoneCreateResponse.

(** [ZoneResponse] of [PanopZoneResource.Read]: [Id] is an [int64],
    [TenantId] a [uint]. *)
Module ZoneReadResponse.

Record t := mk {
  Id : Z;
  ZoneName : string;
  ZoneType : string;
  Validated : bool;
  Token : string;
  TenantId : Z
}.

Definition zero : t := mk 0 "" "" false "" 0.

Definition fields : list (@Json.field t) :=
  [ ("id", fun j v =>
       let '(x, e) := Json.store_int64 j (Id v) in
       (mk x (ZoneName v) (ZoneType v) (Validated v) (Token v) (TenantId v), e));
    ("zone_name", fun j v =>
       let '(x, e) := Json.store_string j (ZoneName v) in
       (mk (Id v) x (ZoneType v) (Validated v) (Token v) (TenantId v), e));
    ("zone_type", fun j v =>
       let '(x, e) := Json.store_string j (ZoneType v) in
       (mk (Id v) (ZoneName v) x (Validated v) (Token v) (TenantId v), e));
    ("validated", fun j v =>
       let '(x, e) := Json.store_bool j (Validated v) in
       (mk (Id v) (ZoneName v) (ZoneType v) x (Token v) (TenantId v), e));
    ("token", fun j v =>
       let '(x, e) := Json.store_string j (Token v) in
       (mk (Id v) (ZoneName v) (ZoneType v) (Validated v) x (TenantId v), e));
    ("tenant_id", fun j v =>
       let '(x, e) := Json.store_uint j (TenantId v) in
       (mk (Id v) (ZoneName v) (ZoneType v) (Validated v) (Token v) x, e)) ].

End ZoneReadResponse.

(** [ZoneResponse] of [PanopZoneDataSource.Read]: [Id] and [TenantId] are
    both [uint]. *)
Module ZoneListResponse.

Record t := mk {
  Id : Z;
  ZoneName : string;
  ZoneType : string;
  Validated : bool;
  Token : string;
  TenantId : Z
}.

Definition zero : t := mk 0 "" "" false "" 0.

Definition fields : list (@Json.field t) :=
  [ ("id", fun j v =>
       let '(x, e) := Json.store_uint j (Id v) in
       (mk x (ZoneName v) (ZoneType v) (Validated v) (Token v) (TenantId v), e));
    ("zone_name", fun j v =>
       let '(x, e) := Json.store_string j (ZoneName v) in
       (mk (Id v) x (ZoneType v) (Validated v) (Token v) (TenantId v), e));
    ("zone_type", fun j v =>
       let '(x, e) := Json.store_string j (ZoneType v) in
       (mk (Id v) (ZoneName v) x (Validated v) (Token v) (TenantId v), e));
    ("validated", fun j v =>
       let '(x, e) := Json.store_bool j (Validated v) in
       (mk (Id v) (ZoneName v) (ZoneType v) x (Token v) (TenantId v), e));
    ("token", fun j v =>
       let '(x, e) := Json.store_string j (Token v) in
       (mk (Id v) (ZoneName v) (ZoneType v) (Validated v) x (TenantId v), e));
    ("tenant_id", fun j v =>
       let '(x, e) := Json.store_uint j (TenantId v) in
       (mk (Id v) (ZoneName v) (ZoneType v) (Validated v) (Token v) x, e)) ].

End ZoneListResponse.

(** [AssetInput] of [PanopAssetResource.Create]: the create payload. *)
Module AssetInput.

Record t := mk {
  AssetName : string;
  ZoneId : Z
}.

Definition Marshal (v : t) : Json.json :=
  Json.Object [ ("asset_name", Json.marshal_string (AssetName v));
                ("zone_id", Json.marshal_int64 (ZoneId v)) ].

End AssetInput.

(** [AssetResponse] of [PanopAssetResource.Create]. *)
Module AssetCreateResponse.

Record t := mk {
  AssetId : Z;
  AssetName : string
}.

Definition zero : t := mk 0 "".

Definition fields : list (@Json.field t) :=
  [ ("asset_id", fun j v =>
       let '(x, e) := Json.store_uint j (AssetId v) in (mk x (AssetName v), e));
    ("asset_name", fun j v =>
       let '(x, e) := Json.store_string j (AssetName v) in (mk (AssetId v) x, e)) ].

End AssetCreateResponse.

(** [AssetResponse] of [PanopAssetResource.Read] and of
    [PanopAssetDataSource.Read], which declare the same struct. *)
Module AssetReadResponse.

Record t := mk {
  AssetId : Z;
  AssetName : string;
  ZoneId : Z
}.

Definition zero : t := mk 0 "" 0.

Definition fields : list (@Json.field t) :=
  [ ("id", fun j v =>
       let '(x, e) := Json.store_int64 j (AssetId v) in
       (mk x (AssetName v) (ZoneId v), e));
    ("asset_name", fun j v =>
       let '(x, e) := Json.store_string j (AssetName v) in
       (mk (AssetId v) x (ZoneId v), e));
    ("zone_id", fun j v =>
       let '(x, e) := Json.store_int64 j (ZoneId v) in
       (mk (AssetId v) (AssetName v) x, e)) ].

End AssetReadResponse.

(* ===================================================================== *)
(** ** The provider: schemas, requests, operations *)
(* ===================================================================== *)

Module provider.
Import types tfsdk http.

(** The client settings [Configure] copies into every resource and data
    source.  [clientHttp] stands for [clientHttp.Do]: the configured client
    together with the remote service behind it. *)
Record clientObj := {
  clientHttp : Client;
  host : string;
  accessKey : string
}.

(** The attributes of [PanopZoneResource.Schema]. *)
Definition zone_schema : gmap string Attribute :=
  list_to_map [ ("id", Prim Int64Attribute);
                ("zone_name", Prim StringAttribute);
                ("zone_type", Prim StringAttribute);
                ("token", Prim StringAttribute) ].

(** The attributes of [PanopAssetResource.Schema]. *)
Definition asset_schema : gmap string Attribute :=
  list_to_map [ ("asset_name", Prim StringAttribute);
                ("id", Prim Int64Attribute);
                ("zone_id", Prim Int64Attribute) ].

(** The attributes of [PanopZoneDataSource.Schema]. *)
Definition zone_data_schema : gmap string Attribute :=
  list_to_map [ ("zones", ListNestedAttribute (list_to_map
                  [ ("zone_name", StringAttribute);
                    ("tenant_id", Int64Attribute);
                    ("id", Int64Attribute);
                    ("zone_type", StringAttribute);
                    ("token", StringAttribute) ])) ].

(** The attributes of [PanopAssetDataSource.Schema]. *)
Definition asset_data_schema : gmap string Attribute :=
  list_to_map [ ("zone_id", Prim Int64Attribute);
                ("assets", ListNestedAttribute (list_to_map
                  [ ("asset_name", StringAttribute);
                    ("id", Int64Attribute);
                    ("zone_id", Int64Attribute) ])) ].

(** The requests of the framework, with the fields the provider reads. *)
Record CreateRequest := { CreatePlan : Data }.
Record ReadRequest := { ReadState : Data }.
Record UpdateRequest := { UpdatePlan : Data; UpdateState : Data }.
Record DeleteRequest := { DeleteState : Data }.
Record ImportStateRequest := { ID : string }.
Record DataSourceReadRequest := { Config : Data }.

(** The response the framework hands to an operation and reads back when
    it returns; every response type of the framework has these two
    fields. *)
Record Response := {
  State : Data;
  Diagnostics : diag.Diagnostics
}.

Definition Append (resp : Response) (ds : diag.Diagnostics) : Response :=
  {| State := State resp; Diagnostics := diag.Append (Diagnostics resp) ds |}.

Definition AddError (resp : Response) (s d : string) : Response :=
  {| State := State resp; Diagnostics := diag.AddError (Diagnostics resp) s d |}.

Definition HasError (resp : Response) : bool := diag.HasError (Diagnostics resp).

(** [resp.Diagnostics.Append(resp.State.Set(ctx, &data)...)]. *)
Definition StateSet (schema : gmap string Attribute)
    (fields : list (string * FieldValue)) (resp : Response) : Response :=
  let '(ds, st) := Set_ schema fields (State resp) in
  {| State := st; Diagnostics := diag.Append (Diagnostics resp) ds |}.

(** Go's [append] on a slice that may be nil. *)
Definition append {M} (s : option (list M)) (m : M) : option (list M) :=
  Some (default [] s ++ [m]).

(** The loop of [PanopZoneResource.Read]: the first entry with the held
    identifier overwrites name, token and type, then the loop breaks. *)
Fixpoint refresh_zone (zones : list ZoneReadResponse.t) (data : ZoneResourceModel.t)
  : ZoneResourceModel.t :=
  match zones with
  | [] => data
  | zone :: rest =>
      if ZoneReadResponse.Id zone =? ValueInt64 (ZoneResourceModel.Id data)
      then ZoneResourceModel.mk
             (StringValue (ZoneReadResponse.ZoneName zone))
             (ZoneResourceModel.Id data)
             (StringValue (ZoneReadResponse.ZoneType zone))
             (StringValue (ZoneReadResponse.Token zone))
      else refresh_zone rest data
  end.

(** The loop of [PanopAssetResource.Read]. *)
Fixpoint refresh_asset (assets : list AssetReadResponse.t) (data : AssetResourceModel.t)
  : AssetResourceModel.t :=
  match assets with
  | [] => data
  | asset :: rest =>
      if AssetReadResponse.AssetId asset =? ValueInt64 (AssetResourceModel.Id data)
      then AssetResourceModel.mk
             (StringValue (AssetReadResponse.AssetName asset))
             (AssetResourceModel.Id data)
             (Int64Value (AssetReadResponse.ZoneId asset))
      else refresh_asset rest data
  end.

(** The loop of [PanopZoneDataSource.Read]. *)
Fixpoint collect_zones (zones : list ZoneListResponse.t)
    (acc : option (list ZoneModel.t)) : option (list ZoneModel.t) :=
  match zones with
  | [] => acc
  | zone :: rest =>
      let zoneModel :=
        ZoneModel.mk (StringValue (ZoneListResponse.ZoneName zone))
                     (Int64Value (Go.int64_of_uint (ZoneListResponse.TenantId zone)))
                     (Int64Value (Go.int64_of_uint (ZoneListResponse.Id zone)))
                     (StringValue (ZoneListResponse.ZoneType zone))
                     (StringValue (ZoneListResponse.Token zone)) in
      collect_zones rest (append acc zoneModel)
  end.

(** The loop of [PanopAssetDataSource.Read], with [filter] the [zone_id] of
    the configuration. *)
Fixpoint collect_assets (assets : list AssetReadResponse.t) (filter : Int64T)
    (acc : option (list AssetDataSourceModel.t)) : option (list AssetDataSourceModel.t) :=
  match assets with
  | [] => acc
  | asset :: rest =>
      let assetModel :=
        AssetDataSourceModel.mk (Int64Value (AssetReadResponse.AssetId asset))
                                (StringValue (AssetReadResponse.AssetName asset))
                                (Int64Value (AssetReadResponse.ZoneId asset)) in
      if bool_decide (AssetDataSourceModel.ZoneId assetModel = filter) || IsNull filter
      then collect_assets rest filter (append acc assetModel)
      else collect_assets rest filter acc
  end.

Section Operations.

(** [http.NewRequest] renders the URL and parses it back;
    [NewRequest_error u] is the error it reports for [u], if any. *)
Variable NewRequest_error : URL -> option string.

Definition NewRequest (method : string) (u : URL) (body : option Json.json)
  : string + Request :=
  match NewRequest_error u with
  | Some err => inl err
  | None => inr {| Method := method; Url := u; Header := []; ReqBody := body |}
  end.

(** Every operation takes the response as the framework prepared it and
    returns the requests it sent, in order, with the response as it leaves
    it: once a request is built it is sent, and what comes back decides
    the response.  Writes to the log are not part of the model. *)

Definition PanopZoneResource_Create (r : clientObj) (req : CreateRequest)
    (resp : Response) : list Request * Response :=
  let '(ds, data) := ZoneResourceModel.Get (CreatePlan req) in
  let resp := Append resp ds in
  if HasError resp then ([], resp) else
  let urlSvc := {| Scheme := "https"; Host := host r; Path := "/api/zones" |} in
  let zoneInput := ZoneInput.mk (ValueString (ZoneResourceModel.ZoneName data)) 0 in
  let body := ZoneInput.Marshal zoneInput in
  match NewRequest MethodPost urlSvc (Some body) with
  | inl err =>
      ([], AddError resp "JSON Marshal Error"
             ("Unable to marshal zoneInput to JSON, got error: " +:+ err))
  | inr httpReq =>
      let httpReq := HeaderAdd httpReq "Authorization" ("Bearer " +:+ accessKey r) in
      let httpReq := HeaderAdd httpReq "Content-Type" "application/json" in
      ([httpReq],
       match clientHttp r httpReq with
       | inl err =>
           AddError resp "Client Error"
             ("Unable to create example, got error: " +:+ err)
       | inr httpResp =>
           match Body httpResp with
           | inl err =>
               AddError resp "Client Error"
                 ("Unable to create zone, got error: " +:+ err)
           | inr respBody =>
               if negb (StatusCode httpResp =? StatusCreated) then
                 AddError resp "Client Error"
                   "Unable to create zone, got error, check your configuration"
               else
                 let zone := (Json.Unmarshal ZoneCreateResponse.fields respBody
                                ZoneCreateResponse.zero).1 in
                 let data := ZoneResourceModel.mk
                               (ZoneResourceModel.ZoneName data)
                               (ZoneResourceModel.Id data)
                               (ZoneResourceModel.ZoneType data)
                               (StringValue (ZoneCreateResponse.Token zone)) in
                 let data := ZoneResourceModel.mk
                               (ZoneResourceModel.ZoneName data)
                               (Int64Value (Go.int64_of_uint
                                              (ZoneCreateResponse.ZoneId zone)))
                               (ZoneResourceModel.ZoneType data)
                               (ZoneResourceModel.Token data) in
                 StateSet zone_schema (ZoneResourceModel.fields data) resp
           end
       end)
  end.

Definition PanopZoneResource_Read (r : clientObj) (req : ReadRequest)
    (resp : Response) : list Request * Response :=
  let '(ds, data) := ZoneResourceModel.Get (ReadState req) in
  let resp := Append resp ds in
  if HasError resp then ([], resp) else
  let urlSvc := {| Scheme := "https"; Host := host r; Path := "/api/zones" |} in
  match NewRequest MethodGet urlSvc None with
  | inl err => ([], AddError resp "HTTP request creation error" err)
  | inr httpReq =>
      let httpReq := HeaderAdd httpReq "Authorization" ("Bearer " +:+ accessKey r) in
      let httpReq := HeaderAdd httpReq "Content-Type" "application/json" in
      ([httpReq],
       match clientHttp r httpReq with
       | inl err => AddError resp "HTTP request error" err
       | inr httpResp =>
           match Body httpResp with
           | inl err =>
               AddError resp "Client Error"
                 ("Unable to create zonne, got error: " +:+ err)
           | inr respBody =>
               if negb (StatusCode httpResp =? StatusOK) then
                 AddError resp "Client Error"
                   ("Unable to create zone, got error: " +:+ Status httpResp)
               else
                 let zones := (Json.Unmarshal_slice ZoneReadResponse.fields
                                 ZoneReadResponse.zero respBody).1 in
                 let data := refresh_zone zones data in
                 StateSet zone_schema (ZoneResourceModel.fields data) resp
           end
       end)
  end.

Definition PanopZoneResource_Update (r : clientObj) (req : UpdateRequest)
    (resp : Response) : list Request * Response :=
  let '(ds, data) := ZoneResourceModel.Get (UpdatePlan req) in
  let resp := Append resp ds in
  if HasError resp then ([], resp) else
  ([], StateSet zone_schema (ZoneResourceModel.fields data) resp).

(** The source does not look at the diagnostics of reading the state
    before it sends the request. *)
Definition PanopZoneResource_Delete (r : clientObj) (req : DeleteRequest)
    (resp : Response) : list Request * Response :=
  let '(ds, data) := ZoneResourceModel.Get (DeleteState req) in
  let resp := Append resp ds in
  let urlSvc := {| Scheme := "https"; Host := host r;
                   Path := "/api/zones/"
                           +:+ Go.Sprintf_d (ValueInt64 (ZoneResourceModel.Id data)) |} in
  match NewRequest MethodDelete urlSvc None with
  | inl err => ([], AddError resp "HTTP request creation error" err)
  | inr httpReq =>
      let httpReq := HeaderAdd httpReq "Authorization" ("Bearer " +:+ accessKey r) in
      ([httpReq],
       match clientHttp r httpReq with
       | inl err => AddError resp "HTTP request error" err
       | inr httpResp =>
           if negb (StatusCode httpResp =? StatusOK) then
             (* [err] is nil here, which the verb [%s] prints so *)
             AddError resp "Client Error" "Unable to send deletion: %!s(<nil>)"
           else resp
       end)
  end.

(** The error of [strconv.ParseInt] is dropped. *)
Definition PanopZoneResource_ImportState (r : clientObj) (req : ImportStateRequest)
    (resp : Response) : list Request * Response :=
  let id := (Go.ParseInt (ID req)).1 in
  let '(ds, st) := SetAttribute_int64 zone_schema "id" id (State resp) in
  ([], {| State := st; Diagnostics := diag.Append (Diagnostics resp) ds |}).

Definition PanopAssetResource_Create (r : clientObj) (req : CreateRequest)
    (resp : Response) : list Request * Response :=
  let '(ds, data) := AssetResourceModel.Get (CreatePlan req) in
  let resp := Append resp ds in
  if HasError resp then ([], resp) else
  let urlSvc := {| Scheme := "https"; Host := host r; Path := "/api/assets" |} in
  let assetInput := AssetInput.mk (ValueString (AssetResourceModel.AssetName data))
                                  (ValueInt64 (AssetResourceModel.ZoneId data)) in
  let body := AssetInput.Marshal assetInput in
  match NewRequest MethodPost urlSvc (Some body) with
  | inl err =>
      ([], AddError resp "JSON Marshal Error"
             ("Unable to marshal assetInput to JSON, got error: " +:+ err))
  | inr httpReq =>
      let httpReq := HeaderAdd httpReq "Authorization" ("Bearer " +:+ accessKey r) in
      let httpReq := HeaderAdd httpReq "Content-Type" "application/json" in
      ([httpReq],
       match clientHttp r httpReq with
       | inl err =>
           AddError resp "Client Error"
             ("Unable to create example, got error: " +:+ err)
       | inr httpResp =>
           match Body httpResp with
           | inl err =>
               AddError resp "Client Error"
                 ("Unable to create asset, got error: " +:+ err)
           | inr respBody =>
               if negb (StatusCode httpResp =? StatusCreated) then
                 AddError resp "Client Error"
                   ("Unable to create asset, got error: " +:+ Status httpResp)
               else
                 (* the source names this variable [zone] too *)
                 let zone := (Json.Unmarshal AssetCreateResponse.fields respBody
                                AssetCreateResponse.zero).1 in
                 let data := AssetResourceModel.mk
                               (StringValue (AssetCreateResponse.AssetName zone))
                               (AssetResourceModel.Id data)
                               (AssetResourceModel.ZoneId data) in
                 let data := AssetResourceModel.mk
                               (AssetResourceModel.AssetName data)
                               (Int64Value (Go.int64_of_uint
                                              (AssetCreateResponse.AssetId zone)))
                               (AssetResourceModel.ZoneId data) in
                 StateSet asset_schema (AssetResourceModel.fields data) resp
           end
       end)
  end.

Definition PanopAssetResource_Read (r : clientObj) (req : ReadRequest)
    (resp : Response) : list Request * Response :=
  let '(ds, data) := AssetResourceModel.Get (ReadState req) in
  let resp := Append resp ds in
  if HasError resp then ([], resp) else
  let urlSvc := {| Scheme := "https"; Host := host r; Path := "/api/assets" |} in
  match NewRequest MethodGet urlSvc None with
  | inl err => ([], AddError resp "HTTP request creation error" err)
  | inr httpReq =>
      let httpReq := HeaderAdd httpReq "Authorization" ("Bearer " +:+ accessKey r) in
      let httpReq := HeaderAdd httpReq "Content-Type" "application/json" in
      ([httpReq],
       match clientHttp r httpReq with
       | inl err => AddError resp "HTTP request error" err
       | inr httpResp =>
           match Body httpResp with
           | inl err =>
               AddError resp "Client Error"
                 ("Unable to create zonne, got error: " +:+ err)
           | inr respBody =>
               if negb (StatusCode httpResp =? StatusOK) then
                 AddError resp "Client Error"
                   ("Unable to create zone, got error: " +:+ Status httpResp)
               else
                 let assets := (Json.Unmarshal_slice AssetReadResponse.fields
                                  AssetReadResponse.zero respBody).1 in
                 let data := refresh_asset assets data in
                 StateSet asset_schema (AssetResourceModel.fields data) resp
           end
       end)
  end.

(** The source declares [data] as a [ZoneResourceModel] here. *)
Definition PanopAssetResource_Update (r : clientObj) (req : UpdateRequest)
    (resp : Response) : list Request * Response :=
  let '(ds, data) := ZoneResourceModel.Get (UpdatePlan req) in
  let resp := Append resp ds in
  if HasError resp then ([], resp) else
  ([], StateSet asset_schema (ZoneResourceModel.fields data) resp).

(** The source does not look at the diagnostics of reading the state
    before it sends the request. *)
Definition PanopAssetResource_Delete (r : clientObj) (req : DeleteRequest)
    (resp : Response) : list Request * Response :=
  let '(ds, data) := AssetResourceModel.Get (DeleteState req) in
  let resp := Append resp ds in
  let urlSvc := {| Scheme := "https"; Host := host r;
                   Path := "/api/assets/"
                           +:+ Go.Sprintf_d (ValueInt64 (AssetResourceModel.Id data)) |} in
  match NewRequest MethodDelete urlSvc None with
  | inl err => ([], AddError resp "HTTP request creation error" err)
  | inr httpReq =>
      let httpReq := HeaderAdd httpReq "Authorization" ("Bearer " +:+ accessKey r) in
      let httpReq := HeaderAdd httpReq "Content-Type" "application/json" in
      ([httpReq],
       match clientHttp r httpReq with
       | inl err => AddError resp "HTTP request error" err
       | inr httpResp =>
           if negb (StatusCode httpResp =? StatusOK) then
             (* [err] is nil here, which the verb [%t] prints so *)
             AddError resp "Client Error" "Unable to send deletion: %!t(<nil>)"
           else resp
       end)
  end.

(** The error of [strconv.ParseInt] is dropped. *)
Definition PanopAssetResource_ImportState (r : clientObj) (req : ImportStateRequest)
    (resp : Response) : list Request * Response :=
  let id := (Go.ParseInt (ID req)).1 in
  let '(ds, st) := SetAttribute_int64 asset_schema "id" id (State resp) in
  ([], {| State := st; Diagnostics := diag.Append (Diagnostics resp) ds |}).

Definition PanopZoneDataSource_Read (d : clientObj) (req : DataSourceReadRequest)
    (resp : Response) : list Request * Response :=
  let '(ds, data) := PanopZoneDataSourceModel.Get (Config req) in
  let resp := Append resp ds in
  if HasError resp then ([], resp) else
  let urlSvc := {| Scheme := "https"; Host := host d; Path := "/api/zones" |} in
  match NewRequest MethodGet urlSvc None with
  | inl err => ([], AddError resp "HTTP request creation error" err)
  | inr httpReq =>
      let httpReq := HeaderAdd httpReq "Authorization" ("Bearer " +:+ accessKey d) in
      let httpReq := HeaderAdd httpReq "Content-Type" "application/json" in
      ([httpReq],
       match clientHttp d httpReq with
       | inl err => AddError resp "HTTP request error" err
       | inr httpResp =>
           match Body httpResp with
           | inl err =>
               AddError resp "Client Error"
                 ("Unable to create zonne, got error: " +:+ err)
           | inr respBody =>
               if negb (StatusCode httpResp =? StatusOK) then
                 AddError resp "Client Error"
                   ("Unable to create zone, got error: " +:+ Status httpResp)
               else
                 let zones := (Json.Unmarshal_slice ZoneListResponse.fields
                                 ZoneListResponse.zero respBody).1 in
                 let data := PanopZoneDataSourceModel.mk
                               (collect_zones zones
                                  (PanopZoneDataSourceModel.Zones data)) in
                 StateSet zone_data_schema (PanopZoneDataSourceModel.fields data) resp
           end
       end)
  end.

Definition PanopAssetDataSource_Read (d : clientObj) (req : DataSourceReadRequest)
    (resp : Response) : list Request * Response :=
  let '(ds, data) := PanopAssetDataSourceModel.Get (Config req) in
  let resp := Append resp ds in
  if HasError resp then ([], resp) else
  let urlSvc := {| Scheme := "https"; Host := host d; Path := "/api/assets" |} in
  match NewRequest MethodGet urlSvc None with
  | inl err => ([], AddError resp "HTTP request creation error" err)
  | inr httpReq =>
      let httpReq := HeaderAdd httpReq "Authorization" ("Bearer " +:+ accessKey d) in
      let httpReq := HeaderAdd httpReq "Content-Type" "application/json" in
      ([httpReq],
       match clientHttp d httpReq with
       | inl err => AddError resp "HTTP request error" err
       | inr httpResp =>
           match Body httpResp with
           | inl err =>
               AddError resp "Client Error"
                 ("Unable to create zonne, got error: " +:+ err)
           | inr respBody =>
               if negb (StatusCode httpResp =? StatusOK) then
                 AddError resp "Client Error"
                   ("Unable to create zone, got error: " +:+ Status httpResp)
               else
                 let assets := (Json.Unmarshal_slice AssetReadResponse.fields
                                  AssetReadResponse.zero respBody).1 in
                 let data := PanopAssetDataSourceModel.mk
                               (PanopAssetDataSourceModel.ZoneId data)
                               (collect_assets assets
                                  (PanopAssetDataSourceModel.ZoneId data)
                                  (PanopAssetDataSourceModel.Assets data)) in
                 StateSet asset_data_schema (PanopAssetDataSourceModel.fields data) resp
           end
       end)
  end.

End Operations.

End provider.

(* ===================================================================== *)
(** ** Vocabulary of the properties *)
(* ===================================================================== *)

Module spec.
Import types tfsdk http provider.

(** An operation that ran as [run] received [httpResp]: it sent exactly one
    request and the remote service answered that request with [httpResp]. *)
Definition receives (r : clientObj) (run : list Request * Response)
    (httpResp : http.Response) : Prop :=
  exists q, run.1 = [q] /\ clientHttp r q = inr httpResp.

(** The operations whose outcome hangs on one documented success code. *)
Inductive gated_op := ZoneCreate | AssetCreate | ZoneDelete | AssetDelete.

Definition success_code (op : gated_op) : Z :=
  match op with
  | ZoneCreate | AssetCreate => StatusCreated
  | ZoneDelete | AssetDelete => StatusOK
  end.

(** [d] is the plan of a create and the prior state of a delete. *)
Definition run_gated (nre : URL -> option string) (r : clientObj) (op : gated_op)
    (d : Data) (resp : Response) : list Request * Response :=
  match op with
  | ZoneCreate => PanopZoneResource_Create nre r {| CreatePlan := d |} resp
  | AssetCreate => PanopAssetResource_Create nre r {| CreatePlan := d |} resp
  | ZoneDelete => PanopZoneResource_Delete nre r {| DeleteState := d |} resp
  | AssetDelete => PanopAssetResource_Delete nre r {| DeleteState := d |} resp
  end.

(** A remote service that answers every request with the same response. *)
Definition always (httpResp : http.Response) : Client := fun _ => inr httpResp.

Definition client (httpResp : http.Response) : clientObj :=
  {| clientHttp := always httpResp; host := "tower.example"; accessKey := "key" |}.

Definition answer (status : Z) (body : Json.document) : http.Response :=
  {| StatusCode := status; Status := "status"; Body := inr body |}.

(** Every URL the provider builds is taken to parse. *)
Definition url_ok : URL -> option string := fun _ => None.

(** The response of the framework before an operation that starts from the
    state [st]. *)
Definition fresh (st : Data) : Response := {| State := st; Diagnostics := [] |}.

(** The object a zone state holds for the model [d], and likewise for an
    asset. *)
Definition zone_object (d : ZoneResourceModel.t) : gmap string Value :=
  list_to_map [ ("zone_name", VPrim (VString (ZoneResourceModel.ZoneName d)));
                ("id", VPrim (VInt64 (ZoneResourceModel.Id d)));
                ("zone_type", VPrim (VString (ZoneResourceModel.ZoneType d)));
                ("token", VPrim (VString (ZoneResourceModel.Token d))) ].

Definition asset_object (d : AssetResourceModel.t) : gmap string Value :=
  list_to_map [ ("asset_name", VPrim (VString (AssetResourceModel.AssetName d)));
                ("id", VPrim (VInt64 (AssetResourceModel.Id d)));
                ("zone_id", VPrim (VInt64 (AssetResourceModel.ZoneId d))) ].

(** The state of a data source read back into its model. *)
Definition listed_assets (st : Data) : list AssetDataSourceModel.t :=
  default [] (PanopAssetDataSourceModel.Assets (PanopAssetDataSourceModel.Get st).2).

Definition listed_zones (st : Data) : list ZoneModel.t :=
  default [] (PanopZoneDataSourceModel.Zones (PanopZoneDataSourceModel.Get st).2).

(** The entry the asset lister makes of a decoded record, and the zone
    lister of a decoded zone. *)
Definition asset_entry (a : AssetReadResponse.t) : AssetDataSourceModel.t :=
  AssetDataSourceModel.mk (Int64Value (AssetReadResponse.AssetId a))
                          (StringValue (AssetReadResponse.AssetName a))
                          (Int64Value (AssetReadResponse.ZoneId a)).

Definition zone_entry (z : ZoneListResponse.t) : ZoneModel.t :=
  ZoneModel.mk (StringValue (ZoneListResponse.ZoneName z))
               (Int64Value (Go.int64_of_uint (ZoneListResponse.TenantId z)))
               (Int64Value (Go.int64_of_uint (ZoneListResponse.Id z)))
               (StringValue (ZoneListResponse.ZoneType z))
               (StringValue (ZoneListResponse.Token z)).

(** The objects the data sources hold for a model. *)
Definition list_value (s : option (list (gmap string PrimValue))) : ListT :=
  match s with None => ListNull | Some es => ListValue es end.

Definition asset_data_object (d : PanopAssetDataSourceModel.t) : gmap string Value :=
  list_to_map
    [ ("zone_id", VPrim (VInt64 (PanopAssetDataSourceModel.ZoneId d)));
      ("assets", VList (list_value
         (map (fun m => list_to_map (AssetDataSourceModel.fields m))
            <$> PanopAssetDataSourceModel.Assets d))) ].

Definition zone_data_object (d : PanopZoneDataSourceModel.t) : gmap string Value :=
  list_to_map
    [ ("zones", VList (list_value
         (map (fun m => list_to_map (ZoneModel.fields m))
            <$> PanopZoneDataSourceModel.Zones d))) ].

(** The operations that fetch a collection and decode it. *)
Inductive read_op := ZoneRead | AssetRead | ZoneList | AssetList.

(** [d] is the prior state of a resource read and the configuration of a
    data source read. *)
Definition run_read (nre : URL -> option string) (r : clientObj) (op : read_op)
    (d : Data) (resp : Response) : list Request * Response :=
  match op with
  | ZoneRead => PanopZoneResource_Read nre r {| ReadState := d |} resp
  | AssetRead => PanopAssetResource_Read nre r {| ReadState := d |} resp
  | ZoneList => PanopZoneDataSource_Read nre r {| Config := d |} resp
  | AssetList => PanopAssetDataSource_Read nre r {| Config := d |} resp
  end.

(** The same client settings in front of a service that answers with
    [httpResp]. *)
Definition answering (r : clientObj) (httpResp : http.Response) : clientObj :=
  {| clientHttp := always httpResp; host := host r; accessKey := accessKey r |}.

Definition is_array (body : Json.document) : bool :=
  match body with Json.Valid (Json.Array _) => true | _ => false end.

Definition is_object (body : Json.document) : bool :=
  match body with Json.Valid (Json.Object _) => true | _ => false end.

(** Reading a payload: its member names, a member, an integer. *)
Definition keys (j : Json.json) : list string :=
  match j with Json.Object ms => ms.*1 | _ => [] end.

Definition member (k : string) (j : Json.json) : option Json.json :=
  match j with
  | Json.Object ms => snd <$> find (fun m => String.eqb m.1 k) ms
  | _ => None
  end.

Definition integer (j : Json.json) : option Z :=
  match j with
  | Json.Number (Json.Int neg mag) => Some (Json.int_of neg mag)
  | _ => None
  end.

(** The integer a request carries under the member [k] of its payload. *)
Definition payload_integer (k : string) (q : Request) : option Z :=
  match ReqBody q with
  | Some j => match member k j with Some v => integer v | None => None end
  | None => None
  end.

(** Whether a request carries a [token] member in its payload. *)
Definition carries_token (q : Request) : bool :=
  match ReqBody q with
  | Some j => bool_decide ("token" ∈ keys j)
  | None => false
  end.

(** *** Decimal strings

    An external identifier is numeric when it is an optional sign followed
    by one or more decimal digits; its value is then that of the digits
    read in base ten, negated after a minus sign. *)

Definition is_digit (c : ascii) : bool :=
  (48 <=? Go.byte_val c) && (Go.byte_val c <=? 57).

Fixpoint all_digits (s : string) : bool :=
  match s with
  | EmptyString => true
  | String c rest => is_digit c && all_digits rest
  end.

Fixpoint decimal_from (n : Z) (s : string) : Z :=
  match s with
  | EmptyString => n
  | String c rest => decimal_from (n * 10 + (Go.byte_val c - 48)) rest
  end.

Definition decimal (s : string) : Z := decimal_from 0 s.

Definition negative (s : string) : bool :=
  match s with
  | String c _ => Ascii.eqb c "-"%char
  | EmptyString => false
  end.

Definition unsigned_part (s : string) : string :=
  match s with
  | String c rest =>
      if Ascii.eqb c "+"%char || Ascii.eqb c "-"%char then rest else s
  | EmptyString => EmptyString
  end.

(** One or more digits. *)
Definition digits (u : string) : bool :=
  match u with
  | EmptyString => false
  | _ => all_digits u
  end.

Definition numeric (s : string) : bool := digits (unsigned_part s).

Definition decimal_integer (s : string) : Z :=
  if negative s then - decimal (unsigned_part s) else decimal (unsigned_part s).

(** The digits a string starts with. *)
Fixpoint digit_run (s : string) : string :=
  match s with
  | EmptyString => EmptyString
  | String c rest => if is_digit c then String c (digit_run rest) else EmptyString
  end.

(** The filter of the asset lister in the words of the specification: keep
    a record only if no [zone_id] filter was supplied, or the record's
    [zone_id] equals the supplied filter value. *)
Definition filter_by_zone (f : option Z) (assets : list AssetReadResponse.t)
  : list AssetReadResponse.t :=
  match f with
  | None => assets
  | Some z => List.filter (fun a => AssetReadResponse.ZoneId a =? z) assets
  end.

(** The [zone_id] of a configuration that supplies the filter [f]. *)
Definition filter_value (f : option Z) : Int64T :=
  match f with None => Int64Null | Some z => Int64Value z end.

(** The record an element of a decoded array gives: the members of an
    object are stored one after another into a zero value, each into the
    field its key names, whether or not the store reports an error; an
    element that is not an object gives the zero value. *)
Definition record {T} (fields : list (@Json.field T)) (zero : T) (e : Json.json) : T :=
  match e with
  | Json.Object ms => fold_left (fun v m => (Json.store_member fields m v).1) ms zero
  | _ => zero
  end.

End spec.

(* ===================================================================== *)
(** ** Sample inputs *)
(* ===================================================================== *)

Module sample.
Import types tfsdk http provider spec.

(** The plan of [resource "panop_zone" { zone_name = "example.com" }]: the
    type defaults to [dns], identifier and token are not known yet. *)
Definition zone_plan : Data :=
  Some (zone_object (ZoneResourceModel.mk (StringValue "example.com") Int64Unknown
                                          (StringValue "dns") StringUnknown)).

(** The state of that zone once created as zone 7. *)
Definition zone_state : Data :=
  Some (zone_object (ZoneResourceModel.mk (StringValue "example.com") (Int64Value 7)
                                          (StringValue "dns") (StringValue "tok-7"))).

(** A create response of the service that reports another type than the
    planned one. *)
Definition zone_created : Json.document :=
  Json.Valid (Json.Object [ ("zone_id", Json.Number (Json.Int false 7));
                            ("zone_name", Json.Str "example.com");
                            ("zone_type", Json.Str "web");
                            ("validated", Json.Bool false);
                            ("token", Json.Str "tok-7") ]).

Definition zone_doc (id : N) (name type token : string) : Json.json :=
  Json.Object [ ("id", Json.Number (Json.Int false id));
                ("zone_name", Json.Str name);
                ("zone_type", Json.Str type);
                ("validated", Json.Bool true);
                ("token", Json.Str token);
                ("tenant_id", Json.Number (Json.Int false 1)) ].

Definition two_zones : Json.document :=
  Json.Valid (Json.Array [ zone_doc 3 "other.org" "dns" "tok-3";
                           zone_doc 7 "example.com" "web" "tok-7b" ]).

(** A zone list whose only entry carries its identifier as a string. *)
Definition zones_bad_id : Json.document :=
  Json.Valid (Json.Array [ Json.Object [ ("id", Json.Str "x");
                                         ("zone_name", Json.Str "a") ] ]).

(** The plan of an asset [www] under zone 337, and its state as asset 5. *)
Definition asset_plan : Data :=
  Some (asset_object (AssetResourceModel.mk (StringValue "www") Int64Unknown
                                            (Int64Value 337))).

Definition asset_state : Data :=
  Some (asset_object (AssetResourceModel.mk (StringValue "www") (Int64Value 5)
                                            (Int64Value 337))).

(** A plan that renames that asset. *)
Definition asset_renamed : Data :=
  Some (asset_object (AssetResourceModel.mk (StringValue "mail") (Int64Value 5)
                                            (Int64Value 337))).

Definition asset_created : Json.document :=
  Json.Valid (Json.Object [ ("asset_id", Json.Number (Json.Int false 5));
                            ("asset_name", Json.Str "www") ]).

(** A create response that carries the identifier as a string. *)
Definition asset_created_bad_id : Json.document :=
  Json.Valid (Json.Object [ ("asset_id", Json.Str "5");
                            ("asset_name", Json.Str "www") ]).

Definition asset_doc (id : N) (name : string) (zone : N) : Json.json :=
  Json.Object [ ("id", Json.Number (Json.Int false id));
                ("asset_name", Json.Str name);
                ("zone_id", Json.Number (Json.Int false zone)) ].

(** Three assets, under the zones 1, 1 and 2. *)
Definition three_assets : Json.document :=
  Json.Valid (Json.Array [ asset_doc 10 "api" 1; asset_doc 11 "www" 1;
                           asset_doc 12 "mail" 2 ]).

(** The configuration of the asset data source with the filter [f]. *)
Definition asset_config (f : option Z) : Data :=
  Some (asset_data_object (PanopAssetDataSourceModel.mk (filter_value f) None)).

Definition zone_config : Data :=
  Some (zone_data_object (PanopZoneDataSourceModel.mk None)).

End sample.

(* ===================================================================== *)
(** ** The provider: configuration *)
(* ===================================================================== *)

(** The values of the provider configuration, which has a boolean beside
    its strings. *)
Module config.
Import types.

(** [types.Bool]. *)
Inductive BoolT :=
| BoolNull
| BoolUnknown
| BoolValue (b : bool).

Definition ValueBool (v : BoolT) : bool :=
  match v with BoolValue b => b | _ => false end.

(** [IsNull] of a [types.String]. *)
Definition IsNull (v : StringT) : bool :=
  match v with StringNull => true | _ => false end.

Inductive Value :=
| VString (v : StringT)
| VBool (v : BoolT).

(** The raw value of the provider's [tfsdk.Config]. *)
Abbreviation Data := (option (gmap string Value)).

End config.

(** [PanopProviderModel]. *)
Module PanopProviderModel.
Import types config.

Record t := mk {
  Host : StringT;
  SkipTLSVerify : BoolT;
  AccessKey : StringT
}.

Definition zero : t := mk StringNull BoolNull StringNull.

Definition tags : list string := ["host"; "skip_tls_verify"; "access_key"].

Definition Get (raw : Data) : diag.Diagnostics * t :=
  match raw with
  | None => ([tfsdk.ValueConversionError "unhandled null value"], zero)
  | Some o =>
      if bool_decide (dom o = list_to_set tags) then
        match o !! "host", o !! "skip_tls_verify", o !! "access_key" with
        | Some (VString h), Some (VBool s), Some (VString k) => ([], mk h s k)
        | _, _, _ =>
            ([tfsdk.ValueConversionError "value does not fit the field"], zero)
        end
      else ([tfsdk.ValueConversionError "mismatch between struct and object"], zero)
  end.

End PanopProviderModel.

Module configure.
Import types http provider.

(** What the provider hands to its resources and data sources, a Go [any]:
    a [clientObj], or a value of another type, of which only the name of
    the type is looked at. *)
Inductive any :=
| AnyClient (c : clientObj)
| AnyOther (typeName : string).

Record ProviderConfigureRequest := { ProviderConfig : config.Data }.

Record ProviderConfigureResponse := {
  ProviderDiagnostics : diag.Diagnostics;
  DataSourceData : option any;
  ResourceData : option any
}.

(** The request a resource or a data source is configured with. *)
Record ConfigureRequest := { ProviderData : option any }.

Section Environment.

(** [os.Getenv]: the empty string for a variable that is not set. *)
Variable Getenv : string -> string.

(** The [http.Client] built over a transport whose TLS configuration has
    the given [InsecureSkipVerify], together with the remote service
    behind it. *)
Variable dial : bool -> Client.

Definition PanopProvider_Configure (req : ProviderConfigureRequest)
    (resp : ProviderConfigureResponse) : ProviderConfigureResponse :=
  let '(ds, data) := PanopProviderModel.Get (ProviderConfig req) in
  let diags := diag.Append (ProviderDiagnostics resp) ds in
  if diag.HasError diags then
    {| ProviderDiagnostics := diags;
       DataSourceData := DataSourceData resp;
       ResourceData := ResourceData resp |}
  else
    let clientHttp := dial (config.ValueBool (PanopProviderModel.SkipTLSVerify data)) in
    let access_key := Getenv "PANOP_ACCESS_KEY" in
    let access_key :=
      if negb (config.IsNull (PanopProviderModel.AccessKey data))
         && String.eqb access_key ""
      then ValueString (PanopProviderModel.AccessKey data) else access_key in
    let host := Getenv "PANOP_HOST" in
    let host :=
      if negb (config.IsNull (PanopProviderModel.Host data)) && String.eqb host ""
      then ValueString (PanopProviderModel.Host data) else host in
    let client := {| clientHttp := clientHttp; host := host; accessKey := access_key |} in
    {| ProviderDiagnostics := diags;
       DataSourceData := Some (AnyClient client);
       ResourceData := Some (AnyClient client) |}.

End Environment.

(** A resource or data source as its constructor leaves it has a nil client
    and empty strings; [Configure] sets its three fields together.  So a
    receiver is [None] until it is configured and holds the client settings
    afterwards.  [Configure] returns the receiver and the diagnostics as it
    leaves them. *)

Definition PanopZoneResource_Configure (r : option clientObj) (req : ConfigureRequest)
    (diags : diag.Diagnostics) : option clientObj * diag.Diagnostics :=
  match ProviderData req with
  | None => (r, diags)
  | Some (AnyOther typeName) =>
      (r, diag.AddError diags "Unexpected Resource Configure Type"
            ("Expected clientObj, got: " +:+ typeName
             +:+ ". Please report this issue to the provider developers."))
  | Some (AnyClient client) =>
      (Some {| clientHttp := clientHttp client; host := host client;
               accessKey := accessKey client |}, diags)
  end.

Definition PanopAssetResource_Configure (r : option clientObj) (req : ConfigureRequest)
    (diags : diag.Diagnostics) : option clientObj * diag.Diagnostics :=
  match ProviderData req with
  | None => (r, diags)
  | Some (AnyOther typeName) =>
      (r, diag.AddError diags "Unexpected Resource Configure Type"
            ("Expected clientObj, got: " +:+ typeName
             +:+ ". Please report this issue to the provider developers."))
  | Some (AnyClient client) =>
      (Some {| clientHttp := clientHttp client; host := host client;
               accessKey := accessKey client |}, diags)
  end.

Definition PanopZoneDataSource_Configure (d : option clientObj) (req : ConfigureRequest)
    (diags : diag.Diagnostics) : option clientObj * diag.Diagnostics :=
  match ProviderData req with
  | None => (d, diags)
  | Some (AnyOther typeName) =>
      (d, diag.AddError diags "Unexpected Data Source Configure Type"
            ("Expected *http.Client, got: " +:+ typeName
             +:+ ". Please report this issue to the provider developers."))
  | Some (AnyClient client) =>
      (Some {| clientHttp := clientHttp client; host := host client;
               accessKey := accessKey client |}, diags)
  end.

Definition PanopAssetDataSource_Configure (d : option clientObj) (req : ConfigureRequest)
    (diags : diag.Diagnostics) : option clientObj * diag.Diagnostics :=
  match ProviderData req with
  | None => (d, diags)
  | Some (AnyOther typeName) =>
      (d, diag.AddError diags "Unexpected Data Source Configure Type"
            ("Expected *http.Client, got: " +:+ typeName
             +:+ ". Please report this issue to the provider developers."))
  | Some (AnyClient client) =>
      (Some {| clientHttp := clientHttp client; host := host client;
               accessKey := accessKey client |}, diags)
  end.

End configure.

(** Sample inputs of the provider's configuration. *)
Module sample_provider.
Import types config.

Definition config_of (h : StringT) (skip : BoolT) (k : StringT) : Data :=
  Some (list_to_map [ ("host", VString h); ("skip_tls_verify", VBool skip);
                      ("access_key", VString k) ]).

(** An environment that sets the two variables of the provider. *)
Definition env (h k : string) : string -> string :=
  fun name =>
    if String.eqb name "PANOP_HOST" then h
    else if String.eqb name "PANOP_ACCESS_KEY" then k
    else "".

(** A service that answers every request with [httpResp], whatever the TLS
    setting. *)
Definition dial (httpResp : http.Response) : bool -> http.Client :=
  fun _ _ => inr httpResp.

End sample_provider.

(* ===================================================================== *)
(** ** Vocabulary of the properties of whole operations *)
(* ===================================================================== *)

Module scenario.
Import types tfsdk http provider spec.

(** The operations that talk to the remote service. *)
Inductive operation :=
| OpZoneCreate | OpZoneRead | OpZoneDelete | OpZoneList
| OpAssetCreate | OpAssetRead | OpAssetDelete | OpAssetList.

(** [d] is the plan of a create, the prior state of a read or delete and
    the configuration of a data source. *)
Definition run (nre : URL -> option string) (r : clientObj) (op : operation)
    (d : Data) (resp : Response) : list Request * Response :=
  match op with
  | OpZoneCreate => PanopZoneResource_Create nre r {| CreatePlan := d |} resp
  | OpZoneRead => PanopZoneResource_Read nre r {| ReadState := d |} resp
  | OpZoneDelete => PanopZoneResource_Delete nre r {| DeleteState := d |} resp
  | OpZoneList => PanopZoneDataSource_Read nre r {| Config := d |} resp
  | OpAssetCreate => PanopAssetResource_Create nre r {| CreatePlan := d |} resp
  | OpAssetRead => PanopAssetResource_Read nre r {| ReadState := d |} resp
  | OpAssetDelete => PanopAssetResource_Delete nre r {| DeleteState := d |} resp
  | OpAssetList => PanopAssetDataSource_Read nre r {| Config := d |} resp
  end.

(** The status an operation takes for success. *)
Definition expects (op : operation) : Z :=
  match op with
  | OpZoneCreate | OpAssetCreate => 201
  | _ => 200
  end.

Definition is_delete (op : operation) : bool :=
  match op with OpZoneDelete | OpAssetDelete => true | _ => false end.

(** The table of the remote API: the request each operation is to send
    with the client settings [r] on the input [d]. *)
Definition endpoint (r : clientObj) (path : string) : URL :=
  {| Scheme := "https"; Host := host r; Path := path |}.

Definition bearer (r : clientObj) : string * string :=
  ("Authorization", "Bearer " +:+ accessKey r).

Definition json_content : string * string := ("Content-Type", "application/json").

Definition planned (r : clientObj) (op : operation) (d : Data) : Request :=
  match op with
  | OpZoneCreate =>
      {| Method := "POST"; Url := endpoint r "/api/zones";
         Header := [bearer r; json_content];
         ReqBody := Some (Json.Object
           [ ("zone_name", Json.Str (ValueString
                (ZoneResourceModel.ZoneName (ZoneResourceModel.Get d).2)));
             ("tenant_id", Json.Number (Json.Int false 0)) ]) |}
  | OpAssetCreate =>
      {| Method := "POST"; Url := endpoint r "/api/assets";
         Header := [bearer r; json_content];
         ReqBody := Some (Json.Object
           [ ("asset_name", Json.Str (ValueString
                (AssetResourceModel.AssetName (AssetResourceModel.Get d).2)));
             ("zone_id", Json.marshal_int64 (ValueInt64
                (AssetResourceModel.ZoneId (AssetResourceModel.Get d).2))) ]) |}
  | OpZoneRead | OpZoneList =>
      {| Method := "GET"; Url := endpoint r "/api/zones";
         Header := [bearer r; json_content]; ReqBody := None |}
  | OpAssetRead | OpAssetList =>
      {| Method := "GET"; Url := endpoint r "/api/assets";
         Header := [bearer r; json_content]; ReqBody := None |}
  | OpZoneDelete =>
      {| Method := "DELETE";
         Url := endpoint r ("/api/zones/" +:+ Go.Sprintf_d (ValueInt64
                  (ZoneResourceModel.Id (ZoneResourceModel.Get d).2)));
         Header := [bearer r]; ReqBody := None |}
  | OpAssetDelete =>
      {| Method := "DELETE";
         Url := endpoint r ("/api/assets/" +:+ Go.Sprintf_d (ValueInt64
                  (AssetResourceModel.Id (AssetResourceModel.Get d).2)));
         Header := [bearer r; json_content]; ReqBody := None |}
  end.

(** The diagnostics of reading the input [d] into the model the operation
    declares for it. *)
Definition read_diags (op : operation) (d : Data) : diag.Diagnostics :=
  match op with
  | OpZoneCreate | OpZoneRead | OpZoneDelete => (ZoneResourceModel.Get d).1
  | OpAssetCreate | OpAssetRead | OpAssetDelete => (AssetResourceModel.Get d).1
  | OpZoneList => (PanopZoneDataSourceModel.Get d).1
  | OpAssetList => (PanopAssetDataSourceModel.Get d).1
  end.

(** The setting in force: the value of the environment variable when it
    is set to a non-empty string, the configured value otherwise, which is
    empty when nothing is configured. *)
Definition in_force (env : string) (configured : StringT) : string :=
  if String.eqb env "" then ValueString configured else env.

(** The operation received the status it expects and, unless it is a
    Delete, which does not read the body, a body that could be read. *)
Definition succeeded (r : clientObj) (op : operation)
    (out : list Request * Response) : Prop :=
  exists httpResp,
    receives r out httpResp
    /\ StatusCode httpResp = expects op
    /\ (is_delete op = true \/ exists body, Body httpResp = inr body).

End scenario.

(* ===================================================================== *)
(** * Properties *)
(* ===================================================================== *)

Import types tfsdk http provider spec.

(** ** Diagnostics *)

Lemma HasError_app (a b : diag.Diagnostics) :
  diag.HasError (a ++ b) = diag.HasError a || diag.HasError b.
Proof. unfold diag.HasError. apply existsb_app. Qed.

Lemma HasError_Contains (a : diag.Diagnostics) (d : diag.Diagnostic) :
  diag.Contains a d = true -> diag.is_error d = true -> diag.HasError a = true.
Proof.
  unfold diag.Contains, diag.HasError. intros Hin Herr.
  apply bool_decide_eq_true in Hin. apply existsb_exists.
  exists d. split; [ by apply list_elem_of_In | exact Herr ].
Qed.

Lemma HasError_Append (a b : diag.Diagnostics) :
  diag.HasError (diag.Append a b) = diag.HasError a || diag.HasError b.
Proof.
  unfold diag.Append. revert a.
  induction b as [|d b IH]; intros a; cbn [fold_left].
  - cbn. by rewrite orb_false_r.
  - rewrite IH. destruct (diag.Contains a d) eqn:Hc.
    + cbn [diag.HasError existsb].
      destruct (diag.is_error d) eqn:Hd; cbn [orb]; [|done].
      rewrite (HasError_Contains a d Hc Hd). done.
    + rewrite HasError_app. cbn [diag.HasError existsb].
      rewrite orb_false_r, orb_assoc. done.
Qed.

Lemma Append_nil (a : diag.Diagnostics) : diag.Append a [] = a.
Proof. reflexivity. Qed.

Lemma HasError_AddError (a : diag.Diagnostics) (s d : string) :
  diag.HasError (diag.AddError a s d) = true.
Proof.
  unfold diag.AddError. rewrite HasError_Append. cbn. apply orb_true_r.
Qed.

Lemma provider_HasError_AddError (resp : Response) (s d : string) :
  HasError (AddError resp s d) = true.
Proof. unfold HasError, AddError. cbn. apply HasError_AddError. Qed.

Lemma provider_Append_nil (resp : Response) : Append resp [] = resp.
Proof. by destruct resp. Qed.

Lemma provider_HasError_Append (resp : Response) (ds : diag.Diagnostics) :
  HasError (Append resp ds) = HasError resp || diag.HasError ds.
Proof. unfold HasError, Append. cbn. apply HasError_Append. Qed.

(** ** Status-code gating *)

(** C2.  Create (zone or asset) that receives any status other than 201,
    and Delete (zone or asset) that receives any status other than 200,
    returns with an error diagnostic and leaves the state of the response
    as it found it: a Create populates no identifier, a Delete does not
    pass for a success. *)
Theorem C2_status_gating (nre : URL -> option string) (r : clientObj)
    (op : gated_op) (d : Data) (resp : Response) (httpResp : http.Response) :
  receives r (run_gated nre r op d resp) httpResp ->
  StatusCode httpResp <> success_code op ->
  HasError (run_gated nre r op d resp).2 = true
  /\ State (run_gated nre r op d resp).2 = State resp.
Proof.
  intros [q [Hq Hdo]] Hcode.
  assert (Hneq : forall c, StatusCode httpResp <> c ->
                           negb (StatusCode httpResp =? c) = true).
  { intros c Hc. apply negb_true_iff, Z.eqb_neq, Hc. }
  destruct op; cbn [run_gated success_code] in *.
  - unfold PanopZoneResource_Create in *. cbn [CreatePlan] in *.
    destruct (ZoneResourceModel.Get d) as [ds data].
    destruct (HasError (Append resp ds)) eqn:He; [ done |].
    destruct (NewRequest nre _ _ _) as [err|httpReq]; [ done |].
    cbn [fst] in Hq. injection Hq as <-.
    rewrite Hdo in *. destruct (Body httpResp) as [err|body].
    + split; [ apply provider_HasError_AddError | reflexivity ].
    + rewrite (Hneq _ Hcode). split; [ apply provider_HasError_AddError | reflexivity ].
  - unfold PanopAssetResource_Create in *. cbn [CreatePlan] in *.
    destruct (AssetResourceModel.Get d) as [ds data].
    destruct (HasError (Append resp ds)) eqn:He; [ done |].
    destruct (NewRequest nre _ _ _) as [err|httpReq]; [ done |].
    cbn [fst] in Hq. injection Hq as <-.
    rewrite Hdo in *. destruct (Body httpResp) as [err|body].
    + split; [ apply provider_HasError_AddError | reflexivity ].
    + rewrite (Hneq _ Hcode). split; [ apply provider_HasError_AddError | reflexivity ].
  - unfold PanopZoneResource_Delete in *. cbn [DeleteState] in *.
    destruct (ZoneResourceModel.Get d) as [ds data].
    destruct (NewRequest nre _ _ _) as [err|httpReq]; [ done |].
    cbn [fst] in Hq. injection Hq as <-.
    rewrite Hdo in *. rewrite (Hneq _ Hcode).
    split; [ apply provider_HasError_AddError | reflexivity ].
  - unfold PanopAssetResource_Delete in *. cbn [DeleteState] in *.
    destruct (AssetResourceModel.Get d) as [ds data].
    destruct (NewRequest nre _ _ _) as [err|httpReq]; [ done |].
    cbn [fst] in Hq. injection Hq as <-.
    rewrite Hdo in *. rewrite (Hneq _ Hcode).
    split; [ apply provider_HasError_AddError | reflexivity ].
Qed.

(** ** Reading and writing the state of a resource *)

Lemma StateSet_zone (data : ZoneResourceModel.t) (resp : Response) :
  StateSet zone_schema (ZoneResourceModel.fields data) resp
  = {| State := Some (zone_object data); Diagnostics := Diagnostics resp |}.
Proof. destruct data. reflexivity. Qed.

Lemma StateSet_asset (data : AssetResourceModel.t) (resp : Response) :
  StateSet asset_schema (AssetResourceModel.fields data) resp
  = {| State := Some (asset_object data); Diagnostics := Diagnostics resp |}.
Proof. destruct data. reflexivity. Qed.

Lemma Get_zone_object (data : ZoneResourceModel.t) :
  ZoneResourceModel.Get (Some (zone_object data)) = ([], data).
Proof. destruct data. reflexivity. Qed.

Lemma Get_asset_object (data : AssetResourceModel.t) :
  AssetResourceModel.Get (Some (asset_object data)) = ([], data).
Proof. destruct data. reflexivity. Qed.

Lemma Get_zone_diags (raw : Data) :
  (ZoneResourceModel.Get raw).1 = [] \/ diag.HasError (ZoneResourceModel.Get raw).1 = true.
Proof.
  unfold ZoneResourceModel.Get, Struct. destruct raw as [o|]; [| by right ].
  destruct (bool_decide _); [| by right ].
  destruct (Into_String (o !! "zone_name")), (Into_Int64 (o !! "id")),
    (Into_String (o !! "zone_type")), (Into_String (o !! "token"));
    (by left) || (by right).
Qed.

Lemma Get_asset_diags (raw : Data) :
  (AssetResourceModel.Get raw).1 = [] \/ diag.HasError (AssetResourceModel.Get raw).1 = true.
Proof.
  unfold AssetResourceModel.Get, Struct. destruct raw as [o|]; [| by right ].
  destruct (bool_decide _); [| by right ].
  destruct (Into_String (o !! "asset_name")), (Into_Int64 (o !! "id")),
    (Into_Int64 (o !! "zone_id")); (by left) || (by right).
Qed.

Lemma Into_String_Some (v : option Value) (s : StringT) :
  Into_String v = Some s -> v = Some (VPrim (VString s)).
Proof. destruct v as [[[]|]|]; cbn; congruence. Qed.

Lemma Into_Int64_Some (v : option Value) (i : Int64T) :
  Into_Int64 v = Some i -> v = Some (VPrim (VInt64 i)).
Proof. destruct v as [[[]|]|]; cbn; congruence. Qed.

(** A state that reads into a model without a diagnostic is the object of
    that model: reading loses nothing. *)
Lemma Get_zone_ok (raw : Data) (data : ZoneResourceModel.t) :
  ZoneResourceModel.Get raw = ([], data) -> raw = Some (zone_object data).
Proof.
  unfold ZoneResourceModel.Get, Struct. destruct raw as [o|]; [| discriminate ].
  destruct (bool_decide _) eqn:Hdom; [| discriminate ].
  apply bool_decide_eq_true in Hdom.
  destruct (Into_String (o !! "zone_name")) as [n|] eqn:E1; [| discriminate ].
  destruct (Into_Int64 (o !! "id")) as [i|] eqn:E2; [| discriminate ].
  destruct (Into_String (o !! "zone_type")) as [ty|] eqn:E3; [| discriminate ].
  destruct (Into_String (o !! "token")) as [tk|] eqn:E4; [| discriminate ].
  apply Into_String_Some in E1, E3, E4. apply Into_Int64_Some in E2.
  intros [= <-]. f_equal. apply map_eq. intros k.
  unfold zone_object. cbn [ZoneResourceModel.ZoneName ZoneResourceModel.Id
    ZoneResourceModel.ZoneType ZoneResourceModel.Token].
  destruct (decide (k = "zone_name")) as [->|N1]; [ by rewrite E1 |].
  destruct (decide (k = "id")) as [->|N2]; [ by rewrite E2 |].
  destruct (decide (k = "zone_type")) as [->|N3]; [ by rewrite E3 |].
  destruct (decide (k = "token")) as [->|N4]; [ by rewrite E4 |].
  rewrite (not_elem_of_list_to_map_1 _ k) by (cbn; set_solver).
  apply not_elem_of_dom. rewrite Hdom. cbn. set_solver.
Qed.

Lemma Get_asset_ok (raw : Data) (data : AssetResourceModel.t) :
  AssetResourceModel.Get raw = ([], data) -> raw = Some (asset_object data).
Proof.
  unfold AssetResourceModel.Get, Struct. destruct raw as [o|]; [| discriminate ].
  destruct (bool_decide _) eqn:Hdom; [| discriminate ].
  apply bool_decide_eq_true in Hdom.
  destruct (Into_String (o !! "asset_name")) as [n|] eqn:E1; [| discriminate ].
  destruct (Into_Int64 (o !! "id")) as [i|] eqn:E2; [| discriminate ].
  destruct (Into_Int64 (o !! "zone_id")) as [z|] eqn:E3; [| discriminate ].
  apply Into_String_Some in E1. apply Into_Int64_Some in E2, E3.
  intros [= <-]. f_equal. apply map_eq. intros k.
  unfold asset_object. cbn [AssetResourceModel.AssetName AssetResourceModel.Id
    AssetResourceModel.ZoneId].
  destruct (decide (k = "asset_name")) as [->|N1]; [ by rewrite E1 |].
  destruct (decide (k = "id")) as [->|N2]; [ by rewrite E2 |].
  destruct (decide (k = "zone_id")) as [->|N3]; [ by rewrite E3 |].
  rewrite (not_elem_of_list_to_map_1 _ k) by (cbn; set_solver).
  apply not_elem_of_dom. rewrite Hdom. cbn. set_solver.
Qed.

(** ** Reading and writing the state of a data source *)

Lemma mapM_FromStruct_asset (l : list AssetDataSourceModel.t) :
  mapM (FromStruct_elem (list_to_map [ ("asset_name", StringAttribute);
                                       ("id", Int64Attribute);
                                       ("zone_id", Int64Attribute) ]))
       (map AssetDataSourceModel.fields l)
  = Some (map (fun m => list_to_map (AssetDataSourceModel.fields m)) l).
Proof.
  induction l as [|m l IH]; [ reflexivity |].
  cbn [map mapM]. rewrite IH. by destruct m.
Qed.

Lemma mapM_FromStruct_zone (l : list ZoneModel.t) :
  mapM (FromStruct_elem (list_to_map [ ("zone_name", StringAttribute);
                                       ("tenant_id", Int64Attribute);
                                       ("id", Int64Attribute);
                                       ("zone_type", StringAttribute);
                                       ("token", StringAttribute) ]))
       (map ZoneModel.fields l)
  = Some (map (fun m => list_to_map (ZoneModel.fields m)) l).
Proof.
  induction l as [|m l IH]; [ reflexivity |].
  cbn [map mapM]. rewrite IH. by destruct m.
Qed.

Lemma StateSet_asset_data (data : PanopAssetDataSourceModel.t) (resp : Response) :
  StateSet asset_data_schema (PanopAssetDataSourceModel.fields data) resp
  = {| State := Some (asset_data_object data); Diagnostics := Diagnostics resp |}.
Proof.
  destruct data as [z [l|]]; [| reflexivity ].
  unfold StateSet, Set_, FromStruct.
  rewrite bool_decide_eq_true_2 by reflexivity.
  cbn [PanopAssetDataSourceModel.fields PanopAssetDataSourceModel.ZoneId
       PanopAssetDataSourceModel.Assets mapM fst snd].
  replace (asset_data_schema !! "zone_id") with (Some (Prim Int64Attribute))
    by reflexivity.
  replace (asset_data_schema !! "assets")
    with (Some (ListNestedAttribute (list_to_map
            [ ("asset_name", StringAttribute); ("id", Int64Attribute);
              ("zone_id", Int64Attribute) ]))) by reflexivity.
  cbn [mbind option_bind FromValue prim_has_type fmap option_fmap option_map
       FromSlice].
  rewrite mapM_FromStruct_asset. reflexivity.
Qed.

Lemma StateSet_zone_data (data : PanopZoneDataSourceModel.t) (resp : Response) :
  StateSet zone_data_schema (PanopZoneDataSourceModel.fields data) resp
  = {| State := Some (zone_data_object data); Diagnostics := Diagnostics resp |}.
Proof.
  destruct data as [[l|]]; [| reflexivity ].
  unfold StateSet, Set_, FromStruct.
  rewrite bool_decide_eq_true_2 by reflexivity.
  cbn [PanopZoneDataSourceModel.fields PanopZoneDataSourceModel.Zones mapM fst snd].
  replace (zone_data_schema !! "zones")
    with (Some (ListNestedAttribute (list_to_map
            [ ("zone_name", StringAttribute); ("tenant_id", Int64Attribute);
              ("id", Int64Attribute); ("zone_type", StringAttribute);
              ("token", StringAttribute) ]))) by reflexivity.
  cbn [mbind option_bind FromValue prim_has_type fmap option_fmap option_map
       FromSlice].
  rewrite mapM_FromStruct_zone. reflexivity.
Qed.

Lemma mapM_of_elem_asset (l : list AssetDataSourceModel.t) :
  mapM (fun e => if bool_decide (dom e = list_to_set AssetDataSourceModel.tags)
                 then AssetDataSourceModel.of_elem e else None)
       (map (fun m => list_to_map (AssetDataSourceModel.fields m)) l)
  = Some l.
Proof.
  induction l as [|m l IH]; [ reflexivity |].
  cbn [map mapM]. rewrite IH. by destruct m.
Qed.

Lemma mapM_of_elem_zone (l : list ZoneModel.t) :
  mapM (fun e => if bool_decide (dom e = list_to_set ZoneModel.tags)
                 then ZoneModel.of_elem e else None)
       (map (fun m => list_to_map (ZoneModel.fields m)) l)
  = Some l.
Proof.
  induction l as [|m l IH]; [ reflexivity |].
  cbn [map mapM]. rewrite IH. by destruct m.
Qed.

(** What a data source wrote reads back as the model it was written
    from. *)
Lemma Get_asset_data_object (data : PanopAssetDataSourceModel.t) :
  PanopAssetDataSourceModel.Get (Some (asset_data_object data)) = ([], data).
Proof.
  destruct data as [z [l|]]; [| reflexivity ].
  unfold PanopAssetDataSourceModel.Get, Struct.
  rewrite bool_decide_eq_true_2 by reflexivity.
  replace (asset_data_object _ !! "zone_id") with (Some (VPrim (VInt64 z)))
    by reflexivity.
  replace (asset_data_object (PanopAssetDataSourceModel.mk z (Some l)) !! "assets")
    with (Some (VList (ListValue
            (map (fun m => list_to_map (AssetDataSourceModel.fields m)) l))))
    by reflexivity.
  cbn [Into_Int64 Into_slice]. rewrite mapM_of_elem_asset. reflexivity.
Qed.

Lemma Get_zone_data_object (data : PanopZoneDataSourceModel.t) :
  PanopZoneDataSourceModel.Get (Some (zone_data_object data)) = ([], data).
Proof.
  destruct data as [[l|]]; [| reflexivity ].
  unfold PanopZoneDataSourceModel.Get, Struct.
  rewrite bool_decide_eq_true_2 by reflexivity.
  replace (zone_data_object (PanopZoneDataSourceModel.mk (Some l)) !! "zones")
    with (Some (VList (ListValue
            (map (fun m => list_to_map (ZoneModel.fields m)) l))))
    by reflexivity.
  cbn [Into_slice]. rewrite mapM_of_elem_zone. reflexivity.
Qed.

Lemma Get_asset_data_diags (raw : Data) :
  (PanopAssetDataSourceModel.Get raw).1 = []
  \/ diag.HasError (PanopAssetDataSourceModel.Get raw).1 = true.
Proof.
  unfold PanopAssetDataSourceModel.Get, Struct. destruct raw as [o|]; [| by right ].
  destruct (bool_decide _); [| by right ].
  destruct (Into_Int64 (o !! "zone_id")),
    (Into_slice AssetDataSourceModel.tags AssetDataSourceModel.of_elem (o !! "assets"));
    (by left) || (by right).
Qed.

Lemma Get_zone_data_diags (raw : Data) :
  (PanopZoneDataSourceModel.Get raw).1 = []
  \/ diag.HasError (PanopZoneDataSourceModel.Get raw).1 = true.
Proof.
  unfold PanopZoneDataSourceModel.Get, Struct. destruct raw as [o|]; [| by right ].
  destruct (bool_decide _); [| by right ].
  destruct (Into_slice ZoneModel.tags ZoneModel.of_elem (o !! "zones"));
    (by left) || (by right).
Qed.

(** ** The path of an operation that received a response *)

Lemma clean_start (resp : Response) (ds : diag.Diagnostics) :
  HasError (Append resp ds) = false ->
  ds = [] \/ diag.HasError ds = true ->
  ds = [] /\ Append resp ds = resp /\ HasError resp = false.
Proof.
  rewrite provider_HasError_Append. intros He Hds.
  apply orb_false_elim in He as [He1 He2].
  destruct Hds as [-> | Hds]; [| congruence ].
  by rewrite provider_Append_nil.
Qed.

(** The steps every path lemma starts with: the model was read without a
    diagnostic, the request was built, and the one request sent is the one
    that was answered. *)
Ltac enter_path Hrecv Hdiags :=
  let q := fresh "q" in
  let Hq := fresh "Hq" in
  let Hdo := fresh "Hdo" in
  destruct Hrecv as [q [Hq Hdo]];
  revert Hq Hdiags;
  match goal with
  | |- context [HasError (Append ?resp ?ds)] =>
      let He := fresh "He" in
      destruct (HasError (Append resp ds)) eqn:He; [ discriminate |];
      intros Hq Hdiags;
      destruct (clean_start _ _ He Hdiags) as (Hnil & -> & Hclean)
  end;
  match type of Hq with
  | context [NewRequest ?nre ?m ?u ?b] =>
      let httpReq := fresh "httpReq" in
      destruct (NewRequest nre m u b) as [?|httpReq]; [ discriminate |]
  end;
  cbn [fst snd] in Hq |- *; injection Hq as <-; rewrite Hdo.

Lemma zone_create_path (nre : URL -> option string) (r : clientObj)
    (req : CreateRequest) (resp : Response) (httpResp : http.Response)
    (body : Json.document) :
  receives r (PanopZoneResource_Create nre r req resp) httpResp ->
  StatusCode httpResp = StatusCreated ->
  Body httpResp = inr body ->
  (ZoneResourceModel.Get (CreatePlan req)).1 = []
  /\ HasError resp = false
  /\ (PanopZoneResource_Create nre r req resp).2
     = {| State := Some (zone_object (ZoneResourceModel.mk
            (ZoneResourceModel.ZoneName (ZoneResourceModel.Get (CreatePlan req)).2)
            (Int64Value (Go.int64_of_uint (ZoneCreateResponse.ZoneId
               (Json.Unmarshal ZoneCreateResponse.fields body ZoneCreateResponse.zero).1)))
            (ZoneResourceModel.ZoneType (ZoneResourceModel.Get (CreatePlan req)).2)
            (StringValue (ZoneCreateResponse.Token
               (Json.Unmarshal ZoneCreateResponse.fields body ZoneCreateResponse.zero).1))));
          Diagnostics := Diagnostics resp |}.
Proof.
  intros Hrecv Hcode Hbody.
  pose proof (Get_zone_diags (CreatePlan req)) as Hdiags.
  unfold PanopZoneResource_Create in *.
  destruct (ZoneResourceModel.Get (CreatePlan req)) as [ds data].
  cbn [fst snd] in Hdiags |- *.
  enter_path Hrecv Hdiags.
  rewrite Hbody, Hcode. cbn [Z.eqb StatusCreated Pos.eqb negb].
  rewrite StateSet_zone. done.
Qed.

Lemma asset_create_path (nre : URL -> option string) (r : clientObj)
    (req : CreateRequest) (resp : Response) (httpResp : http.Response)
    (body : Json.document) :
  receives r (PanopAssetResource_Create nre r req resp) httpResp ->
  StatusCode httpResp = StatusCreated ->
  Body httpResp = inr body ->
  (AssetResourceModel.Get (CreatePlan req)).1 = []
  /\ HasError resp = false
  /\ (PanopAssetResource_Create nre r req resp).2
     = {| State := Some (asset_object (AssetResourceModel.mk
            (StringValue (AssetCreateResponse.AssetName
               (Json.Unmarshal AssetCreateResponse.fields body AssetCreateResponse.zero).1))
            (Int64Value (Go.int64_of_uint (AssetCreateResponse.AssetId
               (Json.Unmarshal AssetCreateResponse.fields body AssetCreateResponse.zero).1)))
            (AssetResourceModel.ZoneId (AssetResourceModel.Get (CreatePlan req)).2)));
          Diagnostics := Diagnostics resp |}.
Proof.
  intros Hrecv Hcode Hbody.
  pose proof (Get_asset_diags (CreatePlan req)) as Hdiags.
  unfold PanopAssetResource_Create in *.
  destruct (AssetResourceModel.Get (CreatePlan req)) as [ds data].
  cbn [fst snd] in Hdiags |- *.
  enter_path Hrecv Hdiags.
  rewrite Hbody, Hcode. cbn [Z.eqb StatusCreated Pos.eqb negb].
  rewrite StateSet_asset. done.
Qed.

Lemma zone_read_path (nre : URL -> option string) (r : clientObj)
    (req : ReadRequest) (resp : Response) (httpResp : http.Response)
    (body : Json.document) :
  receives r (PanopZoneResource_Read nre r req resp) httpResp ->
  StatusCode httpResp = StatusOK ->
  Body httpResp = inr body ->
  (ZoneResourceModel.Get (ReadState req)).1 = []
  /\ HasError resp = false
  /\ (PanopZoneResource_Read nre r req resp).2
     = {| State := Some (zone_object (refresh_zone
            (Json.Unmarshal_slice ZoneReadResponse.fields ZoneReadResponse.zero body).1
            (ZoneResourceModel.Get (ReadState req)).2));
          Diagnostics := Diagnostics resp |}.
Proof.
  intros Hrecv Hcode Hbody.
  pose proof (Get_zone_diags (ReadState req)) as Hdiags.
  unfold PanopZoneResource_Read in *.
  destruct (ZoneResourceModel.Get (ReadState req)) as [ds data].
  cbn [fst snd] in Hdiags |- *.
  enter_path Hrecv Hdiags.
  rewrite Hbody, Hcode. cbn [Z.eqb StatusOK Pos.eqb negb].
  rewrite StateSet_zone. done.
Qed.

Lemma asset_read_path (nre : URL -> option string) (r : clientObj)
    (req : ReadRequest) (resp : Response) (httpResp : http.Response)
    (body : Json.document) :
  receives r (PanopAssetResource_Read nre r req resp) httpResp ->
  StatusCode httpResp = StatusOK ->
  Body httpResp = inr body ->
  (AssetResourceModel.Get (ReadState req)).1 = []
  /\ HasError resp = false
  /\ (PanopAssetResource_Read nre r req resp).2
     = {| State := Some (asset_object (refresh_asset
            (Json.Unmarshal_slice AssetReadResponse.fields AssetReadResponse.zero body).1
            (AssetResourceModel.Get (ReadState req)).2));
          Diagnostics := Diagnostics resp |}.
Proof.
  intros Hrecv Hcode Hbody.
  pose proof (Get_asset_diags (ReadState req)) as Hdiags.
  unfold PanopAssetResource_Read in *.
  destruct (AssetResourceModel.Get (ReadState req)) as [ds data].
  cbn [fst snd] in Hdiags |- *.
  enter_path Hrecv Hdiags.
  rewrite Hbody, Hcode. cbn [Z.eqb StatusOK Pos.eqb negb].
  rewrite StateSet_asset. done.
Qed.

Lemma zone_list_path (nre : URL -> option string) (d : clientObj)
    (req : DataSourceReadRequest) (resp : Response) (httpResp : http.Response)
    (body : Json.document) :
  receives d (PanopZoneDataSource_Read nre d req resp) httpResp ->
  StatusCode httpResp = StatusOK ->
  Body httpResp = inr body ->
  (PanopZoneDataSourceModel.Get (Config req)).1 = []
  /\ HasError resp = false
  /\ (PanopZoneDataSource_Read nre d req resp).2
     = {| State := Some (zone_data_object (PanopZoneDataSourceModel.mk (collect_zones
            (Json.Unmarshal_slice ZoneListResponse.fields ZoneListResponse.zero body).1
            (PanopZoneDataSourceModel.Zones (PanopZoneDataSourceModel.Get (Config req)).2))));
          Diagnostics := Diagnostics resp |}.
Proof.
  intros Hrecv Hcode Hbody.
  pose proof (Get_zone_data_diags (Config req)) as Hdiags.
  unfold PanopZoneDataSource_Read in *.
  destruct (PanopZoneDataSourceModel.Get (Config req)) as [ds data].
  cbn [fst snd] in Hdiags |- *.
  enter_path Hrecv Hdiags.
  rewrite Hbody, Hcode. cbn [Z.eqb StatusOK Pos.eqb negb].
  rewrite StateSet_zone_data. done.
Qed.

Lemma asset_list_path (nre : URL -> option string) (d : clientObj)
    (req : DataSourceReadRequest) (resp : Response) (httpResp : http.Response)
    (body : Json.document) :
  receives d (PanopAssetDataSource_Read nre d req resp) httpResp ->
  StatusCode httpResp = StatusOK ->
  Body httpResp = inr body ->
  (PanopAssetDataSourceModel.Get (Config req)).1 = []
  /\ HasError resp = false
  /\ (PanopAssetDataSource_Read nre d req resp).2
     = {| State := Some (asset_data_object (PanopAssetDataSourceModel.mk
            (PanopAssetDataSourceModel.ZoneId (PanopAssetDataSourceModel.Get (Config req)).2)
            (collect_assets
               (Json.Unmarshal_slice AssetReadResponse.fields AssetReadResponse.zero body).1
               (PanopAssetDataSourceModel.ZoneId (PanopAssetDataSourceModel.Get (Config req)).2)
               (PanopAssetDataSourceModel.Assets (PanopAssetDataSourceModel.Get (Config req)).2))));
          Diagnostics := Diagnostics resp |}.
Proof.
  intros Hrecv Hcode Hbody.
  pose proof (Get_asset_data_diags (Config req)) as Hdiags.
  unfold PanopAssetDataSource_Read in *.
  destruct (PanopAssetDataSourceModel.Get (Config req)) as [ds data].
  cbn [fst snd] in Hdiags |- *.
  enter_path Hrecv Hdiags.
  rewrite Hbody, Hcode. cbn [Z.eqb StatusOK Pos.eqb negb].
  rewrite StateSet_asset_data. done.
Qed.

(** ** The asset lister *)

Lemma collect_assets_filter (f : option Z) (assets : list AssetReadResponse.t)
    (acc : option (list AssetDataSourceModel.t)) :
  default [] (collect_assets assets (filter_value f) acc)
  = default [] acc ++ map asset_entry (filter_by_zone f assets).
Proof.
  revert acc. induction assets as [|a assets IH]; intros acc.
  - destruct f; cbn; by rewrite app_nil_r.
  - cbn [collect_assets AssetDataSourceModel.ZoneId].
    destruct f as [z|]; cbn [filter_value filter_by_zone IsNull] in *.
    + cbn [List.filter]. destruct (AssetReadResponse.ZoneId a =? z) eqn:Hz.
      * apply Z.eqb_eq in Hz. rewrite bool_decide_eq_true_2 by (by rewrite Hz).
        cbn [orb]. rewrite IH. unfold append. cbn.
        by rewrite <- app_assoc.
      * apply Z.eqb_neq in Hz. rewrite bool_decide_eq_false_2 by congruence.
        cbn [orb]. apply IH.
    + rewrite orb_true_r, IH. unfold append. cbn.
      by rewrite <- app_assoc.
Qed.

(** C1.  The asset lister that receives 200 lists one entry per decoded
    record that passes the filter of the specification, in the order of the
    decoded collection: the records whose [zone_id] is the filter value
    when the configuration supplies one, every record when it supplies
    none. *)
Theorem C1_asset_lister_filter (nre : URL -> option string) (d : clientObj)
    (req : DataSourceReadRequest) (resp : Response) (httpResp : http.Response)
    (body : Json.document) (f : option Z) :
  receives d (PanopAssetDataSource_Read nre d req resp) httpResp ->
  StatusCode httpResp = StatusOK ->
  Body httpResp = inr body ->
  (PanopAssetDataSourceModel.Get (Config req)).2
    = PanopAssetDataSourceModel.mk (filter_value f) None ->
  listed_assets (State (PanopAssetDataSource_Read nre d req resp).2)
  = map asset_entry
      (filter_by_zone f
         (Json.Unmarshal_slice AssetReadResponse.fields AssetReadResponse.zero body).1).
Proof.
  intros Hrecv Hcode Hbody Hcfg.
  destruct (asset_list_path _ _ _ _ _ _ Hrecv Hcode Hbody) as (_ & _ & ->).
  cbn [State]. unfold listed_assets. rewrite Get_asset_data_object.
  cbn [snd PanopAssetDataSourceModel.Assets]. rewrite Hcfg.
  cbn [PanopAssetDataSourceModel.ZoneId PanopAssetDataSourceModel.Assets].
  by rewrite collect_assets_filter.
Qed.

Lemma C1_filter_zone_1 :
  listed_assets
    (State (PanopAssetDataSource_Read url_ok (client (answer 200 sample.three_assets))
              {| Config := sample.asset_config (Some 1) |} (fresh None)).2)
  = map asset_entry
      (filter_by_zone (Some 1)
         (Json.Unmarshal_slice AssetReadResponse.fields AssetReadResponse.zero
            sample.three_assets).1).
Proof.
  apply C1_asset_lister_filter with (httpResp := answer 200 sample.three_assets).
  - eexists. split; reflexivity.
  - reflexivity.
  - reflexivity.
  - reflexivity.
Defined.

(** Of the assets under the zones 1, 1 and 2, the filter 1 lists the first
    two and no filter lists all three. *)
Example asset_lister_1_1_2 :
  map AssetDataSourceModel.AssetName
    (listed_assets
       (State (PanopAssetDataSource_Read url_ok (client (answer 200 sample.three_assets))
                 {| Config := sample.asset_config (Some 1) |} (fresh None)).2))
  = [StringValue "api"; StringValue "www"]
  /\ map AssetDataSourceModel.AssetName
       (listed_assets
          (State (PanopAssetDataSource_Read url_ok (client (answer 200 sample.three_assets))
                    {| Config := sample.asset_config None |} (fresh None)).2))
     = [StringValue "api"; StringValue "www"; StringValue "mail"].
Proof. split; vm_compute; reflexivity. Qed.

Lemma C2_delete_404 :
  HasError (run_gated url_ok (client (answer 404 Json.Invalid)) ZoneDelete
              sample.zone_state (fresh sample.zone_state)).2 = true
  /\ State (run_gated url_ok (client (answer 404 Json.Invalid)) ZoneDelete
              sample.zone_state (fresh sample.zone_state)).2
     = State (fresh sample.zone_state).
Proof.
  apply C2_status_gating with (httpResp := answer 404 Json.Invalid).
  - eexists. split; reflexivity.
  - discriminate.
Defined.

(** A Create answered with 500 reports an error and writes no state. *)
Example create_500 :
  HasError (run_gated url_ok (client (answer 500 Json.Invalid)) ZoneCreate
              sample.zone_plan (fresh None)).2 = true
  /\ State (run_gated url_ok (client (answer 500 Json.Invalid)) ZoneCreate
              sample.zone_plan (fresh None)).2 = None.
Proof. split; vm_compute; reflexivity. Qed.

(** ** Zone Create *)

(** C3, as amended.  A Zone Create that receives 201 writes a state whose
    [id] and [token] are those decoded from the response body and whose
    [zone_name] and [zone_type] are the planned ones; it reports
    nothing. *)
Theorem C3_zone_create_success (nre : URL -> option string) (r : clientObj)
    (req : CreateRequest) (resp : Response) (httpResp : http.Response)
    (body : Json.document) :
  receives r (PanopZoneResource_Create nre r req resp) httpResp ->
  StatusCode httpResp = StatusCreated ->
  Body httpResp = inr body ->
  ZoneResourceModel.Get (State (PanopZoneResource_Create nre r req resp).2)
  = ([], ZoneResourceModel.mk
           (ZoneResourceModel.ZoneName (ZoneResourceModel.Get (CreatePlan req)).2)
           (Int64Value (Go.int64_of_uint (ZoneCreateResponse.ZoneId
              (Json.Unmarshal ZoneCreateResponse.fields body ZoneCreateResponse.zero).1)))
           (ZoneResourceModel.ZoneType (ZoneResourceModel.Get (CreatePlan req)).2)
           (StringValue (ZoneCreateResponse.Token
              (Json.Unmarshal ZoneCreateResponse.fields body ZoneCreateResponse.zero).1)))
  /\ Diagnostics (PanopZoneResource_Create nre r req resp).2 = Diagnostics resp.
Proof.
  intros Hrecv Hcode Hbody.
  destruct (zone_create_path _ _ _ _ _ _ Hrecv Hcode Hbody) as (_ & _ & ->).
  cbn [State Diagnostics]. by rewrite Get_zone_object.
Qed.

Lemma C3_zone_created_7 :
  ZoneResourceModel.Get
    (State (PanopZoneResource_Create url_ok (client (answer 201 sample.zone_created))
              {| CreatePlan := sample.zone_plan |} (fresh None)).2)
  = ([], ZoneResourceModel.mk
           (ZoneResourceModel.ZoneName
              (ZoneResourceModel.Get (CreatePlan {| CreatePlan := sample.zone_plan |})).2)
           (Int64Value (Go.int64_of_uint (ZoneCreateResponse.ZoneId
              (Json.Unmarshal ZoneCreateResponse.fields sample.zone_created
                 ZoneCreateResponse.zero).1)))
           (ZoneResourceModel.ZoneType
              (ZoneResourceModel.Get (CreatePlan {| CreatePlan := sample.zone_plan |})).2)
           (StringValue (ZoneCreateResponse.Token
              (Json.Unmarshal ZoneCreateResponse.fields sample.zone_created
                 ZoneCreateResponse.zero).1)))
  /\ Diagnostics
       (PanopZoneResource_Create url_ok (client (answer 201 sample.zone_created))
          {| CreatePlan := sample.zone_plan |} (fresh None)).2
     = Diagnostics (fresh None).
Proof.
  apply C3_zone_create_success with (httpResp := answer 201 sample.zone_created).
  - eexists. split; reflexivity.
  - reflexivity.
  - reflexivity.
Defined.

(** C3, as stated, fails: the plan asks for the type [dns], the service
    answers 201 with the type [web], and the state written keeps [dns]. *)
Lemma C3_zone_type_not_merged :
  receives (client (answer 201 sample.zone_created))
    (PanopZoneResource_Create url_ok (client (answer 201 sample.zone_created))
       {| CreatePlan := sample.zone_plan |} (fresh None))
    (answer 201 sample.zone_created)
  /\ ZoneCreateResponse.ZoneType
       (Json.Unmarshal ZoneCreateResponse.fields sample.zone_created
          ZoneCreateResponse.zero).1 = "web"
  /\ ZoneResourceModel.Get
       (State (PanopZoneResource_Create url_ok (client (answer 201 sample.zone_created))
                 {| CreatePlan := sample.zone_plan |} (fresh None)).2)
     = ([], ZoneResourceModel.mk (StringValue "example.com") (Int64Value 7)
                                 (StringValue "dns") (StringValue "tok-7"))
  /\ StringValue "dns" <> StringValue "web".
Proof.
  split; [ eexists; split; reflexivity |].
  split; [ reflexivity |].
  split; [ vm_compute; reflexivity | discriminate ].
Qed.

(** ** Update *)

Lemma zone_update_persists_plan (r : clientObj) (req : UpdateRequest) (resp : Response) :
  (ZoneResourceModel.Get (UpdatePlan req)).1 = [] ->
  HasError resp = false ->
  PanopZoneResource_Update r req resp
  = ([], {| State := UpdatePlan req; Diagnostics := Diagnostics resp |}).
Proof.
  intros Hget Hclean. unfold PanopZoneResource_Update.
  destruct (ZoneResourceModel.Get (UpdatePlan req)) as [ds data] eqn:HG.
  cbn [fst] in Hget. subst ds. rewrite provider_Append_nil, Hclean.
  rewrite StateSet_zone. by rewrite (Get_zone_ok _ _ HG).
Qed.

(** C4, on the asset side.  The asset Update reads the plan into a
    [ZoneResourceModel]; a plan of the asset schema does not fit it, so the
    operation, which sends nothing, reports an error and leaves the state
    as it was instead of persisting the plan. *)
Theorem C4_asset_update_rejects_plan (r : clientObj) (req : UpdateRequest)
    (resp : Response) :
  (AssetResourceModel.Get (UpdatePlan req)).1 = [] ->
  (PanopAssetResource_Update r req resp).1 = []
  /\ HasError (PanopAssetResource_Update r req resp).2 = true
  /\ State (PanopAssetResource_Update r req resp).2 = State resp.
Proof.
  intros Hget.
  destruct (AssetResourceModel.Get (UpdatePlan req)) as [ds data] eqn:HG.
  cbn [fst] in Hget. subst ds. apply Get_asset_ok in HG.
  unfold PanopAssetResource_Update. rewrite HG.
  replace (ZoneResourceModel.Get (Some (asset_object data)))
    with ([ValueConversionError "mismatch between struct and object"],
          ZoneResourceModel.zero) by (by destruct data).
  rewrite provider_HasError_Append.
  replace (diag.HasError [ValueConversionError "mismatch between struct and object"])
    with true by reflexivity.
  rewrite orb_true_r. cbn [fst snd].
  rewrite provider_HasError_Append. by rewrite orb_true_r.
Qed.

Lemma C4_asset_rename_rejected :
  (PanopAssetResource_Update (client (answer 200 Json.Invalid))
     {| UpdatePlan := sample.asset_renamed; UpdateState := sample.asset_state |}
     (fresh sample.asset_state)).1 = []
  /\ HasError (PanopAssetResource_Update (client (answer 200 Json.Invalid))
       {| UpdatePlan := sample.asset_renamed; UpdateState := sample.asset_state |}
       (fresh sample.asset_state)).2 = true
  /\ State (PanopAssetResource_Update (client (answer 200 Json.Invalid))
       {| UpdatePlan := sample.asset_renamed; UpdateState := sample.asset_state |}
       (fresh sample.asset_state)).2 = State (fresh sample.asset_state).
Proof.
  apply C4_asset_update_rejects_plan. reflexivity.
Defined.

(** The same plan handed to the zone Update would be a plan of another
    schema; a zone plan handed to it is persisted as it is. *)
Example zone_update_sample :
  PanopZoneResource_Update (client (answer 200 Json.Invalid))
    {| UpdatePlan := sample.zone_state; UpdateState := sample.zone_state |}
    (fresh sample.zone_state)
  = ([], fresh sample.zone_state).
Proof. by apply zone_update_persists_plan. Qed.

(** ** Read *)

Lemma refresh_zone_find (zones : list ZoneReadResponse.t) (data : ZoneResourceModel.t) :
  refresh_zone zones data
  = match find (fun z => ZoneReadResponse.Id z =? ValueInt64 (ZoneResourceModel.Id data))
               zones with
    | Some z => ZoneResourceModel.mk (StringValue (ZoneReadResponse.ZoneName z))
                                     (ZoneResourceModel.Id data)
                                     (StringValue (ZoneReadResponse.ZoneType z))
                                     (StringValue (ZoneReadResponse.Token z))
    | None => data
    end.
Proof.
  induction zones as [|z zones IH]; [ reflexivity |].
  cbn [refresh_zone find].
  by destruct (ZoneReadResponse.Id z =? ValueInt64 (ZoneResourceModel.Id data)).
Qed.

Lemma refresh_asset_find (assets : list AssetReadResponse.t) (data : AssetResourceModel.t) :
  refresh_asset assets data
  = match find (fun a => AssetReadResponse.AssetId a
                         =? ValueInt64 (AssetResourceModel.Id data)) assets with
    | Some a => AssetResourceModel.mk (StringValue (AssetReadResponse.AssetName a))
                                      (AssetResourceModel.Id data)
                                      (Int64Value (AssetReadResponse.ZoneId a))
    | None => data
    end.
Proof.
  induction assets as [|a assets IH]; [ reflexivity |].
  cbn [refresh_asset find].
  by destruct (AssetReadResponse.AssetId a =? ValueInt64 (AssetResourceModel.Id data)).
Qed.

(** C5.  A Read (zone or asset) that receives 200 reports no error.  When
    no decoded entry has the held identifier, the state it writes is the
    prior state, every field as it was; otherwise the first entry with that
    identifier overwrites the zone's name, token and type (the asset's name
    and zone_id) and the identifier stays. *)
Theorem C5_read_refresh (nre : URL -> option string) (r : clientObj)
    (req : ReadRequest) (resp : Response) (httpResp : http.Response)
    (body : Json.document) :
  StatusCode httpResp = StatusOK ->
  Body httpResp = inr body ->
  (receives r (PanopZoneResource_Read nre r req resp) httpResp ->
   HasError (PanopZoneResource_Read nre r req resp).2 = false
   /\ Diagnostics (PanopZoneResource_Read nre r req resp).2 = Diagnostics resp
   /\ match find (fun z => ZoneReadResponse.Id z
                           =? ValueInt64 (ZoneResourceModel.Id
                                            (ZoneResourceModel.Get (ReadState req)).2))
                 (Json.Unmarshal_slice ZoneReadResponse.fields ZoneReadResponse.zero
                    body).1 with
      | None => State (PanopZoneResource_Read nre r req resp).2 = ReadState req
      | Some z =>
          ZoneResourceModel.Get (State (PanopZoneResource_Read nre r req resp).2)
          = ([], ZoneResourceModel.mk
                   (StringValue (ZoneReadResponse.ZoneName z))
                   (ZoneResourceModel.Id (ZoneResourceModel.Get (ReadState req)).2)
                   (StringValue (ZoneReadResponse.ZoneType z))
                   (StringValue (ZoneReadResponse.Token z)))
      end)
  /\ (receives r (PanopAssetResource_Read nre r req resp) httpResp ->
      HasError (PanopAssetResource_Read nre r req resp).2 = false
      /\ Diagnostics (PanopAssetResource_Read nre r req resp).2 = Diagnostics resp
      /\ match find (fun a => AssetReadResponse.AssetId a
                              =? ValueInt64 (AssetResourceModel.Id
                                               (AssetResourceModel.Get (ReadState req)).2))
                    (Json.Unmarshal_slice AssetReadResponse.fields AssetReadResponse.zero
                       body).1 with
         | None => State (PanopAssetResource_Read nre r req resp).2 = ReadState req
         | Some a =>
             AssetResourceModel.Get (State (PanopAssetResource_Read nre r req resp).2)
             = ([], AssetResourceModel.mk
                      (StringValue (AssetReadResponse.AssetName a))
                      (AssetResourceModel.Id (AssetResourceModel.Get (ReadState req)).2)
                      (Int64Value (AssetReadResponse.ZoneId a)))
         end).
Proof.
  intros Hcode Hbody. split; intros Hrecv.
  - destruct (zone_read_path _ _ _ _ _ _ Hrecv Hcode Hbody) as (Hget & Hclean & ->).
    cbn [State Diagnostics]. split; [ exact Hclean |]. split; [ reflexivity |].
    rewrite refresh_zone_find.
    destruct (find _ _) as [z|].
    + apply Get_zone_object.
    + symmetry. apply Get_zone_ok.
      rewrite <- Hget. apply surjective_pairing.
  - destruct (asset_read_path _ _ _ _ _ _ Hrecv Hcode Hbody) as (Hget & Hclean & ->).
    cbn [State Diagnostics]. split; [ exact Hclean |]. split; [ reflexivity |].
    rewrite refresh_asset_find.
    destruct (find _ _) as [a|].
    + apply Get_asset_object.
    + symmetry. apply Get_asset_ok.
      rewrite <- Hget. apply surjective_pairing.
Qed.

Lemma C5_zone_7_refreshed :
  ZoneResourceModel.Get
    (State (PanopZoneResource_Read url_ok (client (answer 200 sample.two_zones))
              {| ReadState := sample.zone_state |} (fresh sample.zone_state)).2)
  = ([], ZoneResourceModel.mk (StringValue "example.com") (Int64Value 7)
                              (StringValue "web") (StringValue "tok-7b")).
Proof.
  pose proof (C5_read_refresh url_ok (client (answer 200 sample.two_zones))
                {| ReadState := sample.zone_state |} (fresh sample.zone_state)
                (answer 200 sample.two_zones) sample.two_zones eq_refl eq_refl)
    as [Hzone _].
  destruct Hzone as (_ & _ & Hstate).
  - eexists. split; reflexivity.
  - exact Hstate.
Defined.

(** An asset that the collection no longer holds is read back as it was. *)
Example asset_read_not_found :
  PanopAssetResource_Read url_ok (client (answer 200 sample.three_assets))
    {| ReadState := sample.asset_state |} (fresh sample.asset_state)
  = ([ {| Method := "GET";
          Url := {| Scheme := "https"; Host := "tower.example"; Path := "/api/assets" |};
          Header := [ ("Authorization", "Bearer key");
                      ("Content-Type", "application/json") ];
          ReqBody := None |} ],
     fresh sample.asset_state).
Proof. vm_compute. reflexivity. Qed.

(** ** Create payloads *)

Lemma int_of_marshal (z : Z) : Json.int_of (z <? 0) (Z.abs_N z) = z.
Proof. unfold Json.int_of. destruct z; cbn; lia. Qed.

Lemma zone_create_calls (nre : URL -> option string) (r : clientObj)
    (req : CreateRequest) (resp : Response) :
  Forall (fun q => ReqBody q
                   = Some (ZoneInput.Marshal (ZoneInput.mk
                       (ValueString (ZoneResourceModel.ZoneName
                          (ZoneResourceModel.Get (CreatePlan req)).2)) 0)))
         (PanopZoneResource_Create nre r req resp).1.
Proof.
  unfold PanopZoneResource_Create, NewRequest.
  destruct (ZoneResourceModel.Get (CreatePlan req)) as [ds data].
  destruct (HasError (Append resp ds)); [ constructor |].
  destruct (nre _); cbn [fst snd]; repeat constructor.
Qed.

Lemma asset_create_calls (nre : URL -> option string) (r : clientObj)
    (req : CreateRequest) (resp : Response) :
  Forall (fun q => ReqBody q
                   = Some (AssetInput.Marshal (AssetInput.mk
                       (ValueString (AssetResourceModel.AssetName
                          (AssetResourceModel.Get (CreatePlan req)).2))
                       (ValueInt64 (AssetResourceModel.ZoneId
                          (AssetResourceModel.Get (CreatePlan req)).2)))))
         (PanopAssetResource_Create nre r req resp).1.
Proof.
  unfold PanopAssetResource_Create, NewRequest.
  destruct (AssetResourceModel.Get (CreatePlan req)) as [ds data].
  destruct (HasError (Append resp ds)); [ constructor |].
  destruct (nre _); cbn [fst snd]; repeat constructor.
Qed.

(** C6.  An Asset Create whose plan declares [zone_id = z] and that
    receives 201 sent a payload whose [zone_id] member is the integer [z],
    and writes a state whose [zone_id] is [z]: the response has no part in
    it. *)
Theorem C6_asset_zone_id_verbatim (nre : URL -> option string) (r : clientObj)
    (req : CreateRequest) (resp : Response) (httpResp : http.Response)
    (body : Json.document) (z : Z) :
  receives r (PanopAssetResource_Create nre r req resp) httpResp ->
  StatusCode httpResp = StatusCreated ->
  Body httpResp = inr body ->
  AssetResourceModel.ZoneId (AssetResourceModel.Get (CreatePlan req)).2 = Int64Value z ->
  Forall (fun q => payload_integer "zone_id" q = Some z)
         (PanopAssetResource_Create nre r req resp).1
  /\ AssetResourceModel.ZoneId
       (AssetResourceModel.Get (State (PanopAssetResource_Create nre r req resp).2)).2
     = Int64Value z.
Proof.
  intros Hrecv Hcode Hbody Hz. split.
  - eapply Forall_impl; [ apply asset_create_calls |].
    intros q Hq. unfold payload_integer. rewrite Hq, Hz. cbn.
    by rewrite int_of_marshal.
  - destruct (asset_create_path _ _ _ _ _ _ Hrecv Hcode Hbody) as (_ & _ & ->).
    cbn [State]. rewrite Get_asset_object. exact Hz.
Qed.

Lemma C6_asset_under_zone_337 :
  Forall (fun q => payload_integer "zone_id" q = Some 337)
         (PanopAssetResource_Create url_ok (client (answer 201 sample.asset_created))
            {| CreatePlan := sample.asset_plan |} (fresh None)).1
  /\ AssetResourceModel.ZoneId
       (AssetResourceModel.Get
          (State (PanopAssetResource_Create url_ok
                    (client (answer 201 sample.asset_created))
                    {| CreatePlan := sample.asset_plan |} (fresh None)).2)).2
     = Int64Value 337.
Proof.
  apply C6_asset_zone_id_verbatim
    with (httpResp := answer 201 sample.asset_created) (body := sample.asset_created).
  - eexists. split; reflexivity.
  - reflexivity.
  - reflexivity.
  - reflexivity.
Defined.

Lemma existsb_Forall_false {A} (P : A -> Prop) (f : A -> bool) (l : list A) :
  Forall P l -> (forall q, P q -> f q = false) -> existsb f l = false.
Proof.
  intros Hl Hf. induction Hl as [|q l Hq _ IH]; [ reflexivity |].
  cbn [existsb]. by rewrite (Hf q Hq), IH.
Qed.

(** C7.  The payload of a Zone Create has the members [zone_name] and
    [tenant_id] and no other, that of an Asset Create [asset_name] and
    [zone_id]; neither Update sends a request.  So no create or update
    request carries a [token]. *)
Theorem C7_token_never_sent (nre : URL -> option string) (r : clientObj)
    (creq : CreateRequest) (ureq : UpdateRequest) (resp : Response) :
  Forall (fun q => keys <$> ReqBody q = Some ["zone_name"; "tenant_id"])
         (PanopZoneResource_Create nre r creq resp).1
  /\ Forall (fun q => keys <$> ReqBody q = Some ["asset_name"; "zone_id"])
            (PanopAssetResource_Create nre r creq resp).1
  /\ (PanopZoneResource_Update r ureq resp).1 = []
  /\ (PanopAssetResource_Update r ureq resp).1 = []
  /\ existsb carries_token
       ((PanopZoneResource_Create nre r creq resp).1
        ++ (PanopAssetResource_Create nre r creq resp).1
        ++ (PanopZoneResource_Update r ureq resp).1
        ++ (PanopAssetResource_Update r ureq resp).1) = false.
Proof.
  assert (Hzu : (PanopZoneResource_Update r ureq resp).1 = []).
  { unfold PanopZoneResource_Update.
    destruct (ZoneResourceModel.Get (UpdatePlan ureq)) as [ds data].
    by destruct (HasError (Append resp ds)). }
  assert (Hau : (PanopAssetResource_Update r ureq resp).1 = []).
  { unfold PanopAssetResource_Update.
    destruct (ZoneResourceModel.Get (UpdatePlan ureq)) as [ds data].
    by destruct (HasError (Append resp ds)). }
  pose proof (zone_create_calls nre r creq resp) as Hzc.
  pose proof (asset_create_calls nre r creq resp) as Hac.
  split; [ eapply Forall_impl; [ exact Hzc | by intros q -> ] |].
  split; [ eapply Forall_impl; [ exact Hac | by intros q -> ] |].
  split; [ exact Hzu |]. split; [ exact Hau |].
  rewrite Hzu, Hau, !app_nil_r, existsb_app.
  apply orb_false_intro; eapply existsb_Forall_false; eauto;
    intros q Hq; unfold carries_token; by rewrite Hq.
Qed.

(** ** strconv.ParseInt *)

Lemma is_digit_range (c : ascii) :
  is_digit c = true -> 0 <= Go.byte_val c - 48 <= 9.
Proof. unfold is_digit. intros H. apply andb_true_iff in H as [H1 H2]. lia. Qed.

Lemma decimal_from_ge (s : string) (n : Z) :
  all_digits s = true -> 0 <= n -> n <= decimal_from n s.
Proof.
  revert n. induction s as [|c s IH]; intros n Hs Hn; cbn [decimal_from]; [ lia |].
  cbn [all_digits] in Hs. apply andb_true_iff in Hs as [Hc Hs].
  pose proof (is_digit_range c Hc). specialize (IH (n * 10 + (Go.byte_val c - 48)) Hs).
  lia.
Qed.

Lemma all_digits_digit_run (s : string) : all_digits (digit_run s) = true.
Proof.
  induction s as [|c s IH]; [ reflexivity |]. cbn [digit_run].
  destruct (is_digit c) eqn:Hc; [| reflexivity ]. cbn [all_digits]. by rewrite Hc, IH.
Qed.

(** One round of the loop on a digit that does not overflow. *)
Lemma ParseUint_loop_digit (c : ascii) (rest : string) (n : Z) :
  is_digit c = true -> 0 <= n ->
  n * 10 + (Go.byte_val c - 48) <= Go.maxUint64 ->
  Go.ParseUint_loop (String c rest) n
  = Go.ParseUint_loop rest (n * 10 + (Go.byte_val c - 48)).
Proof.
  intros Hc Hn Hmax. pose proof (is_digit_range c Hc) as Hd.
  cbn [Go.ParseUint_loop]. unfold is_digit in Hc. rewrite Hc.
  unfold Go.maxUint64, Go.wrap_uint64 in *.
  change (2 ^ 64) with 18446744073709551616 in *.
  change ((18446744073709551616 - 1) / 10 + 1) with 1844674407370955162.
  destruct (10 <=? Go.byte_val c - 48) eqn:E1; [ lia |].
  destruct (1844674407370955162 <=? n) eqn:E2; [ lia |].
  rewrite (Z.mod_small (n * 10)) by lia.
  rewrite (Z.mod_small (n * 10 + _)) by lia.
  destruct (n * 10 + (Go.byte_val c - 48) <? n * 10) eqn:E3; [ lia |].
  destruct (18446744073709551616 - 1 <? n * 10 + (Go.byte_val c - 48)) eqn:E4; [ lia |].
  reflexivity.
Qed.

(** A byte that is no digit ends the loop with a syntax error. *)
Lemma ParseUint_loop_nondigit (c : ascii) (rest : string) (n : Z) :
  is_digit c = false ->
  Go.ParseUint_loop (String c rest) n = (0, Some Go.ErrSyntax).
Proof.
  intros Hc. cbn [Go.ParseUint_loop]. unfold is_digit in Hc. rewrite Hc.
  destruct ((97 <=? Go.lower c) && (Go.lower c <=? 122)) eqn:El; [| reflexivity ].
  apply andb_true_iff in El as [El1 El2].
  destruct (10 <=? Go.lower c - 97 + 10) eqn:E; [ reflexivity | lia ].
Qed.

Lemma ParseUint_loop_digits (s : string) (n : Z) :
  all_digits s = true -> 0 <= n -> decimal_from n s <= Go.maxUint64 ->
  Go.ParseUint_loop s n = (decimal_from n s, None).
Proof.
  revert n. induction s as [|c s IH]; intros n Hs Hn Hmax; [ reflexivity |].
  cbn [all_digits] in Hs. apply andb_true_iff in Hs as [Hc Hs].
  cbn [decimal_from] in *. pose proof (is_digit_range c Hc) as Hd.
  pose proof (decimal_from_ge s (n * 10 + (Go.byte_val c - 48)) Hs ltac:(lia)).
  rewrite ParseUint_loop_digit by (done || lia).
  apply IH; [ done | lia | done ].
Qed.

Lemma ParseUint_loop_syntax (s : string) (n : Z) :
  all_digits s = false -> 0 <= n ->
  decimal_from n (digit_run s) <= Go.maxUint64 ->
  Go.ParseUint_loop s n = (0, Some Go.ErrSyntax).
Proof.
  revert n. induction s as [|c s IH]; intros n Hs Hn Hmax; [ discriminate |].
  cbn [all_digits digit_run] in *.
  destruct (is_digit c) eqn:Hc; [| by apply ParseUint_loop_nondigit ].
  cbn [andb decimal_from] in *. pose proof (is_digit_range c Hc) as Hd.
  pose proof (decimal_from_ge (digit_run s) (n * 10 + (Go.byte_val c - 48))
                (all_digits_digit_run s) ltac:(lia)).
  rewrite ParseUint_loop_digit by (done || lia).
  apply IH; [ done | lia | done ].
Qed.

Lemma ParseUint_digits (u : string) :
  u <> EmptyString -> all_digits u = true -> decimal u <= Go.maxUint64 ->
  Go.ParseUint u = (decimal u, None).
Proof.
  intros Hne Hu Hmax. unfold Go.ParseUint. destruct u as [|c u]; [ done |].
  by apply ParseUint_loop_digits.
Qed.

Lemma ParseUint_syntax (u : string) :
  digits u = false ->
  decimal (digit_run u) <= Go.maxUint64 ->
  Go.ParseUint u = (0, Some Go.ErrSyntax).
Proof.
  unfold digits. intros Hu Hmax. unfold Go.ParseUint.
  destruct u as [|c u]; [ reflexivity |]. by apply ParseUint_loop_syntax.
Qed.

(** The shape of [ParseInt] once the sign is split off. *)
Lemma ParseInt_unfold (s : string) :
  s <> EmptyString ->
  Go.ParseInt s
  = match Go.ParseUint (unsigned_part s) with
    | (_, Some Go.ErrSyntax) => (0, Some Go.ErrSyntax)
    | (un, _) =>
        if negb (negative s) && (2 ^ 63 <=? un) then (2 ^ 63 - 1, Some Go.ErrRange)
        else if negative s && (2 ^ 63 <? un) then (- 2 ^ 63, Some Go.ErrRange)
        else (if negative s then - un else un, None)
    end.
Proof.
  destruct s as [|c rest]; [ done |]. intros _.
  unfold Go.ParseInt, unsigned_part, negative.
  destruct (Ascii.eqb c "+") eqn:Hp.
  - apply Ascii.eqb_eq in Hp. subst c. reflexivity.
  - destruct (Ascii.eqb c "-"); reflexivity.
Qed.

Lemma ParseInt_numeric (s : string) :
  numeric s = true -> Go.in_int64 (decimal_integer s) = true ->
  Go.ParseInt s = (decimal_integer s, None).
Proof.
  unfold numeric, digits, decimal_integer, Go.in_int64, Go.minInt64, Go.maxInt64.
  intros Hnum Hrange.
  assert (Hs : s <> EmptyString) by (by destruct s).
  rewrite ParseInt_unfold by done.
  assert (Hu : unsigned_part s <> EmptyString) by (by destruct (unsigned_part s)).
  assert (Hd : all_digits (unsigned_part s) = true) by (by destruct (unsigned_part s)).
  pose proof (decimal_from_ge (unsigned_part s) 0 Hd ltac:(lia)) as Hge.
  fold (decimal (unsigned_part s)) in Hge.
  apply andb_true_iff in Hrange as [Hlo Hhi].
  change (2 ^ 63) with 9223372036854775808 in *.
  rewrite ParseUint_digits; [| done | done | unfold Go.maxUint64; destruct (negative s); lia ].
  destruct (negative s); cbn [negb andb].
  - destruct (9223372036854775808 <? decimal (unsigned_part s)) eqn:E; [ lia | done ].
  - destruct (9223372036854775808 <=? decimal (unsigned_part s)) eqn:E; [ lia | done ].
Qed.

Lemma ParseInt_syntax (s : string) :
  numeric s = false ->
  decimal (digit_run (unsigned_part s)) <= Go.maxUint64 ->
  Go.ParseInt s = (0, Some Go.ErrSyntax).
Proof.
  unfold numeric. intros Hnum Hrun.
  destruct (decide (s = EmptyString)) as [->|Hs]; [ reflexivity |].
  rewrite ParseInt_unfold by done. by rewrite ParseUint_syntax.
Qed.

(** ** ImportState *)

Lemma import_zone_state (v : Z) :
  SetAttribute_int64 zone_schema "id" v None
  = ([], Some (zone_object (ZoneResourceModel.mk StringNull (Int64Value v)
                                                 StringNull StringNull))).
Proof. reflexivity. Qed.

Lemma import_asset_state (v : Z) :
  SetAttribute_int64 asset_schema "id" v None
  = ([], Some (asset_object (AssetResourceModel.mk StringNull (Int64Value v)
                                                   Int64Null))).
Proof. reflexivity. Qed.

(** C8, as amended.  An import into the empty state sends nothing, reports
    nothing and seeds the state with the identifier [strconv.ParseInt]
    returns for the external identifier, every other attribute null.  That
    identifier is the value of a numeric string within the [int64] range,
    and zero for a string that is not numeric, as long as the digits the
    string starts with (after an optional sign) do not overflow 64 bits
    before the offending byte is reached. *)
Theorem C8_import_seeds_identifier (r : clientObj) (req : ImportStateRequest)
    (resp : Response) :
  State resp = None ->
  ((PanopZoneResource_ImportState r req resp).1 = []
   /\ Diagnostics (PanopZoneResource_ImportState r req resp).2 = Diagnostics resp
   /\ ZoneResourceModel.Get (State (PanopZoneResource_ImportState r req resp).2)
      = ([], ZoneResourceModel.mk StringNull (Int64Value (Go.ParseInt (ID req)).1)
                                  StringNull StringNull))
  /\ ((PanopAssetResource_ImportState r req resp).1 = []
      /\ Diagnostics (PanopAssetResource_ImportState r req resp).2 = Diagnostics resp
      /\ AssetResourceModel.Get (State (PanopAssetResource_ImportState r req resp).2)
         = ([], AssetResourceModel.mk StringNull (Int64Value (Go.ParseInt (ID req)).1)
                                      Int64Null))
  /\ (numeric (ID req) = true ->
      Go.in_int64 (decimal_integer (ID req)) = true ->
      (Go.ParseInt (ID req)).1 = decimal_integer (ID req))
  /\ (numeric (ID req) = false ->
      decimal (digit_run (unsigned_part (ID req))) <= Go.maxUint64 ->
      (Go.ParseInt (ID req)).1 = 0).
Proof.
  intros Hempty.
  unfold PanopZoneResource_ImportState, PanopAssetResource_ImportState.
  rewrite Hempty, import_zone_state, import_asset_state.
  cbn [fst snd State Diagnostics]. rewrite Get_zone_object, Get_asset_object.
  repeat split.
  - intros Hnum Hrange. by rewrite ParseInt_numeric.
  - intros Hnum Hrun. by rewrite ParseInt_syntax.
Qed.

Lemma C8_import_337 :
  ZoneResourceModel.Get
    (State (PanopZoneResource_ImportState (client (answer 200 Json.Invalid))
              {| ID := "337" |} (fresh None)).2)
  = ([], ZoneResourceModel.mk StringNull (Int64Value 337) StringNull StringNull).
Proof.
  destruct (C8_import_seeds_identifier (client (answer 200 Json.Invalid))
              {| ID := "337" |} (fresh None) eq_refl)
    as ((_ & _ & Hstate) & _ & Hnum & _).
  rewrite Hstate. cbn [ID] in Hnum |- *.
  rewrite (Hnum eq_refl eq_refl). reflexivity.
Defined.

(** C8, as stated, fails: this identifier is not numeric, yet the twenty
    nines it starts with overflow before the [x] is read, [ParseInt]
    returns the largest [int64] with a range error, and the import seeds
    the state with that identifier, not with zero. *)
Lemma C8_overflowing_prefix_not_zero :
  numeric "99999999999999999999x" = false
  /\ Go.ParseInt "99999999999999999999x" = (9223372036854775807, Some Go.ErrRange)
  /\ ZoneResourceModel.Get
       (State (PanopZoneResource_ImportState (client (answer 200 Json.Invalid))
                 {| ID := "99999999999999999999x" |} (fresh None)).2)
     = ([], ZoneResourceModel.mk StringNull (Int64Value 9223372036854775807)
                                 StringNull StringNull)
  /\ Diagnostics
       (PanopZoneResource_ImportState (client (answer 200 Json.Invalid))
          {| ID := "99999999999999999999x" |} (fresh None)).2 = []
  /\ 9223372036854775807 <> 0.
Proof. repeat split; try (vm_compute; reflexivity). discriminate. Qed.

(** A string with no digit at all imports as zero, without a diagnostic. *)
Example import_abc :
  PanopAssetResource_ImportState (client (answer 200 Json.Invalid))
    {| ID := "abc" |} (fresh None)
  = ([], fresh (Some (asset_object (AssetResourceModel.mk StringNull (Int64Value 0)
                                                           Int64Null)))).
Proof. vm_compute. reflexivity. Qed.

(** ** Decoding failures *)

Lemma Unmarshal_slice_not_array {T} (fields : list (@Json.field T)) (zero : T)
    (body : Json.document) :
  is_array body = false -> (Json.Unmarshal_slice fields zero body).1 = [].
Proof. destruct body as [|[]]; cbn; done. Qed.

Lemma Unmarshal_not_object {T} (fields : list (@Json.field T)) (body : Json.document)
    (v : T) :
  is_object body = false -> (Json.Unmarshal fields body v).1 = v.
Proof. destruct body as [|[]]; cbn; done. Qed.

(** An array decodes element by element, each into a record of its own. *)
Lemma Unmarshal_slice_array {T} (fields : list (@Json.field T)) (zero : T)
    (elems : list Json.json) :
  (Json.Unmarshal_slice fields zero (Json.Valid (Json.Array elems))).1
  = map (fun e => (Json.store_struct fields e zero).1) elems.
Proof. cbn. by rewrite map_map. Qed.

Lemma store_members_fold {T} (fields : list (@Json.field T))
    (ms : list (string * Json.json)) (v : T) :
  (Json.store_members fields ms v).1
  = fold_left (fun v m => (Json.store_member fields m v).1) ms v.
Proof.
  revert v. induction ms as [|m ms IH]; intros v; [ reflexivity |].
  cbn [Json.store_members fold_left].
  destruct (Json.store_member fields m v) as [v1 e1] eqn:Hm.
  specialize (IH v1).
  destruct (Json.store_members fields ms v1) as [v2 e2]. cbn [fst] in *.
  exact IH.
Qed.

Lemma store_struct_record {T} (fields : list (@Json.field T)) (zero : T)
    (e : Json.json) :
  (Json.store_struct fields e zero).1 = record fields zero e.
Proof. destruct e; try reflexivity. apply store_members_fold. Qed.

Lemma Unmarshal_slice_records {T} (fields : list (@Json.field T)) (zero : T)
    (elems : list Json.json) :
  (Json.Unmarshal_slice fields zero (Json.Valid (Json.Array elems))).1
  = map (record fields zero) elems.
Proof.
  rewrite Unmarshal_slice_array. apply map_ext. intros e. apply store_struct_record.
Qed.

Lemma store_int64_error (j : Json.json) (cur : Z) :
  (Json.store_int64 j cur).2 = true -> (Json.store_int64 j cur).1 = cur.
Proof.
  destruct j as [| |[neg mag|]| | |]; cbn; try done.
  by destruct (Go.in_int64 _).
Qed.

Lemma store_uint_error (j : Json.json) (cur : Z) :
  (Json.store_uint j cur).2 = true -> (Json.store_uint j cur).1 = cur.
Proof.
  destruct j as [| |[[] mag|]| | |]; cbn; try done.
  by destruct (Go.in_uint64 _).
Qed.

Lemma store_string_error (j : Json.json) (cur : string) :
  (Json.store_string j cur).2 = true -> (Json.store_string j cur).1 = cur.
Proof. destruct j; cbn; done. Qed.

Lemma store_bool_error (j : Json.json) (cur : bool) :
  (Json.store_bool j cur).2 = true -> (Json.store_bool j cur).1 = cur.
Proof. destruct j; cbn; done. Qed.

Lemma find_field_In {T} (fields : list (@Json.field T)) (key : string) (f : Json.field) :
  Json.find_field fields key = Some f -> In f fields.
Proof.
  unfold Json.find_field.
  destruct (find (fun g => String.eqb g.1 key) fields) as [g|] eqn:E.
  - intros [= <-]. by apply find_some in E as [? _].
  - intros E'. by apply find_some in E' as [? _].
Qed.

(** Destructs the pair a primitive store returns and closes the goal with
    the lemma saying that an error leaves the field as it was. *)
Ltac field_error lem :=
  match goal with
  | |- context [let '(x, e) := ?store ?j ?cur in _] =>
      let H := fresh "H" in
      pose proof (lem j cur) as H;
      destruct (store j cur) as [x e]; cbn [fst snd] in *;
      intros ->; by rewrite H
  end.

Ltac member_error v :=
  unfold Json.store_member;
  match goal with
  | |- context [Json.find_field ?fields ?k] =>
      let E := fresh "E" in
      destruct (Json.find_field fields k) as [[name store]|] eqn:E; [| done ];
      apply find_field_In in E; cbn [In] in E; destruct v;
      repeat (destruct E as [E|E]; [ injection E as <- <- |]); try done;
      cbn [fst snd];
      first [ field_error store_int64_error | field_error store_uint_error
            | field_error store_string_error | field_error store_bool_error ]
  end.

(** A member that does not fit its field leaves the record as it was, like
    an absent member. *)
Lemma zone_read_member_error (m : string * Json.json) (v : ZoneReadResponse.t) :
  (Json.store_member ZoneReadResponse.fields m v).2 = true ->
  (Json.store_member ZoneReadResponse.fields m v).1 = v.
Proof. member_error v. Qed.

Lemma zone_list_member_error (m : string * Json.json) (v : ZoneListResponse.t) :
  (Json.store_member ZoneListResponse.fields m v).2 = true ->
  (Json.store_member ZoneListResponse.fields m v).1 = v.
Proof. member_error v. Qed.

Lemma asset_read_member_error (m : string * Json.json) (v : AssetReadResponse.t) :
  (Json.store_member AssetReadResponse.fields m v).2 = true ->
  (Json.store_member AssetReadResponse.fields m v).1 = v.
Proof. member_error v. Qed.

Lemma asset_create_member_error (m : string * Json.json) (v : AssetCreateResponse.t) :
  (Json.store_member AssetCreateResponse.fields m v).2 = true ->
  (Json.store_member AssetCreateResponse.fields m v).1 = v.
Proof. member_error v. Qed.

(** The requests a read sends do not depend on what the service answers. *)
Ltac calls_same :=
  unfold answering; cbn [host accessKey clientHttp];
  match goal with
  | |- context [HasError (Append ?resp ?ds)] => destruct (HasError (Append resp ds))
  end;
  [ reflexivity |];
  match goal with
  | |- context [NewRequest ?nre ?m ?u ?b] => destruct (NewRequest nre m u b)
  end; reflexivity.

Lemma run_read_calls (nre : URL -> option string) (r : clientObj) (op : read_op)
    (d : Data) (resp : Response) (httpResp : http.Response) :
  (run_read nre (answering r httpResp) op d resp).1 = (run_read nre r op d resp).1.
Proof.
  destruct op; cbn [run_read].
  - unfold PanopZoneResource_Read. cbn [ReadState].
    destruct (ZoneResourceModel.Get d) as [ds data]. calls_same.
  - unfold PanopAssetResource_Read. cbn [ReadState].
    destruct (AssetResourceModel.Get d) as [ds data]. calls_same.
  - unfold PanopZoneDataSource_Read. cbn [Config].
    destruct (PanopZoneDataSourceModel.Get d) as [ds data]. calls_same.
  - unfold PanopAssetDataSource_Read. cbn [Config].
    destruct (PanopAssetDataSourceModel.Get d) as [ds data]. calls_same.
Qed.

Lemma receives_answering (nre : URL -> option string) (r : clientObj) (op : read_op)
    (d : Data) (resp : Response) (h h' : http.Response) :
  receives r (run_read nre r op d resp) h ->
  receives (answering r h') (run_read nre (answering r h') op d resp) h'.
Proof.
  intros [q [Hq _]]. exists q. by rewrite run_read_calls.
Qed.

(** What a read that received 200 leaves behind, for any body. *)
Lemma run_read_path (nre : URL -> option string) (r : clientObj) (op : read_op)
    (d : Data) (resp : Response) (httpResp : http.Response) (body : Json.document) :
  receives r (run_read nre r op d resp) httpResp ->
  StatusCode httpResp = StatusOK ->
  Body httpResp = inr body ->
  HasError resp = false
  /\ (run_read nre r op d resp).2
     = {| State := Some
            match op with
            | ZoneRead => zone_object (refresh_zone
                (Json.Unmarshal_slice ZoneReadResponse.fields ZoneReadResponse.zero body).1
                (ZoneResourceModel.Get d).2)
            | AssetRead => asset_object (refresh_asset
                (Json.Unmarshal_slice AssetReadResponse.fields AssetReadResponse.zero body).1
                (AssetResourceModel.Get d).2)
            | ZoneList => zone_data_object (PanopZoneDataSourceModel.mk (collect_zones
                (Json.Unmarshal_slice ZoneListResponse.fields ZoneListResponse.zero body).1
                (PanopZoneDataSourceModel.Zones (PanopZoneDataSourceModel.Get d).2)))
            | AssetList => asset_data_object (PanopAssetDataSourceModel.mk
                (PanopAssetDataSourceModel.ZoneId (PanopAssetDataSourceModel.Get d).2)
                (collect_assets
                   (Json.Unmarshal_slice AssetReadResponse.fields AssetReadResponse.zero
                      body).1
                   (PanopAssetDataSourceModel.ZoneId (PanopAssetDataSourceModel.Get d).2)
                   (PanopAssetDataSourceModel.Assets (PanopAssetDataSourceModel.Get d).2)))
            end;
          Diagnostics := Diagnostics resp |}.
Proof.
  intros Hrecv Hcode Hbody. destruct op; cbn [run_read] in *.
  - by destruct (zone_read_path _ _ _ _ _ _ Hrecv Hcode Hbody) as (_ & ? & ?).
  - by destruct (asset_read_path _ _ _ _ _ _ Hrecv Hcode Hbody) as (_ & ? & ?).
  - by destruct (zone_list_path _ _ _ _ _ _ Hrecv Hcode Hbody) as (_ & ? & ?).
  - by destruct (asset_list_path _ _ _ _ _ _ Hrecv Hcode Hbody) as (_ & ? & ?).
Qed.

(** C9, as amended.  A read or list operation that receives 200 returns no
    error whatever the body is: a decoding failure is not reported.  With a
    body that is not valid JSON, or whose document is not an array, the
    operation goes on with the empty collection, as if the service had
    answered [[]].  With an array it goes on with one record per element,
    in the order of the array: the state it writes is the one its loop
    makes of those records, whether or not decoding them failed.  In such
    a record a member that does not fit its field leaves the record as it
    was, like an absent member. *)
Theorem C9_decode_failure_not_reported (nre : URL -> option string) (r : clientObj)
    (op : read_op) (d : Data) (resp : Response) (httpResp : http.Response)
    (body : Json.document) :
  receives r (run_read nre r op d resp) httpResp ->
  StatusCode httpResp = StatusOK ->
  Body httpResp = inr body ->
  HasError (run_read nre r op d resp).2 = false
  /\ Diagnostics (run_read nre r op d resp).2 = Diagnostics resp
  /\ (is_array body = false ->
      (run_read nre r op d resp).2
      = (run_read nre (answering r (answer StatusOK (Json.Valid (Json.Array []))))
           op d resp).2)
  /\ (forall elems, body = Json.Valid (Json.Array elems) ->
        State (run_read nre r op d resp).2
        = Some
            match op with
            | ZoneRead => zone_object (refresh_zone
                (map (record ZoneReadResponse.fields ZoneReadResponse.zero) elems)
                (ZoneResourceModel.Get d).2)
            | AssetRead => asset_object (refresh_asset
                (map (record AssetReadResponse.fields AssetReadResponse.zero) elems)
                (AssetResourceModel.Get d).2)
            | ZoneList => zone_data_object (PanopZoneDataSourceModel.mk (collect_zones
                (map (record ZoneListResponse.fields ZoneListResponse.zero) elems)
                (PanopZoneDataSourceModel.Zones (PanopZoneDataSourceModel.Get d).2)))
            | AssetList => asset_data_object (PanopAssetDataSourceModel.mk
                (PanopAssetDataSourceModel.ZoneId (PanopAssetDataSourceModel.Get d).2)
                (collect_assets
                   (map (record AssetReadResponse.fields AssetReadResponse.zero) elems)
                   (PanopAssetDataSourceModel.ZoneId (PanopAssetDataSourceModel.Get d).2)
                   (PanopAssetDataSourceModel.Assets (PanopAssetDataSourceModel.Get d).2)))
            end)
  /\ (forall m v, (Json.store_member ZoneReadResponse.fields m v).2 = true ->
                  (Json.store_member ZoneReadResponse.fields m v).1 = v)
  /\ (forall m v, (Json.store_member ZoneListResponse.fields m v).2 = true ->
                  (Json.store_member ZoneListResponse.fields m v).1 = v)
  /\ (forall m v, (Json.store_member AssetReadResponse.fields m v).2 = true ->
                  (Json.store_member AssetReadResponse.fields m v).1 = v).
Proof.
  intros Hrecv Hcode Hbody.
  destruct (run_read_path _ _ _ _ _ _ _ Hrecv Hcode Hbody) as (Hclean & Hrun).
  split; [ by rewrite Hrun |]. split; [ by rewrite Hrun |].
  split; [| split;
            [| repeat split;
               first [ exact zone_read_member_error
                     | exact zone_list_member_error
                     | exact asset_read_member_error ] ] ].
  - intros Harr.
    pose proof (receives_answering nre r op d resp httpResp
                  (answer StatusOK (Json.Valid (Json.Array []))) Hrecv) as Hrecv'.
    destruct (run_read_path _ _ _ _ _ _ (Json.Valid (Json.Array [])) Hrecv'
                eq_refl eq_refl) as (_ & ->).
    rewrite Hrun. destruct op; by rewrite Unmarshal_slice_not_array.
  - intros elems ->. rewrite Hrun. cbn [State].
    destruct op; by rewrite Unmarshal_slice_records.
Qed.

Lemma C9_zone_list_invalid_body :
  HasError (run_read url_ok (client (answer 200 Json.Invalid)) ZoneList
              sample.zone_config (fresh None)).2 = false
  /\ (run_read url_ok (client (answer 200 Json.Invalid)) ZoneList
        sample.zone_config (fresh None)).2
     = (run_read url_ok
          (answering (client (answer 200 Json.Invalid))
             (answer StatusOK (Json.Valid (Json.Array []))))
          ZoneList sample.zone_config (fresh None)).2.
Proof.
  destruct (C9_decode_failure_not_reported url_ok (client (answer 200 Json.Invalid))
              ZoneList sample.zone_config (fresh None) (answer 200 Json.Invalid)
              Json.Invalid) as (Herr & _ & Hempty & _).
  - eexists. split; reflexivity.
  - reflexivity.
  - reflexivity.
  - split; [ exact Herr | exact (Hempty eq_refl) ].
Defined.

(** C9, as stated, fails: the zone lister receives 200 with an array whose
    one entry carries its identifier as a string.  Decoding reports an
    error, no error is returned, and the collection the operation goes on
    with is not empty: it holds that entry, its name decoded and its
    identifier zero. *)
Lemma C9_partial_decode_not_empty :
  receives (client (answer 200 sample.zones_bad_id))
    (run_read url_ok (client (answer 200 sample.zones_bad_id)) ZoneList
       sample.zone_config (fresh None))
    (answer 200 sample.zones_bad_id)
  /\ (Json.Unmarshal_slice ZoneListResponse.fields ZoneListResponse.zero
        sample.zones_bad_id).2 = true
  /\ HasError (run_read url_ok (client (answer 200 sample.zones_bad_id)) ZoneList
                 sample.zone_config (fresh None)).2 = false
  /\ listed_zones
       (State (run_read url_ok (client (answer 200 sample.zones_bad_id)) ZoneList
                 sample.zone_config (fresh None)).2)
     = [ ZoneModel.mk (StringValue "a") (Int64Value 0) (Int64Value 0)
                      (StringValue "") (StringValue "") ]
  /\ listed_zones
       (State (run_read url_ok (client (answer 200 (Json.Valid (Json.Array []))))
                 ZoneList sample.zone_config (fresh None)).2)
     = [].
Proof.
  split; [ eexists; split; reflexivity |].
  repeat split; vm_compute; reflexivity.
Qed.

(** ** Asset Create *)

(** C10, as amended.  An Asset Create that receives 201 stores as
    [asset_name] the name that decoding the response body leaves in the
    response struct, whatever the plan asked for.  That name is the empty
    string when the body is not valid JSON or its document is not an
    object; a member that does not fit its field, such as an identifier
    that is not a number, fails the decoding and yet leaves the rest of
    the struct, the name included, as decoded. *)
Theorem C10_asset_name_from_response (nre : URL -> option string) (r : clientObj)
    (req : CreateRequest) (resp : Response) (httpResp : http.Response)
    (body : Json.document) :
  receives r (PanopAssetResource_Create nre r req resp) httpResp ->
  StatusCode httpResp = StatusCreated ->
  Body httpResp = inr body ->
  AssetResourceModel.AssetName
    (AssetResourceModel.Get (State (PanopAssetResource_Create nre r req resp).2)).2
  = StringValue (AssetCreateResponse.AssetName
      (Json.Unmarshal AssetCreateResponse.fields body AssetCreateResponse.zero).1)
  /\ (is_object body = false ->
      AssetResourceModel.AssetName
        (AssetResourceModel.Get (State (PanopAssetResource_Create nre r req resp).2)).2
      = StringValue "")
  /\ (forall m v, (Json.store_member AssetCreateResponse.fields m v).2 = true ->
                  (Json.store_member AssetCreateResponse.fields m v).1 = v).
Proof.
  intros Hrecv Hcode Hbody.
  destruct (asset_create_path _ _ _ _ _ _ Hrecv Hcode Hbody) as (_ & _ & ->).
  cbn [State]. rewrite Get_asset_object. cbn [snd AssetResourceModel.AssetName].
  split; [ reflexivity |]. split; [| exact asset_create_member_error ].
  intros Hobj. by rewrite Unmarshal_not_object.
Qed.

Lemma C10_asset_named_by_response :
  AssetResourceModel.AssetName
    (AssetResourceModel.Get
       (State (PanopAssetResource_Create url_ok (client (answer 201 Json.Invalid))
                 {| CreatePlan := sample.asset_plan |} (fresh None)).2)).2
  = StringValue "".
Proof.
  destruct (C10_asset_name_from_response url_ok (client (answer 201 Json.Invalid))
              {| CreatePlan := sample.asset_plan |} (fresh None)
              (answer 201 Json.Invalid) Json.Invalid) as (_ & Hempty & _).
  - eexists. split; reflexivity.
  - reflexivity.
  - reflexivity.
  - exact (Hempty eq_refl).
Defined.

(** C10, as stated, fails: the service answers 201 with the identifier as
    a string.  Decoding the body reports an error, and the name stored is
    the [www] of the body, not the empty string. *)
Lemma C10_failed_decode_keeps_name :
  receives (client (answer 201 sample.asset_created_bad_id))
    (PanopAssetResource_Create url_ok (client (answer 201 sample.asset_created_bad_id))
       {| CreatePlan := sample.asset_plan |} (fresh None))
    (answer 201 sample.asset_created_bad_id)
  /\ (Json.Unmarshal AssetCreateResponse.fields sample.asset_created_bad_id
        AssetCreateResponse.zero).2 = true
  /\ AssetResourceModel.Get
       (State (PanopAssetResource_Create url_ok
                 (client (answer 201 sample.asset_created_bad_id))
                 {| CreatePlan := sample.asset_plan |} (fresh None)).2)
     = ([], AssetResourceModel.mk (StringValue "www") (Int64Value 0) (Int64Value 337))
  /\ StringValue "www" <> StringValue "".
Proof.
  split; [ eexists; split; reflexivity |].
  split; [ reflexivity |].
  split; [ vm_compute; reflexivity | discriminate ].
Qed.

(** ** The zone lister *)

Lemma collect_zones_entries (zones : list ZoneListResponse.t)
    (acc : option (list ZoneModel.t)) :
  default [] (collect_zones zones acc) = default [] acc ++ map zone_entry zones.
Proof.
  revert acc. induction zones as [|z zones IH]; intros acc.
  - cbn. by rewrite app_nil_r.
  - cbn [collect_zones]. rewrite IH. unfold append. cbn. by rewrite <- app_assoc.
Qed.

(** The zone lister that receives 200 lists one entry per decoded zone, in
    the order of the decoded collection. *)
Lemma zone_lister_entries (nre : URL -> option string) (d : clientObj)
    (req : DataSourceReadRequest) (resp : Response) (httpResp : http.Response)
    (body : Json.document) :
  receives d (PanopZoneDataSource_Read nre d req resp) httpResp ->
  StatusCode httpResp = StatusOK ->
  Body httpResp = inr body ->
  PanopZoneDataSourceModel.Zones (PanopZoneDataSourceModel.Get (Config req)).2 = None ->
  listed_zones (State (PanopZoneDataSource_Read nre d req resp).2)
  = map zone_entry
      (Json.Unmarshal_slice ZoneListResponse.fields ZoneListResponse.zero body).1.
Proof.
  intros Hrecv Hcode Hbody Hcfg.
  destruct (zone_list_path _ _ _ _ _ _ Hrecv Hcode Hbody) as (_ & _ & ->).
  cbn [State]. unfold listed_zones. rewrite Get_zone_data_object.
  cbn [snd PanopZoneDataSourceModel.Zones]. rewrite Hcfg.
  by rewrite collect_zones_entries.
Qed.

(** ** The library models on small inputs *)

Example ParseInt_samples :
  Go.ParseInt "337" = (337, None)
  /\ Go.ParseInt "-12" = (-12, None)
  /\ Go.ParseInt "+5" = (5, None)
  /\ Go.ParseInt "" = (0, Some Go.ErrSyntax)
  /\ Go.ParseInt "-" = (0, Some Go.ErrSyntax)
  /\ Go.ParseInt "12a" = (0, Some Go.ErrSyntax)
  /\ Go.ParseInt "1_000" = (0, Some Go.ErrSyntax)
  /\ Go.ParseInt "9223372036854775807" = (Go.maxInt64, None)
  /\ Go.ParseInt "9223372036854775808" = (Go.maxInt64, Some Go.ErrRange)
  /\ Go.ParseInt "-9223372036854775808" = (Go.minInt64, None)
  /\ Go.ParseInt "-9223372036854775809" = (Go.minInt64, Some Go.ErrRange).
Proof. repeat split; vm_compute; reflexivity. Qed.

(** A key matches its field under case folding; [null] and a missing
    member leave a field at its zero value; a later duplicate wins. *)
Example Unmarshal_samples :
  Json.Unmarshal AssetCreateResponse.fields
    (Json.Valid (Json.Object [ ("Asset_ID", Json.Number (Json.Int false 5));
                               ("asset_name", Json.Str "api");
                               ("asset_name", Json.Str "www");
                               ("extra", Json.Bool true) ]))
    AssetCreateResponse.zero
  = (AssetCreateResponse.mk 5 "www", false)
  /\ Json.Unmarshal AssetCreateResponse.fields
       (Json.Valid (Json.Object [ ("asset_id", Json.Null) ]))
       AssetCreateResponse.zero
     = (AssetCreateResponse.zero, false)
  /\ Json.Unmarshal AssetCreateResponse.fields
       (Json.Valid (Json.Object [ ("asset_id", Json.Number (Json.Int true 1)) ]))
       AssetCreateResponse.zero
     = (AssetCreateResponse.zero, true)
  /\ Json.Unmarshal_slice AssetReadResponse.fields AssetReadResponse.zero
       (Json.Valid (Json.Array [ Json.Null; Json.Number (Json.Real "1.5") ]))
     = ([AssetReadResponse.zero; AssetReadResponse.zero], true).
Proof. repeat split; vm_compute; reflexivity. Qed.

(* ===================================================================== *)
(** * Further properties of the operations *)
(* ===================================================================== *)

Import scenario.

(** Takes an operation apart up to the request it sends. *)
Ltac to_request :=
  unfold PanopZoneResource_Create, PanopZoneResource_Read, PanopZoneResource_Delete,
         PanopZoneDataSource_Read, PanopAssetResource_Create, PanopAssetResource_Read,
         PanopAssetResource_Delete, PanopAssetDataSource_Read;
  cbn [CreatePlan ReadState DeleteState Config];
  match goal with
  | |- context [ZoneResourceModel.Get ?d] =>
      destruct (ZoneResourceModel.Get d) as [?ds ?data]
  | |- context [AssetResourceModel.Get ?d] =>
      destruct (AssetResourceModel.Get d) as [?ds ?data]
  | |- context [PanopZoneDataSourceModel.Get ?d] =>
      destruct (PanopZoneDataSourceModel.Get d) as [?ds ?data]
  | |- context [PanopAssetDataSourceModel.Get ?d] =>
      destruct (PanopAssetDataSourceModel.Get d) as [?ds ?data]
  end;
  cbn [fst snd].

(** X1.  An operation sends the one request the table of the remote API
    gives for it, over https to the configured host with the bearer
    credential, or it sends nothing; and when it sends nothing it reports
    an error and leaves the state as it found it.  (The zone Delete is the
    one request without a Content-Type header.) *)
Theorem request_is_planned (nre : URL -> option string) (r : clientObj)
    (op : operation) (d : Data) (resp : Response) :
  (run nre r op d resp).1 = [planned r op d]
  \/ ((run nre r op d resp).1 = []
      /\ HasError (run nre r op d resp).2 = true
      /\ State (run nre r op d resp).2 = State resp).
Proof.
  destruct op; cbn [run planned]; to_request;
    try (destruct (HasError (Append resp ds)) eqn:He;
         [ right; by repeat split |]);
    unfold NewRequest;
    match goal with
    | |- context [nre ?u] => destruct (nre u) eqn:Hu
    end;
    cbn [fst snd];
    first [ right; repeat split; first [ done | apply provider_HasError_AddError ]
          | left; reflexivity ].
Qed.

Lemma status_eqb (h : http.Response) (c : Z) :
  negb (StatusCode h =? c) = false -> StatusCode h = c.
Proof. intros H. apply negb_false_iff in H. by apply Z.eqb_eq. Qed.

(** After the request: the cases of the transport, of reading the body and
    of the status. *)
Ltac after_request :=
  match goal with
  | |- context [clientHttp ?r ?q] =>
      let Hdo := fresh "Hdo" in
      destruct (clientHttp r q) as [?err|?httpResp] eqn:Hdo
  end;
  try match goal with
      | |- context [Body ?h] =>
          let Hbody := fresh "Hbody" in destruct (Body h) as [?err|?body] eqn:Hbody
      end;
  try match goal with
      | |- context [negb (StatusCode ?h =? ?c)] =>
          let Hcode := fresh "Hcode" in
          destruct (negb (StatusCode h =? c)) eqn:Hcode;
          [| apply status_eqb in Hcode ]
      end.

(** X2.  A Create, a Read or a data source Read ends in one of two ways.
    Either it received the status it expects with a readable body: then it
    reports nothing and writes a state.  Or it reports an error and leaves
    the state as it found it, whatever went wrong: the input did not fit
    the model, the URL did not parse, the transport failed, the body could
    not be read, or the status was another one. *)
Theorem success_or_untouched (nre : URL -> option string) (r : clientObj)
    (op : operation) (d : Data) (resp : Response) :
  is_delete op = false ->
  (succeeded r op (run nre r op d resp)
   /\ read_diags op d = []
   /\ Diagnostics (run nre r op d resp).2 = Diagnostics resp
   /\ HasError (run nre r op d resp).2 = false
   /\ is_Some (State (run nre r op d resp).2))
  \/ (HasError (run nre r op d resp).2 = true
      /\ State (run nre r op d resp).2 = State resp).
Proof.
  intros Hop.
  pose proof (Get_zone_diags d) as Hz. pose proof (Get_asset_diags d) as Ha.
  pose proof (Get_zone_data_diags d) as Hzd. pose proof (Get_asset_data_diags d) as Had.
  destruct op; try discriminate Hop; cbn [run read_diags expects] in *; to_request;
    cbn [fst] in *;
    (destruct (HasError (Append resp ds)) eqn:He; [ right; by split |]);
    match goal with
    | H : _ = [] \/ _ |- _ =>
        destruct (clean_start _ _ He H) as (-> & Hsame & Hclean)
    end;
    rewrite ?Hsame;
    unfold NewRequest;
    match goal with
    | |- context [nre ?u] => destruct (nre u) eqn:Hu
    end;
    cbn [fst snd];
    try (right; split; [ apply provider_HasError_AddError | reflexivity ]);
    after_request;
    try (right; split; [ apply provider_HasError_AddError | reflexivity ]);
    left;
    rewrite ?StateSet_zone, ?StateSet_asset, ?StateSet_zone_data, ?StateSet_asset_data;
    (split; [ eexists; split; [ eexists; split; [ reflexivity | eassumption ] |];
              split; [ eassumption | right; by eexists ]
            | repeat split; first [ done | by eexists ] ]).
Qed.

Lemma success_or_untouched_sample :
  (succeeded (client (answer 200 sample.two_zones)) OpZoneList
     (run url_ok (client (answer 200 sample.two_zones)) OpZoneList
        sample.zone_config (fresh None))
   /\ read_diags OpZoneList sample.zone_config = []
   /\ Diagnostics (run url_ok (client (answer 200 sample.two_zones)) OpZoneList
                     sample.zone_config (fresh None)).2 = Diagnostics (fresh None)
   /\ HasError (run url_ok (client (answer 200 sample.two_zones)) OpZoneList
                  sample.zone_config (fresh None)).2 = false
   /\ is_Some (State (run url_ok (client (answer 200 sample.two_zones)) OpZoneList
                        sample.zone_config (fresh None)).2))
  \/ (HasError (run url_ok (client (answer 200 sample.two_zones)) OpZoneList
                  sample.zone_config (fresh None)).2 = true
      /\ State (run url_ok (client (answer 200 sample.two_zones)) OpZoneList
                  sample.zone_config (fresh None)).2 = State (fresh None)).
Proof. apply success_or_untouched. reflexivity. Defined.

(** X3.  A Delete never touches the state of its response (removing it is
    left to the framework).  It does not look at the outcome of reading the
    prior state: whenever the URL parses it sends its request, with the
    identifier zero when the state could not be read.  It adds no
    diagnostic of its own exactly when it received 200, whatever the body:
    then its diagnostics are those of reading the state.  In every other
    case (the URL did not parse, the transport failed, the status was
    another one) it adds an error of its own to them. *)
Theorem delete_outcome (nre : URL -> option string) (r : clientObj)
    (op : operation) (d : Data) (resp : Response) :
  is_delete op = true ->
  State (run nre r op d resp).2 = State resp
  /\ (nre (Url (planned r op d)) = None ->
      (run nre r op d resp).1 = [planned r op d])
  /\ ((succeeded r op (run nre r op d resp)
       /\ Diagnostics (run nre r op d resp).2
          = diag.Append (Diagnostics resp) (read_diags op d))
      \/ (~ succeeded r op (run nre r op d resp)
          /\ HasError (run nre r op d resp).2 = true
          /\ exists summary detail,
               Diagnostics (run nre r op d resp).2
               = diag.AddError (diag.Append (Diagnostics resp) (read_diags op d))
                   summary detail)).
Proof.
  intros Hop.
  destruct op; try discriminate Hop; cbn [run read_diags expects planned Url] in *;
    unfold endpoint; to_request; unfold NewRequest;
    match goal with
    | |- context [nre ?u] => destruct (nre u) eqn:Hu
    end;
    cbn [fst snd];
    try (split; [ reflexivity |]; split; [ discriminate |]; right;
         split; [ by intros (h & (q & Hq & _) & _) |];
         split; [ apply provider_HasError_AddError | by eexists _, _ ]);
    after_request;
    (split; [ reflexivity |]); (split; [ reflexivity |]);
    try (right;
         split; [ intros (h & (q & Hq & Hdo') & Hst & _);
                  cbn [fst] in Hq; injection Hq as <-;
                  rewrite Hdo in Hdo'; first [ discriminate Hdo' | injection Hdo' as <- ];
                  cbn [expects] in Hst; rewrite Hst in Hcode; discriminate Hcode |];
         split; [ apply provider_HasError_AddError | by eexists _, _ ]);
    left; (split; [| reflexivity ]);
    eexists; (split; [ eexists; split; [ reflexivity | eassumption ] |]);
    (split; [ eassumption | by left ]).
Qed.

Lemma delete_outcome_sample :
  State (run url_ok (client (answer 200 Json.Invalid)) OpAssetDelete None
           (fresh None)).2 = State (fresh None)
  /\ (url_ok (Url (planned (client (answer 200 Json.Invalid)) OpAssetDelete None)) = None ->
      (run url_ok (client (answer 200 Json.Invalid)) OpAssetDelete None (fresh None)).1
      = [planned (client (answer 200 Json.Invalid)) OpAssetDelete None])
  /\ ((succeeded (client (answer 200 Json.Invalid)) OpAssetDelete
         (run url_ok (client (answer 200 Json.Invalid)) OpAssetDelete None (fresh None))
       /\ Diagnostics (run url_ok (client (answer 200 Json.Invalid)) OpAssetDelete None
                         (fresh None)).2
          = diag.Append (Diagnostics (fresh None)) (read_diags OpAssetDelete None))
      \/ (~ succeeded (client (answer 200 Json.Invalid)) OpAssetDelete
            (run url_ok (client (answer 200 Json.Invalid)) OpAssetDelete None (fresh None))
          /\ HasError (run url_ok (client (answer 200 Json.Invalid)) OpAssetDelete None
                         (fresh None)).2 = true
          /\ exists summary detail,
               Diagnostics (run url_ok (client (answer 200 Json.Invalid)) OpAssetDelete None
                              (fresh None)).2
               = diag.AddError (diag.Append (Diagnostics (fresh None))
                                  (read_diags OpAssetDelete None))
                   summary detail)).
Proof. apply delete_outcome. reflexivity. Defined.

(** A Delete on a state that cannot be read still asks the service to
    delete the identifier zero. *)
Example delete_unread_state :
  map (fun q => Path (Url q))
      (run url_ok (client (answer 200 Json.Invalid)) OpZoneDelete None (fresh None)).1
  = ["/api/zones/0"].
Proof. vm_compute. reflexivity. Qed.

(** ** Read *)

(** A Read received 200 with a readable body, or it left the state as it
    found it. *)
Lemma zone_read_cases (nre : URL -> option string) (r : clientObj) (st : Data)
    (resp : Response) :
  (exists httpResp body,
      receives r (PanopZoneResource_Read nre r {| ReadState := st |} resp) httpResp
      /\ StatusCode httpResp = StatusOK /\ Body httpResp = inr body)
  \/ State (PanopZoneResource_Read nre r {| ReadState := st |} resp).2 = State resp.
Proof.
  to_request. destruct (HasError (Append resp ds)); [ by right |].
  unfold NewRequest.
  match goal with |- context [nre ?u] => destruct (nre u) end;
    cbn [fst snd]; [ by right |].
  after_request; try (by right).
  left. eexists _, _. split; [ eexists; split; [ reflexivity | eassumption ] |].
  by split.
Qed.

Lemma asset_read_cases (nre : URL -> option string) (r : clientObj) (st : Data)
    (resp : Response) :
  (exists httpResp body,
      receives r (PanopAssetResource_Read nre r {| ReadState := st |} resp) httpResp
      /\ StatusCode httpResp = StatusOK /\ Body httpResp = inr body)
  \/ State (PanopAssetResource_Read nre r {| ReadState := st |} resp).2 = State resp.
Proof.
  to_request. destruct (HasError (Append resp ds)); [ by right |].
  unfold NewRequest.
  match goal with |- context [nre ?u] => destruct (nre u) end;
    cbn [fst snd]; [ by right |].
  after_request; try (by right).
  left. eexists _, _. split; [ eexists; split; [ reflexivity | eassumption ] |].
  by split.
Qed.

Lemma refresh_zone_id (zones : list ZoneReadResponse.t) (data : ZoneResourceModel.t) :
  ZoneResourceModel.Id (refresh_zone zones data) = ZoneResourceModel.Id data.
Proof. rewrite refresh_zone_find. by destruct (find _ _). Qed.

Lemma refresh_asset_id (assets : list AssetReadResponse.t) (data : AssetResourceModel.t) :
  AssetResourceModel.Id (refresh_asset assets data) = AssetResourceModel.Id data.
Proof. rewrite refresh_asset_find. by destruct (find _ _). Qed.

(** X4.  A Read never changes the identifier: whatever the service answers,
    and whether or not the Read ends well, the identifier in the state it
    leaves is the one of the prior state it started from. *)
Theorem read_keeps_identifier (nre : URL -> option string) (r : clientObj)
    (st : Data) (resp : Response) :
  State resp = st ->
  ZoneResourceModel.Id
    (ZoneResourceModel.Get
       (State (PanopZoneResource_Read nre r {| ReadState := st |} resp).2)).2
  = ZoneResourceModel.Id (ZoneResourceModel.Get st).2
  /\ AssetResourceModel.Id
       (AssetResourceModel.Get
          (State (PanopAssetResource_Read nre r {| ReadState := st |} resp).2)).2
     = AssetResourceModel.Id (AssetResourceModel.Get st).2.
Proof.
  intros Hst. split.
  - destruct (zone_read_cases nre r st resp)
      as [(h & body & Hrecv & Hcode & Hbody) | Hsame].
    + destruct (zone_read_path _ _ _ _ _ _ Hrecv Hcode Hbody) as (_ & _ & ->).
      cbn [State ReadState]. rewrite Get_zone_object. apply refresh_zone_id.
    + by rewrite Hsame, Hst.
  - destruct (asset_read_cases nre r st resp)
      as [(h & body & Hrecv & Hcode & Hbody) | Hsame].
    + destruct (asset_read_path _ _ _ _ _ _ Hrecv Hcode Hbody) as (_ & _ & ->).
      cbn [State ReadState]. rewrite Get_asset_object. apply refresh_asset_id.
    + by rewrite Hsame, Hst.
Qed.

Lemma read_keeps_identifier_sample :
  ZoneResourceModel.Id
    (ZoneResourceModel.Get
       (State (PanopZoneResource_Read url_ok (client (answer 200 sample.two_zones))
                 {| ReadState := sample.zone_state |} (fresh sample.zone_state)).2)).2
  = ZoneResourceModel.Id (ZoneResourceModel.Get sample.zone_state).2
  /\ AssetResourceModel.Id
       (AssetResourceModel.Get
          (State (PanopAssetResource_Read url_ok (client (answer 200 sample.two_zones))
                    {| ReadState := sample.zone_state |} (fresh sample.zone_state)).2)).2
     = AssetResourceModel.Id (AssetResourceModel.Get sample.zone_state).2.
Proof. apply read_keeps_identifier. reflexivity. Defined.

Lemma refresh_zone_twice (zones : list ZoneReadResponse.t) (data : ZoneResourceModel.t) :
  refresh_zone zones (refresh_zone zones data) = refresh_zone zones data.
Proof.
  rewrite (refresh_zone_find zones (refresh_zone zones data)), refresh_zone_id.
  rewrite (refresh_zone_find zones data).
  by destruct (find _ _).
Qed.

Lemma refresh_asset_twice (assets : list AssetReadResponse.t) (data : AssetResourceModel.t) :
  refresh_asset assets (refresh_asset assets data) = refresh_asset assets data.
Proof.
  rewrite (refresh_asset_find assets (refresh_asset assets data)), refresh_asset_id.
  rewrite (refresh_asset_find assets data).
  by destruct (find _ _).
Qed.

(** The request of a Read does not depend on the state it refreshes. *)
Lemma zone_read_calls_state (nre : URL -> option string) (r : clientObj)
    (st st' : Data) (resp resp' : Response) :
  (ZoneResourceModel.Get st).1 = [] -> (ZoneResourceModel.Get st').1 = [] ->
  HasError resp = false -> HasError resp' = false ->
  (PanopZoneResource_Read nre r {| ReadState := st' |} resp').1
  = (PanopZoneResource_Read nre r {| ReadState := st |} resp).1.
Proof.
  intros H1 H2 H3 H4. unfold PanopZoneResource_Read. cbn [ReadState].
  destruct (ZoneResourceModel.Get st) as [ds data],
           (ZoneResourceModel.Get st') as [ds' data'].
  cbn [fst] in H1, H2. subst. rewrite !provider_Append_nil, H3, H4.
  by destruct (NewRequest _ _ _ _).
Qed.

Lemma asset_read_calls_state (nre : URL -> option string) (r : clientObj)
    (st st' : Data) (resp resp' : Response) :
  (AssetResourceModel.Get st).1 = [] -> (AssetResourceModel.Get st').1 = [] ->
  HasError resp = false -> HasError resp' = false ->
  (PanopAssetResource_Read nre r {| ReadState := st' |} resp').1
  = (PanopAssetResource_Read nre r {| ReadState := st |} resp).1.
Proof.
  intros H1 H2 H3 H4. unfold PanopAssetResource_Read. cbn [ReadState].
  destruct (AssetResourceModel.Get st) as [ds data],
           (AssetResourceModel.Get st') as [ds' data'].
  cbn [fst] in H1, H2. subst. rewrite !provider_Append_nil, H3, H4.
  by destruct (NewRequest _ _ _ _).
Qed.

(** X5.  A Read is idempotent: reading again, against a service that gives
    the same answer, the state a Read has left leaves that state as it
    is. *)
Theorem read_idempotent (nre : URL -> option string) (r : clientObj) (st : Data) :
  State (PanopZoneResource_Read nre r
           {| ReadState := State (PanopZoneResource_Read nre r
                                    {| ReadState := st |} (fresh st)).2 |}
           (fresh (State (PanopZoneResource_Read nre r
                            {| ReadState := st |} (fresh st)).2))).2
  = State (PanopZoneResource_Read nre r {| ReadState := st |} (fresh st)).2
  /\ State (PanopAssetResource_Read nre r
              {| ReadState := State (PanopAssetResource_Read nre r
                                       {| ReadState := st |} (fresh st)).2 |}
              (fresh (State (PanopAssetResource_Read nre r
                               {| ReadState := st |} (fresh st)).2))).2
     = State (PanopAssetResource_Read nre r {| ReadState := st |} (fresh st)).2.
Proof.
  split.
  - destruct (zone_read_cases nre r st (fresh st))
      as [(h & body & Hrecv & Hcode & Hbody) | Hsame].
    + destruct (zone_read_path _ _ _ _ _ _ Hrecv Hcode Hbody) as (Hget & _ & Hrun).
      cbn [ReadState] in *. rewrite Hrun. cbn [State].
      assert (Hrecv' : receives r
                (PanopZoneResource_Read nre r
                   {| ReadState := Some (zone_object (refresh_zone
                        (Json.Unmarshal_slice ZoneReadResponse.fields
                           ZoneReadResponse.zero body).1
                        (ZoneResourceModel.Get st).2)) |}
                   (fresh (Some (zone_object (refresh_zone
                        (Json.Unmarshal_slice ZoneReadResponse.fields
                           ZoneReadResponse.zero body).1
                        (ZoneResourceModel.Get st).2))))) h).
      { destruct Hrecv as (q & Hq & Hdo). exists q. split; [| exact Hdo ].
        rewrite <- Hq.
        apply zone_read_calls_state; first [ done | by rewrite Get_zone_object ]. }
      destruct (zone_read_path _ _ _ _ _ _ Hrecv' Hcode Hbody) as (_ & _ & ->).
      cbn [State ReadState]. rewrite Get_zone_object. cbn [snd].
      by rewrite refresh_zone_twice.
    + cbn [fresh State] in Hsame. by rewrite !Hsame.
  - destruct (asset_read_cases nre r st (fresh st))
      as [(h & body & Hrecv & Hcode & Hbody) | Hsame].
    + destruct (asset_read_path _ _ _ _ _ _ Hrecv Hcode Hbody) as (Hget & _ & Hrun).
      cbn [ReadState] in *. rewrite Hrun. cbn [State].
      assert (Hrecv' : receives r
                (PanopAssetResource_Read nre r
                   {| ReadState := Some (asset_object (refresh_asset
                        (Json.Unmarshal_slice AssetReadResponse.fields
                           AssetReadResponse.zero body).1
                        (AssetResourceModel.Get st).2)) |}
                   (fresh (Some (asset_object (refresh_asset
                        (Json.Unmarshal_slice AssetReadResponse.fields
                           AssetReadResponse.zero body).1
                        (AssetResourceModel.Get st).2))))) h).
      { destruct Hrecv as (q & Hq & Hdo). exists q. split; [| exact Hdo ].
        rewrite <- Hq.
        apply asset_read_calls_state; first [ done | by rewrite Get_asset_object ]. }
      destruct (asset_read_path _ _ _ _ _ _ Hrecv' Hcode Hbody) as (_ & _ & ->).
      cbn [State ReadState]. rewrite Get_asset_object. cbn [snd].
      by rewrite refresh_asset_twice.
    + cbn [fresh State] in Hsame. by rewrite !Hsame.
Qed.

(** ** Operations one after the other *)

(** X6.  Import, then Read.  A Read of the state an import has seeded, when
    it receives 200, reports no error, indeed no diagnostic at all, and
    fills in the first entry of the collection whose identifier is the
    parsed one, keeping that identifier; when the collection has no such
    entry the state stays as the import left it, every attribute but the
    identifier null. *)
Theorem import_then_read (nre : URL -> option string) (r : clientObj)
    (id : string) (httpResp : http.Response) (body : Json.document) :
  StatusCode httpResp = StatusOK ->
  Body httpResp = inr body ->
  (receives r
     (PanopZoneResource_Read nre r
           {| ReadState := State (PanopZoneResource_ImportState r {| ID := id |}
                                    (fresh None)).2 |}
           (fresh (State (PanopZoneResource_ImportState r {| ID := id |}
                            (fresh None)).2))) httpResp ->
   HasError
     (PanopZoneResource_Read nre r
           {| ReadState := State (PanopZoneResource_ImportState r {| ID := id |}
                                    (fresh None)).2 |}
           (fresh (State (PanopZoneResource_ImportState r {| ID := id |}
                            (fresh None)).2))).2 = false
   /\ Diagnostics
        (PanopZoneResource_Read nre r
           {| ReadState := State (PanopZoneResource_ImportState r {| ID := id |}
                                    (fresh None)).2 |}
           (fresh (State (PanopZoneResource_ImportState r {| ID := id |}
                            (fresh None)).2))).2 = []
   /\ ZoneResourceModel.Get
        (State
           (PanopZoneResource_Read nre r
           {| ReadState := State (PanopZoneResource_ImportState r {| ID := id |}
                                    (fresh None)).2 |}
           (fresh (State (PanopZoneResource_ImportState r {| ID := id |}
                            (fresh None)).2))).2)
      = ([], match find (fun z => ZoneReadResponse.Id z =? (Go.ParseInt id).1)
                        (Json.Unmarshal_slice ZoneReadResponse.fields
                           ZoneReadResponse.zero body).1 with
             | Some z =>
                 ZoneResourceModel.mk (StringValue (ZoneReadResponse.ZoneName z))
                                      (Int64Value (Go.ParseInt id).1)
                                      (StringValue (ZoneReadResponse.ZoneType z))
                                      (StringValue (ZoneReadResponse.Token z))
             | None =>
                 ZoneResourceModel.mk StringNull (Int64Value (Go.ParseInt id).1)
                                      StringNull StringNull
             end))
  /\ (receives r
        (PanopAssetResource_Read nre r
           {| ReadState := State (PanopAssetResource_ImportState r {| ID := id |}
                                    (fresh None)).2 |}
           (fresh (State (PanopAssetResource_ImportState r {| ID := id |}
                            (fresh None)).2))) httpResp ->
      HasError
        (PanopAssetResource_Read nre r
           {| ReadState := State (PanopAssetResource_ImportState r {| ID := id |}
                                    (fresh None)).2 |}
           (fresh (State (PanopAssetResource_ImportState r {| ID := id |}
                            (fresh None)).2))).2 = false
      /\ Diagnostics
           (PanopAssetResource_Read nre r
           {| ReadState := State (PanopAssetResource_ImportState r {| ID := id |}
                                    (fresh None)).2 |}
           (fresh (State (PanopAssetResource_ImportState r {| ID := id |}
                            (fresh None)).2))).2 = []
      /\ AssetResourceModel.Get
           (State
              (PanopAssetResource_Read nre r
           {| ReadState := State (PanopAssetResource_ImportState r {| ID := id |}
                                    (fresh None)).2 |}
           (fresh (State (PanopAssetResource_ImportState r {| ID := id |}
                            (fresh None)).2))).2)
         = ([], match find (fun a => AssetReadResponse.AssetId a =? (Go.ParseInt id).1)
                           (Json.Unmarshal_slice AssetReadResponse.fields
                              AssetReadResponse.zero body).1 with
                | Some a =>
                    AssetResourceModel.mk (StringValue (AssetReadResponse.AssetName a))
                                          (Int64Value (Go.ParseInt id).1)
                                          (Int64Value (AssetReadResponse.ZoneId a))
                | None =>
                    AssetResourceModel.mk StringNull (Int64Value (Go.ParseInt id).1)
                                          Int64Null
                end)).
Proof.
  intros Hcode Hbody.
  unfold PanopZoneResource_ImportState, PanopAssetResource_ImportState.
  cbn [ID fresh State]. rewrite import_zone_state, import_asset_state.
  cbn [fst snd State]. split; intros Hrecv.
  - destruct (zone_read_path _ _ _ _ _ _ Hrecv Hcode Hbody) as (_ & _ & ->).
    split; [ reflexivity |]. split; [ reflexivity |].
    cbn [State ReadState]. rewrite !Get_zone_object. cbn [snd].
    rewrite refresh_zone_find. cbn [ZoneResourceModel.Id ValueInt64].
    by destruct (find _ _).
  - destruct (asset_read_path _ _ _ _ _ _ Hrecv Hcode Hbody) as (_ & _ & ->).
    split; [ reflexivity |]. split; [ reflexivity |].
    cbn [State ReadState]. rewrite !Get_asset_object. cbn [snd].
    rewrite refresh_asset_find. cbn [AssetResourceModel.Id ValueInt64].
    by destruct (find _ _).
Qed.

(** The import of [7] read against a listing that holds the zone 7. *)
Lemma import_then_read_sample :
  (HasError
     (PanopZoneResource_Read url_ok (client (answer 200 sample.two_zones))
        {| ReadState := State (PanopZoneResource_ImportState
                                 (client (answer 200 sample.two_zones))
                                 {| ID := "7" |} (fresh None)).2 |}
        (fresh (State (PanopZoneResource_ImportState
                         (client (answer 200 sample.two_zones))
                         {| ID := "7" |} (fresh None)).2))).2 = false
   /\ Diagnostics
        (PanopZoneResource_Read url_ok (client (answer 200 sample.two_zones))
           {| ReadState := State (PanopZoneResource_ImportState
                                    (client (answer 200 sample.two_zones))
                                    {| ID := "7" |} (fresh None)).2 |}
           (fresh (State (PanopZoneResource_ImportState
                            (client (answer 200 sample.two_zones))
                            {| ID := "7" |} (fresh None)).2))).2 = []
   /\ ZoneResourceModel.Get
        (State (PanopZoneResource_Read url_ok (client (answer 200 sample.two_zones))
                  {| ReadState := State (PanopZoneResource_ImportState
                                           (client (answer 200 sample.two_zones))
                                           {| ID := "7" |} (fresh None)).2 |}
                  (fresh (State (PanopZoneResource_ImportState
                                   (client (answer 200 sample.two_zones))
                                   {| ID := "7" |} (fresh None)).2))).2)
      = ([], ZoneResourceModel.mk (StringValue "example.com") (Int64Value 7)
                                  (StringValue "web") (StringValue "tok-7b"))).
Proof.
  apply (proj1 (import_then_read url_ok (client (answer 200 sample.two_zones)) "7"
                  (answer 200 sample.two_zones) sample.two_zones eq_refl eq_refl)).
  eexists. split; reflexivity.
Defined.

(** An import of an identifier the service does not list: the Read ends
    well and the state stays as the import left it. *)
Example import_unlisted_then_read :
  HasError
    (PanopZoneResource_Read url_ok (client (answer 200 sample.two_zones))
       {| ReadState := State (PanopZoneResource_ImportState
                                (client (answer 200 sample.two_zones))
                                {| ID := "9" |} (fresh None)).2 |}
       (fresh (State (PanopZoneResource_ImportState
                        (client (answer 200 sample.two_zones))
                        {| ID := "9" |} (fresh None)).2))).2 = false
  /\ ZoneResourceModel.Get
       (State (PanopZoneResource_Read url_ok (client (answer 200 sample.two_zones))
                 {| ReadState := State (PanopZoneResource_ImportState
                                          (client (answer 200 sample.two_zones))
                                          {| ID := "9" |} (fresh None)).2 |}
                 (fresh (State (PanopZoneResource_ImportState
                                  (client (answer 200 sample.two_zones))
                                  {| ID := "9" |} (fresh None)).2))).2)
     = ([], ZoneResourceModel.mk StringNull (Int64Value 9) StringNull StringNull).
Proof. split; vm_compute; reflexivity. Qed.

(** What an operation sends, if it sends anything, is the request of the
    table. *)
Lemma calls_planned (nre : URL -> option string) (r : clientObj)
    (op : operation) (d : Data) (resp : Response) :
  Forall (fun q => q = planned r op d) (run nre r op d resp).1.
Proof.
  destruct op; cbn [run planned]; unfold endpoint; to_request;
    try match goal with
        | |- context [HasError (Append resp ?ds)] =>
            destruct (HasError (Append resp ds)); [ constructor |]
        end;
    unfold NewRequest;
    match goal with |- context [nre ?u] => destruct (nre u) end;
    cbn [fst snd]; by repeat constructor.
Qed.

(** X7.  Create, then Delete.  A Delete of the state a Create has written
    after a 201 asks the service, if it sends anything, to delete exactly
    the identifier decoded from the create response. *)
Theorem delete_targets_created (nre : URL -> option string) (r : clientObj)
    (plan : Data) (httpResp : http.Response) (body : Json.document) :
  StatusCode httpResp = StatusCreated ->
  Body httpResp = inr body ->
  (receives r (PanopZoneResource_Create nre r {| CreatePlan := plan |} (fresh None))
     httpResp ->
   Forall (fun q => Method q = "DELETE"
                    /\ Path (Url q)
                       = "/api/zones/"
                         +:+ Go.Sprintf_d (Go.int64_of_uint (ZoneCreateResponse.ZoneId
                               (Json.Unmarshal ZoneCreateResponse.fields body
                                  ZoneCreateResponse.zero).1)))
     (PanopZoneResource_Delete nre r
        {| DeleteState := State (PanopZoneResource_Create nre r
                                   {| CreatePlan := plan |} (fresh None)).2 |}
        (fresh (State (PanopZoneResource_Create nre r
                         {| CreatePlan := plan |} (fresh None)).2))).1)
  /\ (receives r (PanopAssetResource_Create nre r {| CreatePlan := plan |} (fresh None))
        httpResp ->
      Forall (fun q => Method q = "DELETE"
                       /\ Path (Url q)
                          = "/api/assets/"
                            +:+ Go.Sprintf_d (Go.int64_of_uint
                                  (AssetCreateResponse.AssetId
                                     (Json.Unmarshal AssetCreateResponse.fields body
                                        AssetCreateResponse.zero).1)))
        (PanopAssetResource_Delete nre r
           {| DeleteState := State (PanopAssetResource_Create nre r
                                      {| CreatePlan := plan |} (fresh None)).2 |}
           (fresh (State (PanopAssetResource_Create nre r
                            {| CreatePlan := plan |} (fresh None)).2))).1).
Proof.
  intros Hcode Hbody. split; intros Hrecv.
  - destruct (zone_create_path _ _ _ _ _ _ Hrecv Hcode Hbody) as (_ & _ & ->).
    cbn [State]. eapply Forall_impl; [ apply (calls_planned nre r OpZoneDelete) |].
    intros q ->. cbn [planned Method Url Path endpoint].
    by rewrite Get_zone_object.
  - destruct (asset_create_path _ _ _ _ _ _ Hrecv Hcode Hbody) as (_ & _ & ->).
    cbn [State]. eapply Forall_impl; [ apply (calls_planned nre r OpAssetDelete) |].
    intros q ->. cbn [planned Method Url Path endpoint].
    by rewrite Get_asset_object.
Qed.

Lemma delete_targets_created_sample :
  Forall (fun q => Method q = "DELETE"
                   /\ Path (Url q)
                      = "/api/zones/"
                        +:+ Go.Sprintf_d (Go.int64_of_uint (ZoneCreateResponse.ZoneId
                              (Json.Unmarshal ZoneCreateResponse.fields sample.zone_created
                                 ZoneCreateResponse.zero).1)))
    (PanopZoneResource_Delete url_ok (client (answer 201 sample.zone_created))
       {| DeleteState := State (PanopZoneResource_Create url_ok
                                  (client (answer 201 sample.zone_created))
                                  {| CreatePlan := sample.zone_plan |} (fresh None)).2 |}
       (fresh (State (PanopZoneResource_Create url_ok
                        (client (answer 201 sample.zone_created))
                        {| CreatePlan := sample.zone_plan |} (fresh None)).2))).1.
Proof.
  pose proof (delete_targets_created url_ok (client (answer 201 sample.zone_created))
                sample.zone_plan (answer 201 sample.zone_created) sample.zone_created
                eq_refl eq_refl) as [Hzone _].
  apply Hzone. eexists. split; reflexivity.
Defined.

(** Created as zone 7, deleted at [/api/zones/7]. *)
Example delete_created_zone_7 :
  map (fun q => Path (Url q))
    (PanopZoneResource_Delete url_ok (client (answer 201 sample.zone_created))
       {| DeleteState := State (PanopZoneResource_Create url_ok
                                  (client (answer 201 sample.zone_created))
                                  {| CreatePlan := sample.zone_plan |} (fresh None)).2 |}
       (fresh None)).1
  = ["/api/zones/7"].
Proof. vm_compute. reflexivity. Qed.

(** ** Create and the body of its response *)

(** X8.  A Create that receives 201 with a body that is not valid JSON, or
    whose document is not an object, ends well all the same: it reports
    nothing and writes the identifier zero, with an empty token for a zone
    and an empty name for an asset, beside the planned values. *)
Theorem create_undecodable_body (nre : URL -> option string) (r : clientObj)
    (req : CreateRequest) (resp : Response) (httpResp : http.Response)
    (body : Json.document) :
  StatusCode httpResp = StatusCreated ->
  Body httpResp = inr body ->
  is_object body = false ->
  (receives r (PanopZoneResource_Create nre r req resp) httpResp ->
   HasError (PanopZoneResource_Create nre r req resp).2 = false
   /\ ZoneResourceModel.Get (State (PanopZoneResource_Create nre r req resp).2)
      = ([], ZoneResourceModel.mk
               (ZoneResourceModel.ZoneName (ZoneResourceModel.Get (CreatePlan req)).2)
               (Int64Value 0)
               (ZoneResourceModel.ZoneType (ZoneResourceModel.Get (CreatePlan req)).2)
               (StringValue "")))
  /\ (receives r (PanopAssetResource_Create nre r req resp) httpResp ->
      HasError (PanopAssetResource_Create nre r req resp).2 = false
      /\ AssetResourceModel.Get (State (PanopAssetResource_Create nre r req resp).2)
         = ([], AssetResourceModel.mk
                  (StringValue "") (Int64Value 0)
                  (AssetResourceModel.ZoneId
                     (AssetResourceModel.Get (CreatePlan req)).2))).
Proof.
  intros Hcode Hbody Hobj. split; intros Hrecv.
  - destruct (zone_create_path _ _ _ _ _ _ Hrecv Hcode Hbody) as (_ & Hclean & ->).
    split; [ exact Hclean |]. cbn [State].
    by rewrite Get_zone_object, Unmarshal_not_object.
  - destruct (asset_create_path _ _ _ _ _ _ Hrecv Hcode Hbody) as (_ & Hclean & ->).
    split; [ exact Hclean |]. cbn [State].
    by rewrite Get_asset_object, Unmarshal_not_object.
Qed.

Lemma create_undecodable_body_sample :
  HasError (PanopZoneResource_Create url_ok (client (answer 201 Json.Invalid))
              {| CreatePlan := sample.zone_plan |} (fresh None)).2 = false
  /\ ZoneResourceModel.Get
       (State (PanopZoneResource_Create url_ok (client (answer 201 Json.Invalid))
                 {| CreatePlan := sample.zone_plan |} (fresh None)).2)
     = ([], ZoneResourceModel.mk
              (ZoneResourceModel.ZoneName
                 (ZoneResourceModel.Get (CreatePlan {| CreatePlan := sample.zone_plan |})).2)
              (Int64Value 0)
              (ZoneResourceModel.ZoneType
                 (ZoneResourceModel.Get (CreatePlan {| CreatePlan := sample.zone_plan |})).2)
              (StringValue "")).
Proof.
  pose proof (create_undecodable_body url_ok (client (answer 201 Json.Invalid))
                {| CreatePlan := sample.zone_plan |} (fresh None)
                (answer 201 Json.Invalid) Json.Invalid eq_refl eq_refl eq_refl)
    as [Hzone _].
  apply Hzone. eexists. split; reflexivity.
Defined.

Lemma store_members_app {T} (fields : list (@Json.field T))
    (a b : list (string * Json.json)) (v : T) :
  Json.store_members fields (a ++ b) v
  = let '(v1, e1) := Json.store_members fields a v in
    let '(v2, e2) := Json.store_members fields b v1 in
    (v2, e1 || e2).
Proof.
  revert v. induction a as [|m a IH]; intros v; cbn [app Json.store_members].
  - by destruct (Json.store_members fields b v).
  - destruct (Json.store_member fields m v) as [v1 e1]. rewrite IH.
    destruct (Json.store_members fields a v1) as [v2 e2].
    destruct (Json.store_members fields b v2) as [v3 e3].
    by rewrite orb_assoc.
Qed.

Lemma zone_created_id (ms : list (string * Json.json)) (mag : N) :
  Z.of_N mag <= Go.maxUint64 ->
  ZoneCreateResponse.ZoneId
    (Json.Unmarshal ZoneCreateResponse.fields
       (Json.Valid (Json.Object
          (ms ++ [("zone_id", Json.Number (Json.Int false mag))])))
       ZoneCreateResponse.zero).1
  = Z.of_N mag.
Proof.
  intros Hmag. cbn [Json.Unmarshal Json.store_struct]. rewrite store_members_app.
  destruct (Json.store_members ZoneCreateResponse.fields ms ZoneCreateResponse.zero)
    as [v1 e1].
  cbn [Json.store_members].
  replace (Json.store_member ZoneCreateResponse.fields
             ("zone_id", Json.Number (Json.Int false mag)) v1)
    with (let '(x, e) := Json.store_uint (Json.Number (Json.Int false mag))
                           (ZoneCreateResponse.ZoneId v1) in
          (ZoneCreateResponse.mk x (ZoneCreateResponse.ZoneName v1)
             (ZoneCreateResponse.ZoneType v1) (ZoneCreateResponse.Validated v1)
             (ZoneCreateResponse.Token v1), e)) by reflexivity.
  cbn [Json.store_uint]. unfold Go.in_uint64.
  rewrite (proj2 (Z.leb_le _ _) Hmag), (proj2 (Z.leb_le 0 _) (N2Z.is_nonneg mag)).
  reflexivity.
Qed.

Lemma asset_created_id (ms : list (string * Json.json)) (mag : N) :
  Z.of_N mag <= Go.maxUint64 ->
  AssetCreateResponse.AssetId
    (Json.Unmarshal AssetCreateResponse.fields
       (Json.Valid (Json.Object
          (ms ++ [("asset_id", Json.Number (Json.Int false mag))])))
       AssetCreateResponse.zero).1
  = Z.of_N mag.
Proof.
  intros Hmag. cbn [Json.Unmarshal Json.store_struct]. rewrite store_members_app.
  destruct (Json.store_members AssetCreateResponse.fields ms AssetCreateResponse.zero)
    as [v1 e1].
  cbn [Json.store_members].
  replace (Json.store_member AssetCreateResponse.fields
             ("asset_id", Json.Number (Json.Int false mag)) v1)
    with (let '(x, e) := Json.store_uint (Json.Number (Json.Int false mag))
                           (AssetCreateResponse.AssetId v1) in
          (AssetCreateResponse.mk x (AssetCreateResponse.AssetName v1), e))
    by reflexivity.
  cbn [Json.store_uint]. unfold Go.in_uint64.
  rewrite (proj2 (Z.leb_le _ _) Hmag), (proj2 (Z.leb_le 0 _) (N2Z.is_nonneg mag)).
  reflexivity.
Qed.

(** X9.  The identifier a Create stores is the one the service sent: when
    the object of a 201 response ends with the member [zone_id] (for an
    asset, [asset_id]) holding an unsigned 64-bit integer, whatever members
    come before it, that integer is stored, read as a signed one.  It is
    stored as it is below 2^63 and as a negative identifier from 2^63
    on. *)
Theorem create_stores_sent_identifier (nre : URL -> option string) (r : clientObj)
    (req : CreateRequest) (resp : Response) (httpResp : http.Response)
    (ms : list (string * Json.json)) (mag : N) :
  StatusCode httpResp = StatusCreated ->
  Z.of_N mag <= Go.maxUint64 ->
  (receives r (PanopZoneResource_Create nre r req resp) httpResp ->
   Body httpResp = inr (Json.Valid (Json.Object
     (ms ++ [("zone_id", Json.Number (Json.Int false mag))]))) ->
   ZoneResourceModel.Id
     (ZoneResourceModel.Get (State (PanopZoneResource_Create nre r req resp).2)).2
   = Int64Value (if Z.of_N mag <? 2 ^ 63 then Z.of_N mag else Z.of_N mag - 2 ^ 64))
  /\ (receives r (PanopAssetResource_Create nre r req resp) httpResp ->
      Body httpResp = inr (Json.Valid (Json.Object
        (ms ++ [("asset_id", Json.Number (Json.Int false mag))]))) ->
      AssetResourceModel.Id
        (AssetResourceModel.Get (State (PanopAssetResource_Create nre r req resp).2)).2
      = Int64Value (if Z.of_N mag <? 2 ^ 63 then Z.of_N mag else Z.of_N mag - 2 ^ 64)).
Proof.
  intros Hcode Hmag. split; intros Hrecv Hbody.
  - destruct (zone_create_path _ _ _ _ _ _ Hrecv Hcode Hbody) as (_ & _ & ->).
    cbn [State]. rewrite Get_zone_object. cbn [snd ZoneResourceModel.Id].
    by rewrite zone_created_id.
  - destruct (asset_create_path _ _ _ _ _ _ Hrecv Hcode Hbody) as (_ & _ & ->).
    cbn [State]. rewrite Get_asset_object. cbn [snd AssetResourceModel.Id].
    by rewrite asset_created_id.
Qed.

Lemma create_stores_sent_identifier_sample :
  AssetResourceModel.Id
    (AssetResourceModel.Get
       (State (PanopAssetResource_Create url_ok
                 (client (answer 201 (Json.Valid (Json.Object
                    ([("asset_name", Json.Str "www")]
                     ++ [("asset_id", Json.Number (Json.Int false 18446744073709551615))])))))
                 {| CreatePlan := sample.asset_plan |} (fresh None)).2)).2
  = Int64Value (-1).
Proof.
  pose proof (create_stores_sent_identifier url_ok
                (client (answer 201 (Json.Valid (Json.Object
                   ([("asset_name", Json.Str "www")]
                    ++ [("asset_id", Json.Number (Json.Int false 18446744073709551615))])))))
                {| CreatePlan := sample.asset_plan |} (fresh None)
                (answer 201 (Json.Valid (Json.Object
                   ([("asset_name", Json.Str "www")]
                    ++ [("asset_id", Json.Number (Json.Int false 18446744073709551615))]))))
                [("asset_name", Json.Str "www")] 18446744073709551615%N
                eq_refl) as [_ Hasset].
  - vm_compute. discriminate.
  - rewrite Hasset; [ reflexivity | | reflexivity ].
    eexists. split; reflexivity.
Defined.

(** ** Printing and parsing an identifier *)

Lemma pretty_N_char_digit (d : N) :
  (d < 10)%N ->
  is_digit (pretty_N_char d) = true /\ Go.byte_val (pretty_N_char d) - 48 = Z.of_N d.
Proof.
  intros Hd.
  assert (d = 0 \/ d = 1 \/ d = 2 \/ d = 3 \/ d = 4 \/ d = 5 \/ d = 6 \/ d = 7
          \/ d = 8 \/ d = 9)%N as H by lia.
  repeat (destruct H as [-> | H]; [ by split |]). by subst.
Qed.

Lemma all_digits_pretty_go (x : N) (s : string) :
  all_digits s = true -> all_digits (pretty_N_go x s) = true.
Proof.
  revert s. induction (N.lt_wf_0 x) as [x _ IH]; intros s Hs.
  destruct (decide (x = 0)%N) as [-> | Hx]; [ by rewrite pretty_N_go_0 |].
  rewrite pretty_N_go_step by lia. apply IH; [ apply N.div_lt; lia |].
  cbn [all_digits]. rewrite Hs.
  by destruct (pretty_N_char_digit (x `mod` 10)%N) as [-> _];
    [ apply N.mod_lt |].
Qed.

Lemma decimal_pretty_go (x : N) (s : string) :
  decimal_from 0 (pretty_N_go x s) = decimal_from (Z.of_N x) s.
Proof.
  revert s. induction (N.lt_wf_0 x) as [x _ IH]; intros s.
  destruct (decide (x = 0)%N) as [-> | Hx]; [ by rewrite pretty_N_go_0 |].
  rewrite pretty_N_go_step by lia. rewrite IH by (apply N.div_lt; lia).
  cbn [decimal_from].
  destruct (pretty_N_char_digit (x `mod` 10)%N) as [_ ->]; [ by apply N.mod_lt |].
  f_equal. rewrite N2Z.inj_div, N2Z.inj_mod. change (Z.of_N 10) with 10.
  pose proof (Z.div_mod (Z.of_N x) 10 ltac:(lia)). lia.
Qed.

Lemma pretty_go_nonempty (x : N) (s : string) :
  s <> EmptyString -> pretty_N_go x s <> EmptyString.
Proof.
  revert s. induction (N.lt_wf_0 x) as [x _ IH]; intros s Hs.
  destruct (decide (x = 0)%N) as [-> | Hx]; [ by rewrite pretty_N_go_0 |].
  rewrite pretty_N_go_step by lia. apply IH; [ apply N.div_lt; lia | done ].
Qed.

(** The decimal text of a positive number: digits only, at least one, with
    the number as value. *)
Lemma pretty_positive_digits (p : positive) :
  digits (pretty p) = true /\ decimal (pretty p) = Z.pos p.
Proof.
  unfold pretty, pretty_positive, pretty, pretty_N.
  destruct (decide (N.pos p = 0%N)) as [|_]; [ done |].
  assert (Hne : pretty_N_go (N.pos p) "" <> EmptyString).
  { rewrite pretty_N_go_step by lia. by apply pretty_go_nonempty. }
  pose proof (all_digits_pretty_go (N.pos p) "" eq_refl) as Hd.
  split.
  - unfold digits. by destruct (pretty_N_go (N.pos p) "").
  - unfold decimal. by rewrite decimal_pretty_go.
Qed.

Lemma digits_unsigned (s : string) :
  digits s = true -> unsigned_part s = s /\ negative s = false.
Proof.
  destruct s as [|c s]; [ done |]. cbn [digits all_digits unsigned_part negative].
  intros H. apply andb_true_iff in H as [Hc _]. unfold is_digit, Go.byte_val in Hc.
  destruct (Ascii.eqb c "+") eqn:Hp; [ apply Ascii.eqb_eq in Hp; by subst |].
  destruct (Ascii.eqb c "-") eqn:Hm; [ apply Ascii.eqb_eq in Hm; by subst |].
  done.
Qed.

(** Parsing inverts printing: the text [%d] prints for an [int64] parses
    back to it, without an error. *)
Lemma ParseInt_Sprintf_d (z : Z) :
  Go.in_int64 z = true -> Go.ParseInt (Go.Sprintf_d z) = (z, None).
Proof.
  intros Hz. unfold Go.Sprintf_d, pretty, pretty_Z. destruct z as [|p|p].
  - reflexivity.
  - destruct (pretty_positive_digits p) as [Hd Hv].
    destruct (digits_unsigned _ Hd) as [Hu Hn].
    rewrite ParseInt_numeric; unfold numeric, decimal_integer;
      rewrite ?Hu, ?Hn, ?Hv; done.
  - destruct (pretty_positive_digits p) as [Hd Hv].
    change ("-" +:+ pretty p) with (String "-" (pretty p)).
    rewrite ParseInt_numeric; unfold numeric, decimal_integer;
      change (unsigned_part (String "-" (pretty p))) with (pretty p);
      change (negative (String "-" (pretty p))) with true;
      rewrite ?Hd, ?Hv; done.
Qed.

(** X10.  Import, then Delete.  Importing the decimal text of an [int64]
    identifier, as [%d] prints it, seeds exactly that identifier, and a
    Delete of the imported state addresses the path that ends in the same
    text: what was imported is what gets deleted. *)
Theorem import_printed_identifier (nre : URL -> option string) (r : clientObj) (z : Z) :
  Go.in_int64 z = true ->
  (ZoneResourceModel.Get
     (State (PanopZoneResource_ImportState r {| ID := Go.Sprintf_d z |} (fresh None)).2)
   = ([], ZoneResourceModel.mk StringNull (Int64Value z) StringNull StringNull)
   /\ Forall (fun q => Path (Url q) = "/api/zones/" +:+ Go.Sprintf_d z)
        (PanopZoneResource_Delete nre r
           {| DeleteState := State (PanopZoneResource_ImportState r
                                      {| ID := Go.Sprintf_d z |} (fresh None)).2 |}
           (fresh (State (PanopZoneResource_ImportState r
                            {| ID := Go.Sprintf_d z |} (fresh None)).2))).1)
  /\ (AssetResourceModel.Get
        (State (PanopAssetResource_ImportState r {| ID := Go.Sprintf_d z |}
                  (fresh None)).2)
      = ([], AssetResourceModel.mk StringNull (Int64Value z) Int64Null)
      /\ Forall (fun q => Path (Url q) = "/api/assets/" +:+ Go.Sprintf_d z)
           (PanopAssetResource_Delete nre r
              {| DeleteState := State (PanopAssetResource_ImportState r
                                         {| ID := Go.Sprintf_d z |} (fresh None)).2 |}
              (fresh (State (PanopAssetResource_ImportState r
                               {| ID := Go.Sprintf_d z |} (fresh None)).2))).1).
Proof.
  intros Hz.
  unfold PanopZoneResource_ImportState, PanopAssetResource_ImportState.
  cbn [ID fresh State]. rewrite import_zone_state, import_asset_state.
  cbn [fst snd State]. rewrite ParseInt_Sprintf_d by done. cbn [fst].
  split; split.
  - apply Get_zone_object.
  - eapply Forall_impl; [ apply (calls_planned nre r OpZoneDelete) |].
    intros q ->. cbn [planned Url Path endpoint]. by rewrite Get_zone_object.
  - apply Get_asset_object.
  - eapply Forall_impl; [ apply (calls_planned nre r OpAssetDelete) |].
    intros q ->. cbn [planned Url Path endpoint]. by rewrite Get_asset_object.
Qed.

Lemma import_printed_identifier_sample :
  (ZoneResourceModel.Get
     (State (PanopZoneResource_ImportState (client (answer 200 Json.Invalid))
               {| ID := Go.Sprintf_d (-42) |} (fresh None)).2)
   = ([], ZoneResourceModel.mk StringNull (Int64Value (-42)) StringNull StringNull)
   /\ Forall (fun q => Path (Url q) = "/api/zones/" +:+ Go.Sprintf_d (-42))
        (PanopZoneResource_Delete url_ok (client (answer 200 Json.Invalid))
           {| DeleteState := State (PanopZoneResource_ImportState
                                      (client (answer 200 Json.Invalid))
                                      {| ID := Go.Sprintf_d (-42) |} (fresh None)).2 |}
           (fresh (State (PanopZoneResource_ImportState
                            (client (answer 200 Json.Invalid))
                            {| ID := Go.Sprintf_d (-42) |} (fresh None)).2))).1).
Proof.
  exact (proj1 (import_printed_identifier url_ok (client (answer 200 Json.Invalid))
                  (-42) eq_refl)).
Defined.

(** ** Configuration *)

Import configure.

(** The two-step rule of the source, which reads the variable and then
    replaces an empty value by a configured one, is the rule [in_force]. *)
Lemma in_force_rule (env : string) (v : StringT) :
  (if negb (config.IsNull v) && String.eqb env "" then ValueString v else env)
  = in_force env v.
Proof.
  unfold in_force.
  destruct (String.eqb env "") eqn:He; [| by rewrite andb_false_r ].
  apply String.eqb_eq in He. subst env. by destruct v.
Qed.

Lemma Get_provider_diags (raw : config.Data) :
  (PanopProviderModel.Get raw).1 = []
  \/ diag.HasError (PanopProviderModel.Get raw).1 = true.
Proof.
  unfold PanopProviderModel.Get. destruct raw as [o|]; [| by right ].
  destruct (bool_decide _); [| by right ].
  destruct (o !! "host") as [[]|], (o !! "skip_tls_verify") as [[]|],
    (o !! "access_key") as [[]|]; (by left) || (by right).
Qed.

(** X11.  The provider's Configure, given a configuration that fits its
    model, reports nothing and hands the same client to resources and data
    sources.  For the host and for the access key the environment variable
    ([PANOP_HOST], [PANOP_ACCESS_KEY]) wins whenever it is set to a
    non-empty string; the configured value is used otherwise, and a null or
    unknown one counts as empty.  The client skips the TLS verification
    only when [skip_tls_verify] is known and true. *)
Theorem provider_configure_settings (Getenv : string -> string) (dial : bool -> Client)
    (req : ProviderConfigureRequest) (resp : ProviderConfigureResponse) :
  diag.HasError (ProviderDiagnostics resp) = false ->
  (PanopProviderModel.Get (ProviderConfig req)).1 = [] ->
  PanopProvider_Configure Getenv dial req resp
  = {| ProviderDiagnostics := ProviderDiagnostics resp;
       DataSourceData := Some (AnyClient
         {| clientHttp := dial (config.ValueBool (PanopProviderModel.SkipTLSVerify
                                  (PanopProviderModel.Get (ProviderConfig req)).2));
            host := in_force (Getenv "PANOP_HOST")
                      (PanopProviderModel.Host
                         (PanopProviderModel.Get (ProviderConfig req)).2);
            accessKey := in_force (Getenv "PANOP_ACCESS_KEY")
                           (PanopProviderModel.AccessKey
                              (PanopProviderModel.Get (ProviderConfig req)).2) |});
       ResourceData := Some (AnyClient
         {| clientHttp := dial (config.ValueBool (PanopProviderModel.SkipTLSVerify
                                  (PanopProviderModel.Get (ProviderConfig req)).2));
            host := in_force (Getenv "PANOP_HOST")
                      (PanopProviderModel.Host
                         (PanopProviderModel.Get (ProviderConfig req)).2);
            accessKey := in_force (Getenv "PANOP_ACCESS_KEY")
                           (PanopProviderModel.AccessKey
                              (PanopProviderModel.Get (ProviderConfig req)).2) |}) |}.
Proof.
  intros Hclean Hget. unfold PanopProvider_Configure.
  destruct (PanopProviderModel.Get (ProviderConfig req)) as [ds data].
  cbn [fst snd] in *. subst ds. rewrite Append_nil, Hclean.
  by rewrite !in_force_rule.
Qed.

(** With [PANOP_HOST] set and [PANOP_ACCESS_KEY] not, the host of the
    environment replaces the configured one and the configured key is
    used. *)
Lemma provider_configure_settings_sample :
  PanopProvider_Configure (sample_provider.env "tower.example" "")
    (sample_provider.dial (answer 200 Json.Invalid))
    {| ProviderConfig := sample_provider.config_of (StringValue "other.example")
                           config.BoolNull (StringValue "k3y") |}
    {| ProviderDiagnostics := []; DataSourceData := None; ResourceData := None |}
  = {| ProviderDiagnostics := [];
       DataSourceData := Some (AnyClient
         {| clientHttp := sample_provider.dial (answer 200 Json.Invalid) false;
            host := "tower.example"; accessKey := "k3y" |});
       ResourceData := Some (AnyClient
         {| clientHttp := sample_provider.dial (answer 200 Json.Invalid) false;
            host := "tower.example"; accessKey := "k3y" |}) |}.
Proof.
  exact (provider_configure_settings (sample_provider.env "tower.example" "")
           (sample_provider.dial (answer 200 Json.Invalid))
           {| ProviderConfig := sample_provider.config_of (StringValue "other.example")
                                  config.BoolNull (StringValue "k3y") |}
           {| ProviderDiagnostics := []; DataSourceData := None; ResourceData := None |}
           eq_refl eq_refl).
Defined.

(** What an operation sends goes over https to the host of its client and
    starts with the bearer credential of its client. *)
Lemma calls_credentials (nre : URL -> option string) (r : clientObj)
    (op : operation) (d : Data) (resp : Response) :
  Forall (fun q => Scheme (Url q) = "https"
                   /\ Host (Url q) = host r
                   /\ head (Header q) = Some ("Authorization", "Bearer " +:+ accessKey r))
         (run nre r op d resp).1.
Proof.
  eapply Forall_impl; [ apply calls_planned |].
  intros q ->. by destruct op.
Qed.

(** X12.  From the provider to the wire.  Once the provider is configured
    from a configuration that fits, each of the two resources and of the
    two data sources, configured with what the provider hands out, accepts
    it without a diagnostic and holds the same client; and every request
    any operation then sends goes over https to the host in force and
    carries, as its first header, the access key in force as a bearer
    credential, through the client built for the configured TLS
    setting. *)
Theorem configured_requests (Getenv : string -> string) (dial : bool -> Client)
    (nre : URL -> option string) (req : ProviderConfigureRequest)
    (op : operation) (d : Data) (resp : Response) :
  (PanopProviderModel.Get (ProviderConfig req)).1 = [] ->
  exists c,
    PanopZoneResource_Configure None
      {| ProviderData := ResourceData (PanopProvider_Configure Getenv dial req
           {| ProviderDiagnostics := []; DataSourceData := None; ResourceData := None |}) |}
      [] = (Some c, [])
    /\ PanopAssetResource_Configure None
         {| ProviderData := ResourceData (PanopProvider_Configure Getenv dial req
              {| ProviderDiagnostics := []; DataSourceData := None;
                 ResourceData := None |}) |}
         [] = (Some c, [])
    /\ PanopZoneDataSource_Configure None
         {| ProviderData := DataSourceData (PanopProvider_Configure Getenv dial req
              {| ProviderDiagnostics := []; DataSourceData := None;
                 ResourceData := None |}) |}
         [] = (Some c, [])
    /\ PanopAssetDataSource_Configure None
         {| ProviderData := DataSourceData (PanopProvider_Configure Getenv dial req
              {| ProviderDiagnostics := []; DataSourceData := None;
                 ResourceData := None |}) |}
         [] = (Some c, [])
    /\ clientHttp c
       = dial (config.ValueBool (PanopProviderModel.SkipTLSVerify
                 (PanopProviderModel.Get (ProviderConfig req)).2))
    /\ Forall (fun q =>
          Scheme (Url q) = "https"
          /\ Host (Url q)
             = in_force (Getenv "PANOP_HOST")
                 (PanopProviderModel.Host (PanopProviderModel.Get (ProviderConfig req)).2)
          /\ head (Header q)
             = Some ("Authorization",
                     "Bearer " +:+ in_force (Getenv "PANOP_ACCESS_KEY")
                       (PanopProviderModel.AccessKey
                          (PanopProviderModel.Get (ProviderConfig req)).2)))
         (run nre c op d resp).1.
Proof.
  intros Hget. unfold PanopProvider_Configure.
  destruct (PanopProviderModel.Get (ProviderConfig req)) as [ds data].
  cbn [fst snd] in *. subst ds.
  cbn [ProviderDiagnostics diag.Append fold_left diag.HasError existsb
       DataSourceData ResourceData].
  rewrite !in_force_rule.
  eexists. split; [ reflexivity |]. do 3 (split; [ reflexivity |]).
  split; [ reflexivity |].
  cbn [clientHttp host accessKey].
  match goal with
  | |- Forall _ (run _ ?c _ _ _).1 => exact (calls_credentials nre c op d resp)
  end.
Qed.

Lemma configured_requests_sample :
  exists c,
    PanopZoneResource_Configure None
      {| ProviderData := ResourceData (PanopProvider_Configure
           (sample_provider.env "" "3nv") (sample_provider.dial (answer 201 sample.zone_created))
           {| ProviderConfig := sample_provider.config_of (StringValue "tower.example")
                                  (config.BoolValue true) StringNull |}
           {| ProviderDiagnostics := []; DataSourceData := None; ResourceData := None |}) |}
      [] = (Some c, [])
    /\ PanopAssetResource_Configure None
         {| ProviderData := ResourceData (PanopProvider_Configure
              (sample_provider.env "" "3nv")
              (sample_provider.dial (answer 201 sample.zone_created))
              {| ProviderConfig := sample_provider.config_of (StringValue "tower.example")
                                     (config.BoolValue true) StringNull |}
              {| ProviderDiagnostics := []; DataSourceData := None;
                 ResourceData := None |}) |}
         [] = (Some c, [])
    /\ PanopZoneDataSource_Configure None
         {| ProviderData := DataSourceData (PanopProvider_Configure
              (sample_provider.env "" "3nv")
              (sample_provider.dial (answer 201 sample.zone_created))
              {| ProviderConfig := sample_provider.config_of (StringValue "tower.example")
                                     (config.BoolValue true) StringNull |}
              {| ProviderDiagnostics := []; DataSourceData := None;
                 ResourceData := None |}) |}
         [] = (Some c, [])
    /\ PanopAssetDataSource_Configure None
         {| ProviderData := DataSourceData (PanopProvider_Configure
              (sample_provider.env "" "3nv")
              (sample_provider.dial (answer 201 sample.zone_created))
              {| ProviderConfig := sample_provider.config_of (StringValue "tower.example")
                                     (config.BoolValue true) StringNull |}
              {| ProviderDiagnostics := []; DataSourceData := None;
                 ResourceData := None |}) |}
         [] = (Some c, [])
    /\ clientHttp c
       = sample_provider.dial (answer 201 sample.zone_created)
           (config.ValueBool (PanopProviderModel.SkipTLSVerify
              (PanopProviderModel.Get
                 (ProviderConfig
                    {| ProviderConfig :=
                         sample_provider.config_of (StringValue "tower.example")
                           (config.BoolValue true) StringNull |})).2))
    /\ Forall (fun q =>
          Scheme (Url q) = "https"
          /\ Host (Url q)
             = in_force (sample_provider.env "" "3nv" "PANOP_HOST")
                 (PanopProviderModel.Host
                    (PanopProviderModel.Get
                       (ProviderConfig
                          {| ProviderConfig :=
                               sample_provider.config_of (StringValue "tower.example")
                                 (config.BoolValue true) StringNull |})).2)
          /\ head (Header q)
             = Some ("Authorization",
                     "Bearer " +:+ in_force (sample_provider.env "" "3nv" "PANOP_ACCESS_KEY")
                       (PanopProviderModel.AccessKey
                          (PanopProviderModel.Get
                             (ProviderConfig
                                {| ProviderConfig :=
                                     sample_provider.config_of (StringValue "tower.example")
                                       (config.BoolValue true) StringNull |})).2)))
         (run url_ok c OpZoneCreate sample.zone_plan (fresh None)).1.
Proof.
  exact (configured_requests (sample_provider.env "" "3nv")
           (sample_provider.dial (answer 201 sample.zone_created)) url_ok
           {| ProviderConfig := sample_provider.config_of (StringValue "tower.example")
                                  (config.BoolValue true) StringNull |}
           OpZoneCreate sample.zone_plan (fresh None) eq_refl).
Defined.

(** The zone Create of a provider configured with the host
    [tower.example], where the key comes from the environment. *)
Example configured_zone_create :
  map (fun q => (Host (Url q), head (Header q)))
    (PanopZoneResource_Create url_ok
       {| clientHttp := sample_provider.dial (answer 201 sample.zone_created) true;
          host := "tower.example"; accessKey := "3nv" |}
       {| CreatePlan := sample.zone_plan |} (fresh None)).1
  = [("tower.example", Some ("Authorization", "Bearer 3nv"))].
Proof. vm_compute. reflexivity. Qed.

(** X13.  A configuration that does not fit the provider's model: the
    provider reports an error and hands nothing out, and a resource or a
    data source configured with that nothing stays as it was and adds no
    diagnostic of its own. *)
Theorem unreadable_configuration (Getenv : string -> string) (dial : bool -> Client)
    (req : ProviderConfigureRequest) (r : option clientObj) (diags : diag.Diagnostics) :
  diag.HasError (PanopProviderModel.Get (ProviderConfig req)).1 = true ->
  diag.HasError (ProviderDiagnostics (PanopProvider_Configure Getenv dial req
     {| ProviderDiagnostics := []; DataSourceData := None; ResourceData := None |})) = true
  /\ PanopZoneResource_Configure r
       {| ProviderData := ResourceData (PanopProvider_Configure Getenv dial req
            {| ProviderDiagnostics := []; DataSourceData := None; ResourceData := None |}) |}
       diags = (r, diags)
  /\ PanopAssetResource_Configure r
       {| ProviderData := ResourceData (PanopProvider_Configure Getenv dial req
            {| ProviderDiagnostics := []; DataSourceData := None; ResourceData := None |}) |}
       diags = (r, diags)
  /\ PanopZoneDataSource_Configure r
       {| ProviderData := DataSourceData (PanopProvider_Configure Getenv dial req
            {| ProviderDiagnostics := []; DataSourceData := None; ResourceData := None |}) |}
       diags = (r, diags)
  /\ PanopAssetDataSource_Configure r
       {| ProviderData := DataSourceData (PanopProvider_Configure Getenv dial req
            {| ProviderDiagnostics := []; DataSourceData := None; ResourceData := None |}) |}
       diags = (r, diags).
Proof.
  intros Herr. unfold PanopProvider_Configure.
  destruct (PanopProviderModel.Get (ProviderConfig req)) as [ds data].
  cbn [fst snd ProviderDiagnostics] in *.
  rewrite HasError_Append, Herr. cbn [diag.HasError existsb orb].
  cbn [ProviderDiagnostics]. rewrite HasError_Append, Herr.
  by repeat split.
Qed.

Lemma unreadable_configuration_sample :
  diag.HasError (ProviderDiagnostics (PanopProvider_Configure
     (sample_provider.env "tower.example" "3nv")
     (sample_provider.dial (answer 200 Json.Invalid))
     {| ProviderConfig := None |}
     {| ProviderDiagnostics := []; DataSourceData := None; ResourceData := None |})) = true
  /\ PanopZoneResource_Configure None
       {| ProviderData := ResourceData (PanopProvider_Configure
            (sample_provider.env "tower.example" "3nv")
            (sample_provider.dial (answer 200 Json.Invalid))
            {| ProviderConfig := None |}
            {| ProviderDiagnostics := []; DataSourceData := None; ResourceData := None |}) |}
       [] = (None, [])
  /\ PanopAssetResource_Configure None
       {| ProviderData := ResourceData (PanopProvider_Configure
            (sample_provider.env "tower.example" "3nv")
            (sample_provider.dial (answer 200 Json.Invalid))
            {| ProviderConfig := None |}
            {| ProviderDiagnostics := []; DataSourceData := None; ResourceData := None |}) |}
       [] = (None, [])
  /\ PanopZoneDataSource_Configure None
       {| ProviderData := DataSourceData (PanopProvider_Configure
            (sample_provider.env "tower.example" "3nv")
            (sample_provider.dial (answer 200 Json.Invalid))
            {| ProviderConfig := None |}
            {| ProviderDiagnostics := []; DataSourceData := None; ResourceData := None |}) |}
       [] = (None, [])
  /\ PanopAssetDataSource_Configure None
       {| ProviderData := DataSourceData (PanopProvider_Configure
            (sample_provider.env "tower.example" "3nv")
            (sample_provider.dial (answer 200 Json.Invalid))
            {| ProviderConfig := None |}
            {| ProviderDiagnostics := []; DataSourceData := None; ResourceData := None |}) |}
       [] = (None, []).
Proof.
  exact (unreadable_configuration (sample_provider.env "tower.example" "3nv")
           (sample_provider.dial (answer 200 Json.Invalid))
           {| ProviderConfig := None |} None [] eq_refl).
Defined.

(** ** The listers *)

(** X14.  The zone lister that receives 200 with a readable body lists the
    zones its configuration already held followed by one entry per decoded
    zone, in the order of the decoded collection.  For a body that is a
    JSON array that is one entry per element of the array, whatever the
    elements are: an element that is not an object is listed as a zone of
    zero values. *)
Theorem zone_lister_appends (nre : URL -> option string) (d : clientObj)
    (req : DataSourceReadRequest) (resp : Response) (httpResp : http.Response)
    (body : Json.document) :
  receives d (PanopZoneDataSource_Read nre d req resp) httpResp ->
  StatusCode httpResp = StatusOK ->
  Body httpResp = inr body ->
  listed_zones (State (PanopZoneDataSource_Read nre d req resp).2)
  = listed_zones (Config req)
    ++ map zone_entry
         (Json.Unmarshal_slice ZoneListResponse.fields ZoneListResponse.zero body).1
  /\ (forall elems, body = Json.Valid (Json.Array elems) ->
        length (listed_zones (State (PanopZoneDataSource_Read nre d req resp).2))
        = (length (listed_zones (Config req)) + length elems)%nat).
Proof.
  intros Hrecv Hcode Hbody.
  destruct (zone_list_path _ _ _ _ _ _ Hrecv Hcode Hbody) as (_ & _ & ->).
  cbn [State]. unfold listed_zones at 1 3. rewrite Get_zone_data_object.
  cbn [snd PanopZoneDataSourceModel.Zones].
  rewrite collect_zones_entries. split; [ reflexivity |].
  intros elems ->. rewrite Unmarshal_slice_array.
  by rewrite length_app, !length_map.
Qed.

Lemma zone_lister_appends_sample :
  listed_zones (State (PanopZoneDataSource_Read url_ok (client (answer 200 sample.two_zones))
                         {| Config := sample.zone_config |} (fresh None)).2)
  = listed_zones (Config {| Config := sample.zone_config |})
    ++ map zone_entry
         (Json.Unmarshal_slice ZoneListResponse.fields ZoneListResponse.zero
            sample.two_zones).1
  /\ (forall elems, sample.two_zones = Json.Valid (Json.Array elems) ->
        length (listed_zones
                  (State (PanopZoneDataSource_Read url_ok
                            (client (answer 200 sample.two_zones))
                            {| Config := sample.zone_config |} (fresh None)).2))
        = (length (listed_zones (Config {| Config := sample.zone_config |}))
           + length elems)%nat).
Proof.
  apply zone_lister_appends with (httpResp := answer 200 sample.two_zones).
  - eexists. split; reflexivity.
  - reflexivity.
  - reflexivity.
Defined.

Lemma filter_asset_entries (z : Z) (assets : list AssetReadResponse.t) :
  map asset_entry (List.filter (fun a => AssetReadResponse.ZoneId a =? z) assets)
  = List.filter (fun e => bool_decide (AssetDataSourceModel.ZoneId e = Int64Value z))
      (map asset_entry assets).
Proof.
  induction assets as [|a assets IH]; [ reflexivity |].
  cbn [List.filter map].
  assert (Hb : bool_decide (AssetDataSourceModel.ZoneId (asset_entry a) = Int64Value z)
               = (AssetReadResponse.ZoneId a =? z)).
  { cbn [asset_entry AssetDataSourceModel.ZoneId].
    destruct (AssetReadResponse.ZoneId a =? z) eqn:Hz.
    - apply Z.eqb_eq in Hz. apply bool_decide_eq_true_2. by rewrite Hz.
    - apply Z.eqb_neq in Hz. apply bool_decide_eq_false_2. congruence. }
  rewrite Hb. destruct (AssetReadResponse.ZoneId a =? z); cbn [map]; by rewrite IH.
Qed.

(** X15.  Filtering is done on the client side, over the one listing of
    the service: what the asset lister lists under the filter [z] is what
    it lists without a filter, restricted to the entries whose [zone_id] is
    [z], in the same order, on every outcome of the call. *)
Theorem filtered_listing_is_sublisting (nre : URL -> option string) (d : clientObj)
    (z : Z) (resp : Response) :
  State resp = None ->
  (PanopAssetDataSource_Read nre d
     {| Config := Some (asset_data_object
                          (PanopAssetDataSourceModel.mk (Int64Value z) None)) |} resp).1
  = (PanopAssetDataSource_Read nre d
       {| Config := Some (asset_data_object
                            (PanopAssetDataSourceModel.mk Int64Null None)) |} resp).1
  /\ listed_assets
       (State (PanopAssetDataSource_Read nre d
                 {| Config := Some (asset_data_object
                                      (PanopAssetDataSourceModel.mk (Int64Value z) None)) |}
                 resp).2)
     = List.filter (fun e => bool_decide (AssetDataSourceModel.ZoneId e = Int64Value z))
         (listed_assets
            (State (PanopAssetDataSource_Read nre d
                      {| Config := Some (asset_data_object
                                           (PanopAssetDataSourceModel.mk Int64Null None)) |}
                      resp).2)).
Proof.
  intros Hst. unfold PanopAssetDataSource_Read. cbn [Config].
  rewrite !Get_asset_data_object. rewrite provider_Append_nil.
  assert (Hnone : listed_assets (State resp) = []) by (by rewrite Hst).
  destruct (HasError resp); cbn [fst snd]; [ by rewrite Hnone |].
  unfold NewRequest.
  match goal with |- context [nre ?u] => destruct (nre u) end;
    cbn [fst snd AddError State]; [ by rewrite Hnone |].
  split; [ reflexivity |].
  after_request; cbn [AddError State]; try (by rewrite Hnone).
  rewrite !StateSet_asset_data. cbn [State]. unfold listed_assets.
  rewrite !Get_asset_data_object.
  cbn [snd PanopAssetDataSourceModel.Assets PanopAssetDataSourceModel.ZoneId].
  change (Int64Value z) with (filter_value (Some z)) at 1.
  change Int64Null with (filter_value None).
  rewrite !collect_assets_filter. cbn [default app filter_by_zone].
  apply filter_asset_entries.
Qed.

Lemma filtered_listing_is_sublisting_sample :
  (PanopAssetDataSource_Read url_ok (client (answer 200 sample.three_assets))
     {| Config := Some (asset_data_object
                          (PanopAssetDataSourceModel.mk (Int64Value 1) None)) |}
     (fresh None)).1
  = (PanopAssetDataSource_Read url_ok (client (answer 200 sample.three_assets))
       {| Config := Some (asset_data_object
                            (PanopAssetDataSourceModel.mk Int64Null None)) |}
       (fresh None)).1
  /\ listed_assets
       (State (PanopAssetDataSource_Read url_ok (client (answer 200 sample.three_assets))
                 {| Config := Some (asset_data_object
                                      (PanopAssetDataSourceModel.mk (Int64Value 1) None)) |}
                 (fresh None)).2)
     = List.filter (fun e => bool_decide (AssetDataSourceModel.ZoneId e = Int64Value 1))
         (listed_assets
            (State (PanopAssetDataSource_Read url_ok
                      (client (answer 200 sample.three_assets))
                      {| Config := Some (asset_data_object
                                           (PanopAssetDataSourceModel.mk Int64Null None)) |}
                      (fresh None)).2)).
Proof. apply filtered_listing_is_sublisting. reflexivity. Defined.

(** ** Update of a zone *)

(** X16.  The zone Update sends nothing, and ends in one of two ways.  The
    plan fits the zone model and no error was pending: then the state it
    leaves is the plan, as it is, with no diagnostic added.  Or it reports
    an error and leaves the state as it found it. *)
Theorem zone_update_outcome (r : clientObj) (req : UpdateRequest) (resp : Response) :
  (PanopZoneResource_Update r req resp).1 = []
  /\ (((ZoneResourceModel.Get (UpdatePlan req)).1 = []
       /\ HasError resp = false
       /\ (PanopZoneResource_Update r req resp).2
          = {| State := UpdatePlan req; Diagnostics := Diagnostics resp |})
      \/ (HasError (PanopZoneResource_Update r req resp).2 = true
          /\ State (PanopZoneResource_Update r req resp).2 = State resp)).
Proof.
  pose proof (Get_zone_diags (UpdatePlan req)) as Hdiags.
  unfold PanopZoneResource_Update.
  destruct (ZoneResourceModel.Get (UpdatePlan req)) as [ds data] eqn:HG.
  cbn [fst snd] in *.
  destruct (HasError (Append resp ds)) eqn:He; cbn [fst snd].
  - split; [ reflexivity |]. right. by split.
  - destruct (clean_start _ _ He Hdiags) as (-> & -> & Hclean).
    split; [ reflexivity |]. left.
    rewrite StateSet_zone. by rewrite (Get_zone_ok _ _ HG).
Qed.
